(** * Measurement body resolution: archive extraction and source fallback

    A shallow embedding of the body-fetching code of
    [api/ooniapi/measurements.py] together with the frame decompressor
    that the unit test [tests/unit/test_autoclaved.py] exercises. *)

From Stdlib Require Import Strings.String Strings.Ascii Strings.Byte Arith ZArith Lia Bool List.
Import ListNotations.

(** ** Frame Decompressor *)

Module FrameDecompressor.

Definition bytes := list byte.

(** The error kinds of the extraction component. *)
Inductive error := SourceUnavailable | CorruptArchive.

(** How the lazy chunk sequence ends. *)
Inductive status := Done | Failed (e : error).

(** Modelled from the spec: the coordinates of section 3, the arguments
    the unit test passes to [decompress_autoclaved]. *)
Record ArchiveCoordinates := mkCoords {
  container_path : string;
  frame_byte_offset : nat;
  frame_byte_length : nat;
  intra_frame_offset : nat;
  logical_length : nat }.

(** Modelled from the spec: the container range-read of section 6,
    [frame_byte_length] bytes starting at [frame_byte_offset]. *)
Definition read_range (content : bytes) (off len : nat) : bytes :=
  firstn len (skipn off content).

Section Extract.

(** The block decompression primitive: decodes the self-delimited frame
    at the head of a compressed stream and hands back what follows it;
    [None] is a decompression error. *)
Variable next_frame : bytes -> option (bytes * bytes).

(** Object storage: a container path names its compressed content, or
    the container is unreadable. *)
Variable storage : string -> option bytes.

(** Modelled from the spec: the generator [decompress_autoclaved] of
    [measurements.pages], which is imported by the unit test but is not
    part of the source tree.  The loop follows section 4.1: a running
    count [produced] of decompressed bytes, bytes dropped until it
    reaches [intra], bytes yielded until [len] of them went out, a
    truncated or undecodable stream reported as [CorruptArchive].  The
    result is the list of chunks yielded and the way the sequence ended;
    [None] only when [fuel] frames were not enough. *)
Fixpoint extract_loop (fuel : nat) (c : bytes) (produced yielded intra len : nat)
  : option (list bytes * status) :=
  if len <=? yielded then Some ([], Done)
  else match c with
       | [] => Some ([], Failed CorruptArchive)
       | _ :: _ =>
         match fuel with
         | 0 => None
         | S fuel' =>
           match next_frame c with
           | None => Some ([], Failed CorruptArchive)
           | Some (f, r) =>
             let chunk := firstn (len - yielded) (skipn (intra - produced) f) in
             match extract_loop fuel' r (produced + length f)
                                (yielded + length chunk) intra len with
             | None => None
             | Some (cs, st) =>
               Some (match chunk with [] => cs | _ :: _ => chunk :: cs end, st)
             end
           end
         end
       end.

(** Modelled from the spec: the contract [extract(container, coords)] of
    section 4.1, steps 1 to 4. *)
Definition extract (co : ArchiveCoordinates) : option (list bytes * status) :=
  match storage (container_path co) with
  | None => Some ([], Failed SourceUnavailable)
  | Some content =>
    let range := read_range content (frame_byte_offset co) (frame_byte_length co) in
    extract_loop (length range) range 0 0
                 (intra_frame_offset co) (logical_length co)
  end.

(** [decodes c fs r]: the stream [c] starts with the frames whose
    decompressed contents are [fs], and [r] is what follows them. *)
Inductive decodes : bytes -> list bytes -> bytes -> Prop :=
| decodes_nil c : decodes c [] c
| decodes_cons c f r fs r' :
    c <> [] -> next_frame c = Some (f, r) -> decodes r fs r' ->
    decodes c (f :: fs) r'.

(** Every frame occupies at least one compressed byte. *)
Definition consuming : Prop :=
  forall c f r, next_frame c = Some (f, r) -> length r < length c.

(** The coordinates [co] are valid for the original record [rec]. *)
Definition valid_for (co : ArchiveCoordinates) (rec : bytes) : Prop :=
  exists content fs rest pre post,
    storage (container_path co) = Some content /\
    decodes (read_range content (frame_byte_offset co) (frame_byte_length co))
            fs rest /\
    concat fs = pre ++ rec ++ post /\
    length pre = intra_frame_offset co /\
    length rec = logical_length co /\
    0 < logical_length co.

End Extract.

(** A toy codec for running the extractor: a frame is a length byte
    followed by that many stored bytes. *)
Definition stored_frame (c : bytes) : option (bytes * bytes) :=
  match c with
  | [] => None
  | n :: tl =>
    if Byte.to_nat n <=? length tl
    then Some (firstn (Byte.to_nat n) tl, skipn (Byte.to_nat n) tl)
    else None
  end.

End FrameDecompressor.

(** ** Python values and string primitives

    A [str] is a [string], its characters being the 8-bit code points; a
    [bytes] is a list of [byte]. *)

Module Py.

Definition bytes := list byte.

(** [s.count(c)] for a one-character pattern. *)
Fixpoint count (c : ascii) (s : string) : nat :=
  match s with
  | EmptyString => 0
  | String a s' => (if Ascii.eqb a c then 1 else 0) + count c s'
  end.

(** [s.split(c)] for a one-character separator: never empty, and an empty
    field between two adjacent separators. *)
Fixpoint split (c : ascii) (s : string) : list string :=
  match s with
  | EmptyString => [EmptyString]
  | String a s' =>
    if Ascii.eqb a c then EmptyString :: split c s'
    else match split c s' with
         | [] => [String a EmptyString]
         | w :: ws => String a w :: ws
         end
  end.

(** [s.startswith(p)]. *)
Definition startswith (p s : string) : bool := String.prefix p s.

(** [s[:n]]. *)
Fixpoint take (n : nat) (s : string) : string :=
  match n, s with
  | S n', String a s' => String a (take n' s')
  | _, _ => EmptyString
  end.

(** [a > b] on [str]: the order of the code points, a proper prefix being
    smaller. *)
Definition str_gt (a b : string) : bool :=
  match String.compare a b with Gt => true | _ => false end.

Definition is_digit (c : ascii) : bool :=
  let n := nat_of_ascii c in (48 <=? n) && (n <=? 57).

(** The white space [int()] strips, among the 8-bit code points: the
    ASCII characters from the tab to the carriage return and the space,
    and U+0085 and U+00A0, which [int()] turns into spaces before it
    parses.  The separators U+001C to U+001F are not stripped. *)
Definition is_space (c : ascii) : bool :=
  let n := nat_of_ascii c in
  ((9 <=? n) && (n <=? 13)) || (n =? 32) || (n =? 133) || (n =? 160).

Fixpoint lstrip (l : list ascii) : list ascii :=
  match l with
  | c :: l' => if is_space c then lstrip l' else l
  | [] => []
  end.

Definition strip (l : list ascii) : list ascii := rev (lstrip (rev (lstrip l))).

(** The digit part of an integer literal: digits, with single underscores
    allowed between two digits. *)
Fixpoint int_digits (after_digit : bool) (l : list ascii) : bool :=
  match l with
  | [] => after_digit
  | c :: l' =>
    if is_digit c then int_digits true l'
    else if Ascii.eqb c "_"%char then after_digit && int_digits false l'
    else false
  end.

(** [int(s)] succeeds: white space around, an optional sign, then the
    digits.  The code discards the value, only a [ValueError] matters. *)
Definition int_ok (s : string) : bool :=
  match strip (list_ascii_of_string s) with
  | [] => false
  | c :: l =>
    if Ascii.eqb c "+"%char || Ascii.eqb c "-"%char then int_digits false l
    else int_digits false (c :: l)
  end.

(** An hour prefix in figures: decimal digits, at least one, and after
    them nothing but white space. *)
Fixpoint digits_then_spaces (after_digit : bool) (l : list ascii) : bool :=
  match l with
  | [] => after_digit
  | c :: l' =>
    if is_digit c then digits_then_spaces true l'
    else after_digit && forallb is_space l
  end.

Definition numeric_hour (s : string) : bool :=
  digits_then_spaces false (list_ascii_of_string s).

(** [s.isdecimal()] on the 8-bit code points: decimal digits only, and
    at least one. *)
Definition all_digits (s : string) : bool :=
  match s with
  | EmptyString => false
  | _ => forallb is_digit (list_ascii_of_string s)
  end.

(** [bool(v)] of an [Optional[bytes]]: neither [None] nor empty. *)
Definition truthy (v : option bytes) : bool :=
  match v with
  | Some (_ :: _) => true
  | _ => false
  end.

(** [s.encode()]: UTF-8 of the 8-bit code points. *)
Definition encode_char (c : ascii) : bytes :=
  let n := nat_of_ascii c in
  if n <? 128 then [byte_of_ascii c]
  else match Byte.of_nat (192 + n / 64), Byte.of_nat (128 + n mod 64) with
       | Some hi, Some lo => [hi; lo]
       | _, _ => []
       end.

Fixpoint encode (s : string) : bytes :=
  match s with
  | EmptyString => []
  | String c s' => encode_char c ++ encode s'
  end.

(** What [ujson] decodes to.  The code looks at the keys of the wrapper
    and at the format only, numbers stand for any JSON number. *)
#[warnings="-register-all"] Inductive json :=
| JNull
| JBool (b : bool)
| JNum (n : nat)
| JStr (s : string)
| JList (l : list json)
| JDict (d : list (string * json)).

Fixpoint dict_lookup (k : string) (d : list (string * json)) : option json :=
  match d with
  | [] => None
  | (k', v) :: d' => if String.eqb k k' then Some v else dict_lookup k d'
  end.

End Py.

(** ** Effects: what a probe does to the outside, and how it ends *)

Module Eff.

(** The exceptions of the code, named after the error kinds they stand for. *)
Inductive exn :=
| MalformedIdentifier  (* AssertionError of the prefix check, ValueError of the unpacking and of int() *)
| SourceUnavailable    (* an OSError other than FileNotFoundError, a transport or database error *)
| MalformedPayload     (* ujson's ValueError, AttributeError or Exception("Unexpected format") of _unwrap_post *)
| CorruptArchive       (* a gzip error while the object is read *)
| MsmtNotFound.        (* the HTTPException subclass raised when nothing is found *)

Inductive event :=
| Timer (name : string)               (* a function under @metrics.timer was entered *)
| FsOpen (path : string)              (* postf.open() under the spool directory *)
| HttpGet (hostname path : string)    (* urllib_pool.request("GET", ...) *)
| QueryByUid (uid : string)                     (* query_click_one_row, lookup by uid *)
| QueryByReportInput (report_id input : string) (* query_click_one_row, lookup by pair *)
| S3Get (s3path : string).            (* urlopen of the object *)

Inductive result (A : Type) :=
| Ret (a : A)
| Raise (e : exn).
Arguments Ret {A} a.
Arguments Raise {A} e.

(** A computation: the events it performed, in order, and its outcome. *)
Definition M (A : Type) : Type := list event * result A.

Definition ret {A} (a : A) : M A := ([], Ret a).
Definition raise {A} (e : exn) : M A := ([], Raise e).
Definition emit (ev : event) : M unit := ([ev], Ret tt).

Definition bind {A B} (m : M A) (k : A -> M B) : M B :=
  match m with
  | (tr, Ret a) => let (tr', r) := k a in (tr ++ tr', r)
  | (tr, Raise e) => (tr, Raise e)
  end.

(** [try: m  except Exception: h]. *)
Definition catch {A} (m : M A) (h : exn -> M A) : M A :=
  match m with
  | (tr, Raise e) => let (tr', r) := h e in (tr ++ tr', r)
  | _ => m
  end.

(** A function decorated with [@metrics.timer(name)]. *)
Definition timed {A} (name : string) (m : M A) : M A :=
  (Timer name :: fst m, snd m).

Definition trace {A} (m : M A) : list event := fst m.
Definition outcome {A} (m : M A) : result A := snd m.

Declare Scope eff_scope.
Delimit Scope eff_scope with eff.
Notation "x <- m ;; k" := (bind m (fun x => k))
  (at level 61, m at next level, right associativity) : eff_scope.
Notation "m ;;; k" := (bind m (fun _ => k))
  (at level 61, right associativity) : eff_scope.

End Eff.

(** ** Time: [datetime], [timedelta(hours=1)] and [strftime] *)

Module Clock.

Record datetime := mkDatetime {
  year : nat; month : nat; day : nat;
  hour : nat; minute : nat; second : nat }.

Definition is_leap (y : nat) : bool :=
  (y mod 4 =? 0) && (negb (y mod 100 =? 0) || (y mod 400 =? 0)).

Definition days_in_month (y m : nat) : nat :=
  match m with
  | 2 => if is_leap y then 29 else 28
  | 4 | 6 | 9 | 11 => 30
  | _ => 31
  end.

Definition well_formed (t : datetime) : Prop :=
  1 <= year t < 100 * 100 /\ 1 <= month t <= 12 /\
  1 <= day t <= days_in_month (year t) (month t) /\
  hour t < 24 /\ minute t < 60 /\ second t < 60.

(** [t - timedelta(hours=1)].  In the first hour of year 1 Python raises
    an OverflowError instead; the statements below take a later clock. *)
Definition sub_hour (t : datetime) : datetime :=
  if 1 <=? hour t then
    mkDatetime (year t) (month t) (day t) (hour t - 1) (minute t) (second t)
  else if 2 <=? day t then
    mkDatetime (year t) (month t) (day t - 1) 23 (minute t) (second t)
  else if 2 <=? month t then
    mkDatetime (year t) (month t - 1) (days_in_month (year t) (month t - 1)) 23
               (minute t) (second t)
  else
    mkDatetime (year t - 1) 12 31 23 (minute t) (second t).

Definition digit (n : nat) : ascii := ascii_of_nat (48 + n mod 10).

(** A two-digit, zero-padded field ([%m], [%d], [%H], [%M], [%S]). *)
Definition pad2 (n : nat) (k : string) : string :=
  String (digit (n / 10)) (String (digit n) k).

(** [%Y]: four digits. *)
Definition pad4 (n : nat) (k : string) : string :=
  pad2 (n / 100) (pad2 (n mod 100) k).

(** [t.strftime("%Y%m%d%H%M")] followed by [k]. *)
Definition strftime_YmdHM (t : datetime) (k : string) : string :=
  pad4 (year t) (pad2 (month t) (pad2 (day t) (pad2 (hour t) (pad2 (minute t) k)))).

(** The 14-digit timestamp that opens a measurement uid. *)
Definition strftime_YmdHMS (t : datetime) (k : string) : string :=
  strftime_YmdHM t (pad2 (second t) k).

(** Chronological order, as [datetime.__le__]. *)
Definition key (t : datetime) : list nat :=
  [year t; month t; day t; hour t; minute t; second t].

Fixpoint lex_leb (a b : list nat) : bool :=
  match a, b with
  | x :: a', y :: b' => (x <? y) || ((x =? y) && lex_leb a' b')
  | [], _ => true
  | _ :: _, [] => false
  end.

Definition leb (a b : datetime) : bool := lex_leb (key a) (key b).

(** The instant [t] lies within the hour that ends at [now]. *)
Definition within_last_hour (now t : datetime) : bool :=
  leb (sub_hour now) t && leb t now.

(** The fields a formatted datetime has room for. *)
Definition printable (t : datetime) : Prop :=
  year t < 100 * 100 /\ month t < 100 /\ day t < 100 /\ hour t < 100 /\ minute t < 100.

(** The minute a datetime falls in. *)
Definition minute_of (t : datetime) : datetime :=
  mkDatetime (year t) (month t) (day t) (hour t) (minute t) 0.

End Clock.

(** ** The sources: spool directory, peer hosts, index and object storage *)

Module Sources.
Import Py Eff Clock.
Local Open Scope eff_scope.

(** What opening and reading a spool file gives. *)
Inductive file_read :=
| NoSuchFile                 (* FileNotFoundError *)
| Unreadable                 (* any other OSError *)
| Content (data : bytes).

(** What a GET on a peer host gives. *)
Inductive http_result :=
| TransportError
| Response (status : nat) (data : bytes).

(** What reading the gzip object gives: the lines that can be read, and
    whether the stream is intact after them. *)
Inductive s3_result :=
| S3Unreachable
| S3Stream (lines : list bytes) (intact : bool).

Record fastpath_row := mkFastpath {
  fp_measurement_uid : string; fp_report_id : string; fp_input : string }.

Record jsonl_row := mkJsonl {
  j_report_id : string; j_input : string; j_s3path : string; j_linenum : nat }.

Record Database := mkDatabase {
  fastpath : list fastpath_row;
  jsonl : list jsonl_row }.

(** Everything outside the functions: the clock, the configuration, the
    collaborators and the [ujson] codec. *)
Record Env := mkEnv {
  utcnow : datetime;
  other_collectors : list string;                 (* config["OTHER_COLLECTORS"] *)
  spool_file : string -> file_read;               (* by path under the spool directory *)
  http_get : string -> string -> http_result;     (* by host name and path under /measurement_spool/ *)
  database : option Database;                     (* [None]: the database cannot be reached *)
  s3_object : string -> s3_result;                (* by s3path in the configured bucket *)
  ujson_loads : bytes -> option json;             (* [None]: ValueError *)
  ujson_dumps : json -> string }.

(** The rows the query of [measurement_uid_to_s3path_linenum] selects:
    [jsonl] rows whose [(report_id, input)] is among the pairs that
    [fastpath] holds for the uid. *)
Definition pairs_of_uid (db : Database) (uid : string) : list (string * string) :=
  map (fun f => (fp_report_id f, fp_input f))
      (filter (fun f => String.eqb (fp_measurement_uid f) uid) (fastpath db)).

Definition pair_in (p : string * string) (ps : list (string * string)) : bool :=
  existsb (fun q => String.eqb (fst p) (fst q) && String.eqb (snd p) (snd q)) ps.

Definition select_by_uid (db : Database) (uid : string) : list jsonl_row :=
  filter (fun j => pair_in (j_report_id j, j_input j) (pairs_of_uid db uid)) (jsonl db).

(** A [jsonl] row is joined to a uid when [fastpath] holds the uid with
    the row's [(report_id, input)] pair. *)
Definition joined (db : Database) (uid : string) (f : fastpath_row) (j : jsonl_row) : Prop :=
  In f (fastpath db) /\ In j (jsonl db) /\
  fp_measurement_uid f = uid /\
  j_report_id j = fp_report_id f /\ j_input j = fp_input f.

(** The rows the query of [report_id_input_to_s3path_linenum] selects. *)
Definition select_by_report_input (db : Database) (rid inp : string) : list jsonl_row :=
  filter (fun j => String.eqb (j_report_id j) rid && String.eqb (j_input j) inp) (jsonl db).

(** Modelled from the spec: [query_click_one_row] of [ooniapi.database],
    which is not part of the source tree; it runs the query and gives at
    most one row ([LIMIT 1]), the absence of a row being a normal
    outcome. *)
Definition query_click_one_row (env : Env) (ev : event)
           (select : Database -> list jsonl_row) : M (option jsonl_row) :=
  emit ev ;;;
  match database env with
  | None => raise SourceUnavailable
  | Some db => ret (hd_error (select db))
  end.

Definition measurement_uid_to_s3path_linenum (env : Env) (measurement_uid : string)
  : M (string * nat) :=
  lookup <- query_click_one_row env (QueryByUid measurement_uid)
              (fun db => select_by_uid db measurement_uid) ;;
  match lookup with
  | None => raise MsmtNotFound
  | Some row => ret (j_s3path row, j_linenum row)
  end.

Definition report_id_input_to_s3path_linenum (env : Env) (report_id input : string)
  : M (string * nat) :=
  lookup <- query_click_one_row env (QueryByReportInput report_id input)
              (fun db => select_by_report_input db report_id input) ;;
  match lookup with
  | None => raise MsmtNotFound
  | Some row => ret (j_s3path row, j_linenum row)
  end.

Definition _fetch_jsonl_measurement_body_from_s3 (env : Env) (s3path : string)
           (linenum : nat) : M bytes :=
  timed "_fetch_jsonl_measurement_body_from_s3" (
    emit (S3Get s3path) ;;;
    match s3_object env s3path with
    | S3Unreachable => raise SourceUnavailable
    | S3Stream lines intact =>
      match nth_error lines linenum with
      | Some line => ret line
      | None => if intact then raise MsmtNotFound else raise CorruptArchive
      end
    end).

Definition _fetch_jsonl_measurement_body_clickhouse (env : Env) (report_id : string)
           (input : option string) (measurement_uid : option string)
  : M (option bytes) :=
  timed "_fetch_jsonl_measurement_body_clickhouse" (
    loc <- match measurement_uid with
           | Some uid =>
             catch (x <- measurement_uid_to_s3path_linenum env uid ;; ret (Some x))
                   (fun e => match e with
                             | MsmtNotFound => ret None
                             | _ => raise e
                             end)
           | None =>
             let inp := match input with
                        | Some (String a i) => String a i
                        | _ => EmptyString
                        end in
             catch (x <- report_id_input_to_s3path_linenum env report_id inp ;;
                    ret (Some x))
                   (fun _ => ret None)
           end ;;
    match loc with
    | None => ret None
    | Some (s3path, linenum) =>
      catch (line <- _fetch_jsonl_measurement_body_from_s3 env s3path linenum ;;
             ret (Some line))
            (fun _ => ret None)
    end).

Definition _unwrap_post (post : json) : M json :=
  match post with
  | JDict d =>
    let fmt := match dict_lookup "format" d with Some v => v | None => JStr "" end in
    match fmt with
    | JStr f =>
      if String.eqb f "json"
      then ret (match dict_lookup "content" d with Some v => v | None => JDict [] end)
      else raise MalformedPayload
    | _ => raise MalformedPayload
    end
  | _ => raise MalformedPayload
  end.

(** The lines both probes start with: the prefix check, the unpacking of
    the four fields, the hour and its [int()], then the path
    [f"{hour}_{cc}_{testname}/{msmt_uid}.post"]. *)
Definition spool_path (msmt_uid : string) : M string :=
  if negb (startswith "20" msmt_uid) then raise MalformedIdentifier
  else match split "_" msmt_uid with
       | [tstamp; cc; testname; hash_] =>
         let hour := take 10 tstamp in
         if negb (int_ok hour) then raise MalformedIdentifier
         else ret (hour ++ "_" ++ cc ++ "_" ++ testname ++ "/" ++ msmt_uid ++ ".post")%string
       | _ => raise MalformedIdentifier
       end.

Definition load_post (env : Env) (data : bytes) : M json :=
  match ujson_loads env data with
  | None => raise MalformedPayload
  | Some post => ret post
  end.

Definition _fetch_measurement_body_on_disk_by_msmt_uid (env : Env) (msmt_uid : string)
  : M (option bytes) :=
  timed "_fetch_measurement_body_on_disk_by_msmt_uid" (
    postf <- spool_path msmt_uid ;;
    emit (FsOpen postf) ;;;
    match spool_file env postf with
    | NoSuchFile => ret None
    | Unreadable => raise SourceUnavailable
    | Content data =>
      post <- load_post env data ;;
      body <- _unwrap_post post ;;
      ret (Some (encode (ujson_dumps env body)))
    end).

(** The [for hostname in ...] loop of the peer-host probe. *)
Fixpoint hosts_loop (env : Env) (path : string) (hosts : list string)
  : M (option bytes) :=
  match hosts with
  | [] => ret None
  | hostname :: rest =>
    emit (HttpGet hostname path) ;;;
    match http_get env hostname path with
    | TransportError => hosts_loop env path rest
    | Response status data =>
      if status =? 404 then hosts_loop env path rest
      else if negb (status =? 200) then hosts_loop env path rest
      else
        attempt <- catch (post <- load_post env data ;;
                          body <- _unwrap_post post ;;
                          ret (Some (encode (ujson_dumps env body))))
                         (fun _ => ret None) ;;
        match attempt with
        | Some b => ret (Some b)
        | None => hosts_loop env path rest
        end
    end
  end.

Definition _fetch_measurement_body_from_hosts (env : Env) (msmt_uid : string)
  : M (option bytes) :=
  timed "_fetch_measurement_body_from_hosts" (
    path <- catch (p <- spool_path msmt_uid ;; ret (Some p)) (fun _ => ret None) ;;
    match path with
    | None => ret None
    | Some p => hosts_loop env p (other_collectors env)
    end).

(** What one peer's response means for the fallback, in the words of
    the peer-host protocol: a 200 whose body decodes to a wrapper object
    with the format ["json"] answers with its content; a 404, any other
    status, a transport error or a malformed payload is "not present". *)
Definition peer_answer (env : Env) (r : http_result) : option bytes :=
  match r with
  | TransportError => None
  | Response status data =>
    if status =? 200 then
      match ujson_loads env data with
      | Some (JDict d) =>
        match dict_lookup "format" d with
        | Some (JStr f) =>
          if String.eqb f "json"
          then Some (encode (ujson_dumps env
                 (match dict_lookup "content" d with Some v => v | None => JDict [] end)))
          else None
        | _ => None
        end
      | _ => None
      end
    else None
  end.

(** The mark each probe leaves when it is entered. *)
Definition probe_disk : event := Timer "_fetch_measurement_body_on_disk_by_msmt_uid".
Definition probe_hosts : event := Timer "_fetch_measurement_body_from_hosts".
Definition probe_archive : event := Timer "_fetch_jsonl_measurement_body_clickhouse".

End Sources.

(** ** The orchestrator *)

Module Orchestrator.
Import Py Eff Clock.
Local Open Scope eff_scope.

Inductive FreshnessClass := Fresh | Archived.

(** [a or b] on two probes. *)
Definition por (a b : M (option bytes)) : M (option bytes) :=
  v <- a ;; if truthy v then ret v else b.

Definition str_truthy (s : option string) : bool :=
  match s with
  | Some (String _ _) => true
  | _ => false
  end.

Definition the_uid (s : option string) : string :=
  match s with Some u => u | None => EmptyString end.

(** [new_format = u_count == 5 and measurement_uid], as a truth value. *)
Definition new_format (report_id : string) (measurement_uid : option string) : bool :=
  (count "_" report_id =? 5) && str_truthy measurement_uid.

(** [fresh = measurement_uid > ts], with [ts] the minute one hour ago. *)
Definition fresh (now : datetime) (measurement_uid : string) : bool :=
  str_gt measurement_uid (strftime_YmdHM (sub_hour now) "").

(** The class that decides the order of the probes. *)
Definition classify (now : datetime) (report_id : string)
           (measurement_uid : option string) : FreshnessClass :=
  if new_format report_id measurement_uid && fresh now (the_uid measurement_uid)
  then Fresh else Archived.

Section Body.
(** The three probes the function calls and the clock it reads. *)
Variable on_disk : string -> M (option bytes).
Variable from_hosts : string -> M (option bytes).
Variable clickhouse : string -> option string -> option string -> M (option bytes).
Variable now : datetime.

Definition fetch_measurement_body_with (report_id : string) (input : option string)
           (measurement_uid : option string) : M bytes :=
  timed "fetch_measurement_body" (
    let new_format := new_format report_id measurement_uid in
    let uid := the_uid measurement_uid in
    let fresh := fresh now uid in
    body <- (if new_format && fresh then
               por (por (on_disk uid) (from_hosts uid))
                   (clickhouse report_id input measurement_uid)
             else if new_format && negb fresh then
               por (por (clickhouse report_id input measurement_uid) (on_disk uid))
                   (from_hosts uid)
             else
               clickhouse report_id input measurement_uid) ;;
    match body with
    | Some (b :: bs) => ret (b :: bs)
    | _ => raise MsmtNotFound
    end).
End Body.

(** The last step of the function, on its own: a truthy body is
    returned, anything else is [MsmtNotFound]. *)
Definition finish (m : M (option bytes)) : M bytes :=
  timed "fetch_measurement_body" (
    body <- m ;;
    match body with
    | Some (b :: bs) => ret (b :: bs)
    | _ => raise MsmtNotFound
    end).

(** A probe returned, and what it returned is no body. *)
Definition no_body (m : M (option bytes)) : Prop :=
  exists v, outcome m = Ret v /\ truthy v = false.

(** The probe [m] with an empty body turned into [None]. *)
Definition absent_if_empty (m : M (option bytes)) : M (option bytes) :=
  (trace m, match outcome m with
            | Ret (Some []) => Ret None
            | r => r
            end).

Definition _fetch_measurement_body (env : Sources.Env) :=
  fetch_measurement_body_with
    (Sources._fetch_measurement_body_on_disk_by_msmt_uid env)
    (Sources._fetch_measurement_body_from_hosts env)
    (Sources._fetch_jsonl_measurement_body_clickhouse env)
    (Sources.utcnow env).

End Orchestrator.

(** ** A small installation to run the code on *)

Module Example.
Import Py Eff Clock Sources Orchestrator.

Definition b (s : string) : bytes := encode s.

(** A toy [ujson]: a text starting with an opening brace is a wrapper
    in the format json whose content is the rest of the text, a text
    starting with [x] a wrapper in another format, a text starting with an
    opening bracket a list; anything else does not parse. *)
Definition toy_loads (data : bytes) : option json :=
  match data with
  | x7b :: rest =>
    Some (JDict [("format", JStr "json");
                 ("content", JStr (string_of_list_byte rest))]%string)
  | x78 :: rest =>
    Some (JDict [("format", JStr "yaml"); ("content", JNull)]%string)
  | x5b :: rest => Some (JList [])
  | _ => None
  end.

Definition toy_dumps (j : json) : string :=
  match j with
  | JStr s => ("'" ++ s ++ "'")%string
  | _ => "{}"%string
  end.

Definition uid_fresh : string := "20210124203005_VE_webconnectivity_ab12".
Definition uid_old : string := "20210123110000_VE_webconnectivity_cd34".
Definition rid : string := "20210124T203000Z_webconnectivity_VE_22313_n1_Ojb".
Definition path_fresh : string :=
  "2021012420_VE_webconnectivity/20210124203005_VE_webconnectivity_ab12.post".

Definition clock : datetime := mkDatetime 2021 1 24 21 0 45.

Definition db0 : Database :=
  mkDatabase
    [mkFastpath uid_old rid "http://example.org/"]
    [mkJsonl "other_report" "" "jsonl/other.jsonl.gz" 0;
     mkJsonl rid "http://example.org/" "jsonl/2021012311_VE.jsonl.gz" 1].

(** Two configured peers; only the second one holds the fresh report. *)
Definition env0 : Env :=
  mkEnv clock ["peer1"; "peer2"]%string
    (fun _ => NoSuchFile)
    (fun host path =>
       if String.eqb host "peer1" then Response 404 []
       else if String.eqb host "peer2" && String.eqb path path_fresh
            then Response 200 (b "{fresh")
            else TransportError)
    (Some db0)
    (fun s3path =>
       if String.eqb s3path "jsonl/2021012311_VE.jsonl.gz"
       then S3Stream [b "first"; b "second"] true
       else S3Unreachable)
    toy_loads toy_dumps.

(** A report id in the format that was in use before the current one. *)
Definition rid_legacy : string := "20160706T015518Z_AS200938_iVsUREhX4hTEoHTO".
Definition path_old : string :=
  "2021012311_VE_webconnectivity/20210123110000_VE_webconnectivity_cd34.post".

(** A second installation: nothing is indexed, the spool holds the old
    report, and the file of the fresh one cannot be read. *)
Definition env1 : Env :=
  mkEnv clock ["peer1"]%string
    (fun path =>
       if String.eqb path path_old then Content (b "{delayed")
       else if String.eqb path path_fresh then Unreadable
       else NoSuchFile)
    (fun _ _ => TransportError)
    (Some (mkDatabase [] []))
    (fun _ => S3Unreachable)
    toy_loads toy_dumps.

(** The timestamp of [uid_fresh], half an hour before [clock]. *)
Definition t_fresh : datetime := mkDatetime 2021 1 24 20 30 5.

(** A timestamp 35 seconds older than one hour before [clock]. *)
Definition t_stale : datetime := mkDatetime 2021 1 24 20 0 10.

(** Mock probes: a spool and an archive that return an empty body, peers
    that return nothing. *)
Definition empty_spool (u : string) : M (option bytes) :=
  ([FsOpen u], Ret (Some [])).
Definition silent_peers (u : string) : M (option bytes) :=
  ([HttpGet "peer1" u], Ret None).
Definition empty_archive (r : string) (i u : option string) : M (option bytes) :=
  ([QueryByReportInput r ""], Ret (Some [])).

(** A container of three stored frames holding [abcde], [fgh] and [ij]. *)
Definition container0 : FrameDecompressor.bytes :=
  [x05; x61; x62; x63; x64; x65; x03; x66; x67; x68; x02; x69; x6a].

Definition storage0 (path : string) : option FrameDecompressor.bytes :=
  if String.eqb path "2016-07-07/a.tar.lz4" then Some container0 else None.

(** A record that starts in the first frame and ends in the second. *)
Definition coords_span : FrameDecompressor.ArchiveCoordinates :=
  FrameDecompressor.mkCoords "2016-07-07/a.tar.lz4" 0 13 3 4.

(** Coordinates that ask the last two frames for more than they hold. *)
Definition coords_short : FrameDecompressor.ArchiveCoordinates :=
  FrameDecompressor.mkCoords "2016-07-07/a.tar.lz4" 6 7 2 4.

End Example.

(** ** More string primitives *)

Module Str.
Import Py.

(** [sep.join(l)] for a one-character separator. *)
Fixpoint join (c : ascii) (l : list string) : string :=
  match l with
  | [] => EmptyString
  | [w] => w
  | w :: ws => (w ++ String c (join c ws))%string
  end.

(** [s.lower()] on the 8-bit code points: the letters A to Z and the
    accented capitals of Latin-1. *)
Definition lower_char (c : ascii) : ascii :=
  let n := nat_of_ascii c in
  if ((65 <=? n) && (n <=? 90))
     || ((192 <=? n) && (n <=? 222) && negb (n =? 215))
  then ascii_of_nat (n + 32) else c.

Fixpoint lower (s : string) : string :=
  match s with
  | EmptyString => EmptyString
  | String c s' => String (lower_char c) (lower s')
  end.

(** [s.strip()]. *)
Definition str_strip (s : string) : string :=
  string_of_list_ascii (strip (list_ascii_of_string s)).

End Str.

(** ** Fetching by uid alone, and the route that serves one measurement *)

Module ByUid.
Import Py Eff Sources Str.
Local Open Scope eff_scope.

Definition _fetch_measurement_body_by_uid (env : Env) (msmt_uid : string) : M bytes :=
  body <- _fetch_measurement_body_on_disk_by_msmt_uid env msmt_uid ;;
  match body with
  | Some body => ret body
  | None =>
    loc <- measurement_uid_to_s3path_linenum env msmt_uid ;;
    _fetch_jsonl_measurement_body_from_s3 env (fst loc) (snd loc)
  end.

(** What a route returns: the error document of [jerror], or a response
    made of a body with its mimetype, cache lifetime and extra headers. *)
Inductive response :=
| JError (msg : string)
| Made (body : bytes) (mimetype : string) (max_age : nat)
       (headers : list (string * string)).

(** The header [set_dload] puts on a response to make it a download. *)
Definition dload_header (fname : string) : string * string :=
  ("Content-Disposition", "attachment; filename=" ++ fname)%string.

(** [get_measurement] as the route runs it: the route is registered
    before the timer is put around the function, so the view is the bare
    function.  [download_arg] is the query argument [download], if any;
    the [assert] on the uid raises as a malformed identifier. *)
Definition get_measurement (env : Env) (download_arg : option string)
           (measurement_uid : string) : M response :=
  match measurement_uid with
  | EmptyString => raise MalformedIdentifier
  | String _ _ =>
    let download :=
      String.eqb (lower (match download_arg with Some v => v | None => EmptyString end))
                 "true" in
    loc <- catch (x <- measurement_uid_to_s3path_linenum env measurement_uid ;;
                  ret (Some x))
                 (fun e => match e with
                           | MsmtNotFound => ret None
                           | _ => raise e
                           end) ;;
    match loc with
    | None => ret (JError "Incorrect or inexistent measurement_uid")
    | Some (s3path, linenum) =>
      got <- catch (b <- _fetch_jsonl_measurement_body_from_s3 env s3path linenum ;;
                    ret (Some b))
                   (fun _ => ret None) ;;
      match got with
      | None => ret (JError "Incorrect or inexistent measurement_uid")
      | Some body =>
        ret (Made body "application/json" 3600
                  (if download
                   then [dload_header ("ooni_measurement-" ++ measurement_uid ++ ".json")]
                   else []))
      end
    end
  end.

(** The line the index points at for a uid: a row joined to the uid, the
    object it names, and the line at its line number. *)
Definition indexed_line (env : Env) (db : Database) (uid : string) (line : bytes) : Prop :=
  exists f j lines intact,
    joined db uid f j /\
    s3_object env (j_s3path j) = S3Stream lines intact /\
    nth_error lines (j_linenum j) = Some line.

(** Counting the events of one kind in a trace. *)
Definition is_fs (e : event) : bool :=
  match e with FsOpen _ => true | _ => false end.
Definition is_http (e : event) : bool :=
  match e with HttpGet _ _ => true | _ => false end.
Definition is_query (e : event) : bool :=
  match e with QueryByUid _ | QueryByReportInput _ _ => true | _ => false end.
Definition is_s3 (e : event) : bool :=
  match e with S3Get _ => true | _ => false end.

Definition count_ev (p : event -> bool) (tr : list event) : nat :=
  length (filter p tr).

End ByUid.


(** ** Measurement metadata and the routes that call the orchestrator *)

Module Meta.
Import Py Eff Clock Sources Orchestrator Str ByUid.
Local Open Scope eff_scope.

(** A row of [fastpath], with the columns the code reads; the category
    code is there when the query joins [citizenlab] and finds the input. *)
Record fastpath_meta := mkFastpathMeta {
  r_input : string;
  r_measurement_start_time : datetime;
  r_measurement_uid : string;
  r_report_id : string;
  r_test_name : string;
  r_test_start_time : datetime;
  r_probe_asn : nat;
  r_probe_cc : string;
  r_scores : string;
  r_category_code : option string;
  r_anomaly : string;
  r_confirmed : string;
  r_msm_failure : string }.

(** The dictionary [format_msmt_meta] builds. *)
Record msmt_meta := mkMsmtMeta {
  input : string;
  measurement_start_time : datetime;
  measurement_uid : string;
  report_id : string;
  test_name : string;
  test_start_time : datetime;
  probe_asn : nat;
  probe_cc : string;
  scores : string;
  category_code : option string;
  anomaly : bool;
  confirmed : bool;
  failure : bool }.

Definition format_msmt_meta (row : fastpath_meta) : msmt_meta :=
  mkMsmtMeta (r_input row) (r_measurement_start_time row) (r_measurement_uid row)
             (r_report_id row) (r_test_name row) (r_test_start_time row)
             (r_probe_asn row) (r_probe_cc row) (r_scores row)
             (r_category_code row)
             (String.eqb (r_anomaly row) "t")
             (String.eqb (r_confirmed row) "t")
             (String.eqb (r_msm_failure row) "t").

(** What a one-row query on [fastpath] gives. *)
Inductive row_result :=
| QueryFailed
| Row (row : option fastpath_meta).

(** What the routes need beyond [Env]: the two metadata queries, the
    request (each [param_...] helper of [ooniapi.urlparams] either gives a
    value or raises, query arguments are there or not) and the decoder of
    [bytes.decode()]. *)
Record MetaEnv := mkMetaEnv {
  base : Env;
  meta_by_uid : string -> row_result;
  meta_by_report_input : string -> option string -> row_result;
  param_measurement_uid : result string;
  param_report_id : result string;
  param_input_or_none : result (option string);
  arg_input : option string;
  arg_full : option string;
  decode : bytes -> option string }.

Definition of_result {A} (r : result A) : M A := ([], r).

(** [{}] is [None]: the measurement was not found or is unwanted. *)
Definition _get_measurement_meta_by_uid (menv : MetaEnv) (uid : string)
  : M (option msmt_meta) :=
  timed "get_measurement_meta_by_uid" (
    emit (QueryByUid uid) ;;;
    match meta_by_uid menv uid with
    | QueryFailed => raise SourceUnavailable
    | Row None => ret None
    | Row (Some row) =>
      if r_probe_asn row =? 0 then ret None else ret (Some (format_msmt_meta row))
    end).

(** Without an input the query does not join [citizenlab]: the row has
    no category code. *)
Definition _get_measurement_meta_clickhouse (menv : MetaEnv) (rid : string)
           (input_ : option string) : M (option msmt_meta) :=
  timed "get_measurement_meta_clickhouse" (
    emit (QueryByReportInput rid
            (match input_ with Some i => i | None => EmptyString end)) ;;;
    match meta_by_report_input menv rid input_ with
    | QueryFailed => raise SourceUnavailable
    | Row None => ret None
    | Row (Some row) =>
      if r_probe_asn row =? 0 then ret None
      else ret (Some (match input_ with
                      | Some _ => format_msmt_meta row
                      | None =>
                        let m := format_msmt_meta row in
                        mkMsmtMeta (input m) (measurement_start_time m)
                                   (measurement_uid m) (report_id m) (test_name m)
                                   (test_start_time m) (probe_asn m) (probe_cc m)
                                   (scores m) None (anomaly m) (confirmed m) (failure m)
                      end))
    end).

(** What the two routes answer: the raw body or the empty document of
    [get_raw_measurement], and the document of [cachedjson] with the
    metadata and, when asked for, the raw measurement as text. *)
Inductive meta_response :=
| RawBody (body : bytes) (content_type : string) (max_age : nat)
| EmptyDocument (content_type : string) (max_age : nat)
| CachedJson (lifetime : string) (meta : option msmt_meta)
             (raw_measurement : option string).

Definition lookup_meta (menv : MetaEnv) (input_ : M (option string))
  : M (option msmt_meta) :=
  catch (uid <- of_result (param_measurement_uid menv) ;;
         _get_measurement_meta_by_uid menv uid)
        (fun _ =>
           rid <- of_result (param_report_id menv) ;;
           inp <- input_ ;;
           _get_measurement_meta_clickhouse menv rid inp).

Definition get_raw_measurement (menv : MetaEnv) : M meta_response :=
  timed "get_raw_measurement" (
    msmt_meta <- lookup_meta menv (ret (arg_input menv)) ;;
    match msmt_meta with
    | Some m =>
      body <- _fetch_measurement_body (base menv) (report_id m) (Some (input m))
                                      (Some (measurement_uid m)) ;;
      ret (RawBody body "application/json" (24 * 3600))
    | None => ret (EmptyDocument "application/json" (24 * 3600))
    end).

Definition get_measurement_meta (menv : MetaEnv) : M meta_response :=
  timed "get_measurement_meta" (
    let full :=
      existsb (String.eqb (lower (match arg_full menv with
                                  | Some v => v
                                  | None => EmptyString
                                  end)))
              ["true"; "1"; "yes"]%string in
    msmt_meta <- lookup_meta menv (of_result (param_input_or_none menv)) ;;
    if negb full then ret (CachedJson "1m" msmt_meta None)
    else match msmt_meta with
         | None => ret (CachedJson "1m" None (Some EmptyString))
         | Some m =>
           body <- catch (b <- _fetch_measurement_body (base menv) (report_id m)
                                 (Some (input m)) (Some (measurement_uid m)) ;;
                          match decode menv b with
                          | Some text => ret text
                          | None => raise MalformedPayload
                          end)
                         (fun _ => ret EmptyString) ;;
           ret (CachedJson "1m" (Some m) (Some body))
         end).

(** What is shown of a row: nothing when its probe ASN is 0. *)
Definition shown (row : fastpath_meta) : option msmt_meta :=
  if r_probe_asn row =? 0 then None else Some (format_msmt_meta row).

(** The value of the argument [full] asks for the raw measurement. *)
Definition wants_full (menv : MetaEnv) : bool :=
  existsb (String.eqb (lower (match arg_full menv with
                              | Some v => v
                              | None => EmptyString
                              end)))
          ["true"; "1"; "yes"]%string.

(** The events that reach a source of bodies. *)
Definition is_source (e : event) : bool :=
  match e with
  | FsOpen _ | HttpGet _ _ | S3Get _ => true
  | Timer name => String.eqb name "fetch_measurement_body"
  | _ => false
  end.

End Meta.


(** ** Measurement feedback: the summary of [get_msmt_feedback] *)

Module Feedback.

(** A row of the query: a status, whether the feedback is the caller's
    own, and how many accounts gave it. *)
Record feedback_row := mkFeedbackRow {
  status : string;
  is_mine : bool;
  cnt : nat }.

(** [d.get(k, 0)] and [d[k] = v] on a dictionary of counters, which keeps
    its keys in the order they were first set. *)
Fixpoint dict_get (k : string) (d : list (string * nat)) : nat :=
  match d with
  | [] => 0
  | (k', v) :: d' => if String.eqb k k' then v else dict_get k d'
  end.

Fixpoint dict_set (k : string) (v : nat) (d : list (string * nat))
  : list (string * nat) :=
  match d with
  | [] => [(k, v)]
  | (k', v') :: d' =>
    if String.eqb k k' then (k, v) :: d' else (k', v') :: dict_set k v d'
  end.

(** The dictionary [out]: the key [user_feedback] when it was set, and
    the summary. *)
Record feedback_out := mkFeedbackOut {
  user_feedback : option string;
  summary : list (string * nat) }.

Definition feedback_step (out : feedback_out) (row : feedback_row) : feedback_out :=
  mkFeedbackOut
    (if is_mine row then Some (status row) else user_feedback out)
    (dict_set (status row) (dict_get (status row) (summary out) + cnt row)
              (summary out)).

(** The loop of [get_msmt_feedback] over the rows of its query. *)
Definition feedback_of (rows : list feedback_row) : feedback_out :=
  fold_left feedback_step rows (mkFeedbackOut None []).

(** The accounts that gave a status, over all rows. *)
Definition votes (s : string) (rows : list feedback_row) : nat :=
  list_sum (map cnt (filter (fun r => String.eqb (status r) s) rows)).

End Feedback.


(** ** Listing measurements: the query that [list_measurements] builds
    and the page metadata it returns *)

Module Listing.
Import Py Clock.

(** [t + timedelta(days=1)] and [t - timedelta(days=1)], away from the
    ends of the calendar. *)
Definition add_day (t : datetime) : datetime :=
  if day t <? days_in_month (year t) (month t) then
    mkDatetime (year t) (month t) (day t + 1) (hour t) (minute t) (second t)
  else if month t <? 12 then
    mkDatetime (year t) (month t + 1) 1 (hour t) (minute t) (second t)
  else
    mkDatetime (year t + 1) 1 1 (hour t) (minute t) (second t).

Definition sub_day (t : datetime) : datetime :=
  if 2 <=? day t then
    mkDatetime (year t) (month t) (day t - 1) (hour t) (minute t) (second t)
  else if 2 <=? month t then
    mkDatetime (year t) (month t - 1) (days_in_month (year t) (month t - 1))
               (hour t) (minute t) (second t)
  else
    mkDatetime (year t - 1) 12 31 (hour t) (minute t) (second t).

(** [datetime(t.year, t.month, t.day)]. *)
Definition midnight (t : datetime) : datetime :=
  mkDatetime (year t) (month t) (day t) 0 0 0.

(** The arguments of the request, as the [param_...] helpers give them. *)
Record listing_args := mkListingArgs {
  report_id : option string;
  probe_asn : option nat;
  probe_cc : option string;
  test_name : option string;
  since : option datetime;
  until : option datetime;
  order_by : option string;
  order : string;
  offset : Z;
  limit : Z;
  failure : option bool;
  anomaly : option bool;
  confirmed : option bool;
  category_code : option string;
  software_versions : option (list string);
  test_versions : option (list string);
  engine_versions : option (list string);
  user_agent : string;
  input_ : option string;
  domain : option string }.

(** A value bound to a name in [query_params]. *)
Inductive pvalue :=
| PDate (d : datetime)
| PStr (s : string)
| PNat (n : nat)
| PInt (z : Z)
| PList (l : list string).

(** What the route does before it runs the query. *)
Inductive planned :=
| Workaround                    (* the canned answer for okhttp clients *)
| BadRequest (msg : string)
| Abort403
| Query (fpwhere : list string) (query_params : list (string * pvalue))
        (join_citizenlab : bool) (order_text : string).

(** The clauses and bindings one argument contributes. *)
Definition part : Type := list string * list (string * pvalue).

Definition no_part : part := ([], []).

Definition bound (clause name : string) (v : pvalue) : part :=
  ([clause], [(name, v)]).

Definition truthy_str (s : option string) : bool :=
  match s with
  | Some (String _ _) => true
  | _ => false
  end.

Definition flag_part (column : string) (v : option bool) : part :=
  match v with
  | Some true => ([column ++ " = 't'"]%string, [])
  | Some false => ([column ++ " = 'f'"]%string, [])
  | None => no_part
  end.

Definition list_part (clause name : string) (v : option (list string)) : part :=
  match v with
  | Some l => bound clause name (PList l)
  | None => no_part
  end.

(** The time range: the defaults when nothing is given and no report id
    either. *)
Definition until_of (now : datetime) (a : listing_args) : option datetime :=
  match until a, report_id a with
  | None, None => Some (midnight (add_day now))
  | u, _ => u
  end.

Definition since_of (now : datetime) (a : listing_args) : option datetime :=
  match since a, report_id a, until_of now a with
  | None, None, Some u => Some (Nat.iter 30 sub_day u)
  | s, _, _ => s
  end.

(** The clauses in the order the function appends them; [None] where it
    aborts with 403. *)
Definition parts (now : datetime) (a : listing_args) : list (option part) :=
  [ Some (match since_of now a with
          | Some s => bound "measurement_start_time > :since" "since" (PDate s)
          | None => no_part
          end);
    Some (match until_of now a with
          | Some u => bound "measurement_start_time <= :until" "until" (PDate u)
          | None => no_part
          end);
    Some (if truthy_str (report_id a)
          then bound "report_id = :report_id" "report_id"
                     (PStr (match report_id a with Some r => r | None => EmptyString end))
          else no_part);
    (if truthy_str (probe_cc a)
     then let cc := match probe_cc a with Some c => c | None => EmptyString end in
          if String.eqb cc "ZZ" then None
          else Some (bound "probe_cc = :probe_cc" "probe_cc" (PStr cc))
     else Some (["probe_cc != 'ZZ'"%string], []));
    (match probe_asn a with
     | Some n => if n =? 0 then None
                 else Some (bound "probe_asn = :probe_asn" "probe_asn" (PNat n))
     | None => Some (["probe_asn != 0"%string], [])
     end);
    Some (match test_name a with
          | Some t => bound "test_name = :test_name" "test_name" (PStr t)
          | None => no_part
          end);
    Some (list_part "software_version IN :software_versions" "software_versions"
                    (software_versions a));
    Some (list_part "test_version IN :test_versions" "test_versions" (test_versions a));
    Some (list_part "engine_version IN :engine_versions" "engine_versions"
                    (engine_versions a));
    Some (flag_part "fastpath.anomaly" (anomaly a));
    Some (flag_part "fastpath.confirmed" (confirmed a));
    Some (flag_part "fastpath.msm_failure" (failure a));
    Some (if truthy_str (input_ a)
          then bound "input = :input" "input"
                     (PStr (match input_ a with Some i => i | None => EmptyString end))
          else no_part);
    Some (if negb (truthy_str (input_ a)) && truthy_str (domain a)
          then bound "domain = :domain" "domain"
                     (PStr (match domain a with Some d => d | None => EmptyString end))
          else no_part);
    Some (if negb (truthy_str (input_ a)) && truthy_str (category_code a)
          then bound "citizenlab.category_code = :category_code" "category_code"
                     (PStr (match category_code a with
                            | Some c => c
                            | None => EmptyString
                            end))
          else no_part) ].

(** Putting the parts together, the first abort winning. *)
Fixpoint gather (ps : list (option part)) : option part :=
  match ps with
  | [] => Some no_part
  | None :: _ => None
  | Some (w, b) :: rest =>
    match gather rest with
    | Some (w', b') => Some (w ++ w', b ++ b')
    | None => None
    end
  end.

(** The function up to the query it runs. *)
Definition plan_listing (now : datetime) (a : listing_args) : planned :=
  if startswith "okhttp" (user_agent a) then Workaround
  else if negb (existsb (String.eqb (Str.lower (order a))) ["asc"; "desc"]%string)
  then BadRequest "Invalid order"
  else match gather (parts now a) with
       | None => Abort403
       | Some (fpwhere, query_params) =>
         Query fpwhere
               (query_params ++ [("param_1", PInt (limit a)); ("param_2", PInt (offset a))]%string)
               (negb (truthy_str (input_ a)) && truthy_str (category_code a))
               ((match order_by a with
                 | Some o => o
                 | None => "measurement_start_time"
                 end) ++ " " ++ order a)%string
       end.

Fixpoint assoc (k : string) (d : list (string * pvalue)) : option pvalue :=
  match d with
  | [] => None
  | (k', v) :: d' => if String.eqb k k' then Some v else assoc k d'
  end.

(** The clauses that name a parameter, each with the name it needs. *)
Definition named_clauses : list (string * string) :=
  [ ("measurement_start_time > :since", "since");
    ("measurement_start_time <= :until", "until");
    ("report_id = :report_id", "report_id");
    ("probe_cc = :probe_cc", "probe_cc");
    ("probe_asn = :probe_asn", "probe_asn");
    ("test_name = :test_name", "test_name");
    ("software_version IN :software_versions", "software_versions");
    ("test_version IN :test_versions", "test_versions");
    ("engine_version IN :engine_versions", "engine_versions");
    ("input = :input", "input");
    ("domain = :domain", "domain");
    ("citizenlab.category_code = :category_code", "category_code") ]%string.

(** [subseq l1 l2]: [l1] is [l2] with some elements left out. *)
Inductive subseq {A : Type} : list A -> list A -> Prop :=
| subseq_nil l : subseq [] l
| subseq_skip x l1 l2 : subseq l1 l2 -> subseq l1 (x :: l2)
| subseq_take x l1 l2 : subseq l1 l2 -> subseq (x :: l1) (x :: l2).

(** The names [query_params] can hold, in the order they are bound. *)
Definition all_names : list string :=
  map snd named_clauses ++ ["param_1"%string; "param_2"%string].

(** *** Page metadata *)

Definition two53 : Z := 2 ^ 53.

(** [math.ceil(a / b)]: the quotient is a float.  With both integers
    below [2^53] in size the ceiling of the float is the ceiling of the
    exact quotient; beyond that the value is left out of the model. *)
Inductive ceiling := Ceil (z : Z) | ZeroDivisionError | Unmodelled.

Definition ceil_div (a b : Z) : ceiling :=
  if (b =? 0)%Z then ZeroDivisionError
  else if ((Z.abs a <? two53) && (Z.abs b <? two53))%Z%bool
  then Ceil (- ((- a) / b))%Z
  else Unmodelled.

Inductive paged :=
| Paged (count pages current_page : Z) (next_offset : option Z)
| Failed (c : ceiling).

(** The metadata for [n] results at [offset] with [limit]: when the page
    is not full the count is known and there is no next page. *)
Definition paginate (offset limit : Z) (n : nat) : paged :=
  match ceil_div offset limit with
  | Ceil c =>
    let current_page := (c + 1)%Z in
    if (Z.of_nat n <? limit)%Z then
      let count := (offset + Z.of_nat n)%Z in
      match ceil_div count limit with
      | Ceil pages => Paged count pages current_page None
      | other => Failed other
      end
    else Paged (-1) (-1) current_page (Some (offset + limit)%Z)
  | other => Failed other
  end.

(** A part binds every name its clauses use, and nothing else that a
    clause could use. *)
Definition consistent (p : part) : Prop :=
  forall c n, In (c, n) named_clauses ->
              (In c (fst p) <-> exists v, In (n, v) (snd p)).

End Listing.


(** ** Tor snowflake statistics: [get_torsf_stats] *)

Module Stats.
Import Py Clock Listing.

(** A value in a row of the query's answer: a counter, a text or a day. *)
Inductive cell :=
| CInt (z : Z)
| CStr (s : string)
| CDay (d : datetime).

(** A value in a row of the response; [Rate a b] is the float [a / b]. *)
Inductive value :=
| Cell (c : cell)
| Rate (a b : Z).

(** [dict(row)], keyed by column name. *)
Definition row_in : Type := list (string * cell).
Definition row_out : Type := list (string * value).

(** The names under which the query selects its five columns. *)
Definition col_names : list string :=
  ["measurement_start_day"; "probe_cc"; "anomaly_count"; "confirmed_count";
   "failure_count"]%string.

Fixpoint row_get (k : string) (r : row_in) : option cell :=
  match r with
  | [] => None
  | (k', v) :: r' => if String.eqb k k' then Some v else row_get k r'
  end.

Fixpoint row_set (k : string) (v : value) (r : row_out) : row_out :=
  match r with
  | [] => [(k, v)]
  | (k', v') :: r' => if String.eqb k k' then (k, v) :: r' else (k', v') :: row_set k v r'
  end.

Definition type_name (c : cell) : string :=
  match c with
  | CInt _ => "int"
  | CStr _ => "str"
  | CDay _ => "datetime.date"
  end.

(** [a / b]: the quotient, or the text of the exception it raises. *)
Definition truediv (a b : cell) : string + value :=
  match a, b with
  | CInt x, CInt y => if (y =? 0)%Z then inl "division by zero"%string else inr (Rate x y)
  | _, _ => inl ("unsupported operand type(s) for /: '" ++ type_name a ++ "' and '"
                 ++ type_name b ++ "'")%string
  end.

(** One turn of the loop: the row with its [anomaly_rate], or [str(e)]
    of the exception ([KeyError] prints its key in quotes). *)
Definition with_rate (r : row_in) : string + row_out :=
  match row_get "anomaly_count" r with
  | None => inl "'anomaly_count'"%string
  | Some a =>
    match row_get "measurement_count" r with
    | None => inl "'measurement_count'"%string
    | Some m =>
      match truediv a m with
      | inl e => inl e
      | inr q => inr (row_set "anomaly_rate" q (map (fun kv => (fst kv, Cell (snd kv))) r))
      end
    end
  end.

Fixpoint rated (q : list row_in) : string + list row_out :=
  match q with
  | [] => inr []
  | r :: q' =>
    match with_rate r with
    | inl e => inl e
    | inr r' =>
      match rated q' with
      | inl e => inl e
      | inr l => inr (r' :: l)
      end
    end
  end.

(** What [query_click] gives: the rows, or an exception with its text. *)
Inductive answer :=
| QRows (q : list row_in)
| QRaises (msg : string).

Inductive response :=
| JError (msg : string)                                  (* jerror(msg, v=0) *)
| Stats (result : list row_out) (max_age : option nat).  (* {"v": 0, "result": result} *)

(** An exception that leaves the function, or its response. *)
Inductive handled :=
| Raises
| Responds (r : response).

(** [str(t)] of a datetime without timezone and microseconds. *)
Definition str_datetime (t : datetime) : string :=
  pad4 (year t) (String "-" (pad2 (month t) (String "-" (pad2 (day t)
    (String " " (pad2 (hour t) (String ":" (pad2 (minute t)
      (String ":" (pad2 (second t) EmptyString)))))))))).

(** [a < b] on datetimes. *)
Definition before (a b : datetime) : bool := negb (leb b a).

(** [parse_date(s)] where [s] is given and not empty; the outer [None] is
    the parser's exception. *)
Definition parsed (parse_date : string -> option datetime) (s : option string)
  : option (option datetime) :=
  match s with
  | Some (String c s') => option_map Some (parse_date (String c s'))
  | _ => Some None
  end.

(** The part of the function before the query: the clauses, the bound
    values and [cacheable]. *)
Definition prepare (parse_date : string -> option datetime) (now : datetime)
    (probe_cc since until : option string)
  : option (list string * list (string * pvalue) * bool) :=
  match parsed parse_date since with
  | None => None
  | Some since_td =>
    match parsed parse_date until with
    | None => None
    | Some until_td =>
      let cc := if truthy_str probe_cc
                then bound "probe_cc = :probe_cc" "probe_cc"
                           (PStr (match probe_cc with Some c => c | None => EmptyString end))
                else no_part in
      let sn := match since_td with
                | Some t => bound "measurement_start_time > :since" "since"
                                  (PStr (str_datetime t))
                | None => no_part
                end in
      let un := match until_td with
                | Some t => bound "measurement_start_time <= :until" "until"
                                  (PStr (str_datetime t))
                | None => no_part
                end in
      let cacheable := match until_td with
                       | Some t => before t (Nat.iter 3 sub_day now)
                       | None => false
                       end in
      Some (("test_name = 'torsf'"%string :: fst cc ++ fst sn ++ fst un),
            snd cc ++ snd sn ++ snd un, cacheable)
    end
  end.

(** The [try] block. *)
Definition respond (cacheable : bool) (a : answer) : response :=
  match a with
  | QRaises msg => JError msg
  | QRows q =>
    match rated q with
    | inl e => JError e
    | inr result => Stats result (if cacheable then Some (3600 * 24) else None)
    end
  end.

Definition get_torsf_stats (parse_date : string -> option datetime) (now : datetime)
    (query_click : list string -> list (string * pvalue) -> answer)
    (probe_cc since until : option string) : handled :=
  match prepare parse_date now probe_cc since until with
  | None => Raises
  | Some (where_, query_params, cacheable) =>
    Responds (respond cacheable (query_click where_ query_params))
  end.

(** A row that carries the selected columns and no other. *)
Definition selected (r : row_in) : Prop := map fst r = col_names.

End Stats.


(** ** Requests and answers used in the examples of the routes *)

Module Scenario.
Import Py Eff Clock Sources Orchestrator Example.

(** The row of [fastpath] for the old report. *)
Definition row_old : Meta.fastpath_meta :=
  Meta.mkFastpathMeta "http://example.org/" (mkDatetime 2021 1 23 11 0 0) uid_old rid
    "web_connectivity" (mkDatetime 2021 1 23 10 59 0) 2607 "VE" "{}" None "f" "f" "f".

Definition index_by_uid (uid : string) : Meta.row_result :=
  if String.eqb uid uid_old then Meta.Row (Some row_old) else Meta.Row None.

(** A request on the first installation: how the index answers by uid,
    the two identifiers as the parameter helpers give them, and the
    argument [full]. *)
Definition request (by_uid : string -> Meta.row_result) (uid report_id : result string)
           (full : option string) : Meta.MetaEnv :=
  Meta.mkMetaEnv env0 by_uid
    (fun r _ => if String.eqb r rid then Meta.Row (Some row_old) else Meta.Row None)
    uid report_id (Ret None) None full
    (fun body => Some (string_of_list_byte body)).

(** Peers that hold the report, to go with the mock probes. *)
Definition answering_peers (u : string) : M (option bytes) :=
  ([HttpGet "peer1" u], Ret (Some (b "body"))).

(** A uid whose hour prefix ends in a space, and the path derived from
    it. *)
Definition uid_spaced : string := "202101242 3005_VE_webconnectivity_ab12".
Definition path_spaced : string :=
  "202101242 _VE_webconnectivity/202101242 3005_VE_webconnectivity_ab12.post".

(** A listing without any filter, and one by report, country, network,
    input, domain and category. *)
Definition args_plain : Listing.listing_args :=
  Listing.mkListingArgs None None None None None None None "desc" 0 100
    None None None None None None None "curl/7.68.0" None None.

Definition args_report : Listing.listing_args :=
  Listing.mkListingArgs (Some rid) (Some 2607) (Some "VE"%string) None None None None
    "desc" 0 100 None None None (Some "NEWS"%string) None None None "curl/7.68.0"
    (Some "http://example.org/"%string) (Some "example.org"%string).

(** One row of the statistics, with the columns the query selects. *)
Definition torsf_row : Stats.row_in :=
  [("measurement_start_day", Stats.CDay (mkDatetime 2021 1 23 0 0 0));
   ("probe_cc", Stats.CStr "VE");
   ("anomaly_count", Stats.CInt 1);
   ("confirmed_count", Stats.CInt 0);
   ("failure_count", Stats.CInt 0)]%string.

Definition toy_parse_date (s : string) : option datetime :=
  if String.eqb s "2021-01-23" then Some (mkDatetime 2021 1 23 0 0 0) else None.

Definition torsf_db (where_ : list string) (query_params : list (string * Listing.pvalue))
  : Stats.answer :=
  Stats.QRows [torsf_row].

End Scenario.

(* ================================================================= *)
(** * Properties *)

Module FrameDecompressorFacts.
Import FrameDecompressor.

Section Facts.
Variable next_frame : bytes -> option (bytes * bytes).
Variable storage : string -> option bytes.

Lemma decodes_length c fs r :
  consuming next_frame -> decodes next_frame c fs r ->
  length r + length fs <= length c.
Proof.
  intros Hc H. induction H as [c | c f r fs r' _ Hn _ IH]; simpl; [lia|].
  apply Hc in Hn. lia.
Qed.

(** The chunk cut out of a frame never overshoots what is still wanted. *)
Lemma chunk_length (f : bytes) want skip :
  length (firstn want (skipn skip f)) <= want.
Proof. apply firstn_le_length. Qed.

(** Whatever the loop yields together with what went out before is at
    most [len], and exactly [len] when the sequence ends normally. *)
Lemma extract_loop_done fuel : forall c produced yielded intra len cs,
  yielded <= len ->
  extract_loop next_frame fuel c produced yielded intra len = Some (cs, Done) ->
  yielded + length (concat cs) = len.
Proof.
  induction fuel as [|fuel IH]; intros c produced yielded intra len cs Hy; simpl.
  - destruct (Nat.leb_spec len yielded); [intros [= <-]; simpl; lia|].
    destruct c; intros [=].
  - destruct (Nat.leb_spec len yielded); [intros [= <-]; simpl; lia|].
    destruct c as [|b c]; [intros [=]|].
    destruct (next_frame (b :: c)) as [[f r]|]; [|intros [=]].
    set (chunk := firstn (len - yielded) (skipn (intra - produced) f)).
    assert (Hch : length chunk <= len - yielded) by apply chunk_length.
    destruct (extract_loop next_frame fuel r (produced + length f)
                (yielded + length chunk) intra len) as [[cs' st]|] eqn:E;
      [|intros [=]].
    intros [= <- ->]. apply IH in E; [|lia].
    destruct chunk; simpl in *; [lia|]. rewrite length_app. lia.
Qed.

(** With enough fuel the loop yields exactly the wanted slice of the
    decoded frames, as soon as they hold it. *)
Lemma extract_loop_slice c fs rest :
  decodes next_frame c fs rest ->
  forall fuel produced intra len,
    consuming next_frame ->
    length c <= fuel ->
    intra + len <= produced + length (concat fs) ->
    exists cs,
      extract_loop next_frame fuel c produced (Nat.min len (produced - intra)) intra len
        = Some (cs, Done) /\
      concat cs = firstn (len - Nat.min len (produced - intra))
                         (skipn (intra - produced) (concat fs)).
Proof.
  induction 1 as [c | c f r fs r' Hne Hn Hd IH];
    intros fuel produced intra len Hc Hfuel Hcov.
  - simpl in Hcov. exists [].
    replace (Nat.min len (produced - intra)) with len by lia.
    destruct fuel; simpl; rewrite Nat.leb_refl; rewrite Nat.sub_diag; auto.
  - destruct c as [|b c]; [congruence|].
    destruct fuel as [|fuel]; [simpl in Hfuel; lia|].
    simpl extract_loop.
    destruct (Nat.leb_spec len (Nat.min len (produced - intra))) as [Hle|Hlt].
    + exists []. split; [reflexivity|].
      replace (len - Nat.min len (produced - intra)) with 0 by lia. reflexivity.
    + rewrite Hn.
      set (y := Nat.min len (produced - intra)) in *.
      set (chunk := firstn (len - y) (skipn (intra - produced) f)).
      assert (Hy : y + length chunk = Nat.min len (produced + length f - intra)).
      { subst chunk. rewrite length_firstn, length_skipn. lia. }
      pose proof (Hc _ _ _ Hn) as Hlen.
      destruct (IH fuel (produced + length f) intra len Hc) as (cs & Hrun & Hcs).
      { simpl in Hfuel, Hlen. lia. }
      { simpl in Hcov. rewrite length_app in Hcov. lia. }
      rewrite Hy, Hrun.
      exists (match chunk with [] => cs | _ :: _ => chunk :: cs end). split; [reflexivity|].
      transitivity (chunk ++ concat cs); [destruct chunk; reflexivity|].
      rewrite Hcs. subst chunk. simpl concat.
      rewrite skipn_app, firstn_app, length_skipn. f_equal. f_equal; [lia|].
      f_equal. lia.
Qed.

(** A stream that decodes to its end without holding the wanted slice is
    reported as corrupt. *)
Lemma extract_loop_truncated c fs rest :
  decodes next_frame c fs rest -> rest = [] ->
  forall fuel produced yielded intra len,
    consuming next_frame ->
    length c <= fuel ->
    yielded < len ->
    (yielded = Nat.min len (produced - intra)) ->
    produced + length (concat fs) < intra + len ->
    exists cs,
      extract_loop next_frame fuel c produced yielded intra len
        = Some (cs, Failed CorruptArchive).
Proof.
  induction 1 as [c | c f r fs r' Hne Hn Hd IH];
    intros -> fuel produced yielded intra len Hc Hfuel Hy Hinv Hshort.
  - exists []. destruct fuel; simpl;
      destruct (Nat.leb_spec len yielded); try lia; reflexivity.
  - destruct c as [|b c]; [congruence|].
    destruct fuel as [|fuel]; [simpl in Hfuel; lia|].
    simpl extract_loop.
    destruct (Nat.leb_spec len yielded); [lia|].
    rewrite Hn.
    set (chunk := firstn (len - yielded) (skipn (intra - produced) f)).
    assert (Hch : yielded + length chunk = Nat.min len (produced + length f - intra)).
    { subst chunk. rewrite length_firstn, length_skipn. lia. }
    pose proof (Hc _ _ _ Hn) as Hlen.
    simpl in Hshort. rewrite length_app in Hshort.
    assert (Hfuel' : length r <= fuel) by (simpl in Hfuel, Hlen; lia).
    assert (Hy' : yielded + length chunk < len) by lia.
    destruct (IH eq_refl fuel (produced + length f) (yielded + length chunk) intra len
                 Hc Hfuel' Hy' Hch) as (cs & Hrun); [lia|].
    rewrite Hrun. eexists. reflexivity.
Qed.

(** The loop always ends when it is given one unit of fuel for each
    compressed byte. *)
Lemma extract_loop_total fuel : forall c produced yielded intra len,
  consuming next_frame -> length c <= fuel ->
  extract_loop next_frame fuel c produced yielded intra len <> None.
Proof.
  induction fuel as [|fuel IH]; intros c produced yielded intra len Hc Hfuel; simpl.
  - destruct (len <=? yielded); [discriminate|].
    destruct c; [discriminate|simpl in Hfuel; lia].
  - destruct (len <=? yielded); [discriminate|].
    destruct c as [|b c]; [discriminate|].
    destruct (next_frame (b :: c)) as [[f r]|] eqn:Hn; [|discriminate].
    apply Hc in Hn.
    specialize (IH r (produced + length f)
                   (yielded + length (firstn (len - yielded) (skipn (intra - produced) f)))
                   intra len Hc ltac:(simpl in *; lia)).
    destruct (extract_loop next_frame fuel r _ _ intra len) as [[cs st]|];
      [discriminate|contradiction].
Qed.

Lemma extract_total (co : ArchiveCoordinates) :
  consuming next_frame -> extract next_frame storage co <> None.
Proof.
  intros Hc. unfold extract. destruct (storage (container_path co)); [|discriminate].
  now apply extract_loop_total.
Qed.

Lemma slice_middle (pre rec post : bytes) :
  firstn (length rec) (skipn (length pre) (pre ++ rec ++ post)) = rec.
Proof.
  rewrite skipn_app, skipn_all, Nat.sub_diag. simpl.
  rewrite firstn_app, firstn_all, Nat.sub_diag. simpl. apply app_nil_r.
Qed.

(** C1. Byte-exactness: for coordinates valid for a record [rec], the
    extractor ends normally and the concatenation of the chunks it
    yields is [rec]; its length is [logical_length], and any digest of
    it is the digest of [rec].  The record may sit anywhere in the
    decoded frames: at offset 0 or not, up to a frame boundary, or
    across several frames. *)
Theorem extract_byte_exact (co : ArchiveCoordinates) (rec : bytes) :
  consuming next_frame ->
  valid_for next_frame storage co rec ->
  exists cs,
    extract next_frame storage co = Some (cs, Done) /\
    concat cs = rec /\
    length (concat cs) = logical_length co /\
    forall (D : Type) (digest : bytes -> D), digest (concat cs) = digest rec.
Proof.
  intros Hc (content & fs & rest & pre & post & Hst & Hd & Hcat & Hpre & Hrec & Hpos).
  unfold extract. rewrite Hst.
  destruct (extract_loop_slice _ _ _ Hd
              (length (read_range content (frame_byte_offset co) (frame_byte_length co)))
              0 (intra_frame_offset co) (logical_length co) Hc) as (cs & Hrun & Hcs).
  { lia. }
  { rewrite Hcat, !length_app. lia. }
  simpl in Hrun, Hcs. rewrite Nat.min_0_r in Hrun, Hcs.
  rewrite !Nat.sub_0_r in Hcs.
  assert (Heq : concat cs = rec).
  { rewrite Hcs, Hcat, <- Hpre, <- Hrec. apply slice_middle. }
  exists cs. repeat split; auto.
  - rewrite Heq. exact Hrec.
  - intros D digest. now rewrite Heq.
Qed.

(** C2. Truncation detection: when the frames in range decode to the end
    of the range and hold fewer than [intra_frame_offset +
    logical_length] bytes, the extraction ends in [CorruptArchive]; and
    whenever an extraction ends normally, it has yielded exactly
    [logical_length] bytes. *)
Theorem extract_truncated (co : ArchiveCoordinates) (content : bytes) (fs : list bytes) :
  consuming next_frame ->
  storage (container_path co) = Some content ->
  decodes next_frame
    (read_range content (frame_byte_offset co) (frame_byte_length co)) fs [] ->
  0 < logical_length co ->
  length (concat fs) < intra_frame_offset co + logical_length co ->
  (exists cs, extract next_frame storage co = Some (cs, Failed CorruptArchive)) /\
  (forall cs st, extract next_frame storage co = Some (cs, st) ->
                 length (concat cs) < logical_length co -> st <> Done).
Proof.
  intros Hc Hst Hd Hpos Hshort. unfold extract. rewrite Hst. split.
  - apply (extract_loop_truncated _ _ _ Hd eq_refl); auto; lia.
  - intros cs st Hrun Hlt ->.
    apply extract_loop_done in Hrun; lia.
Qed.

End Facts.
End FrameDecompressorFacts.

Module OrchestratorFacts.
Import Py Eff Clock Orchestrator.

(** *** The [or] chain *)

Lemma por_first (a b : M (option bytes)) tr v :
  a = (tr, Ret v) -> truthy v = true -> por a b = (tr, Ret v).
Proof.
  intros -> Hv. unfold por, bind. rewrite Hv. simpl. now rewrite app_nil_r.
Qed.

Lemma por_next (a b : M (option bytes)) tr v :
  a = (tr, Ret v) -> truthy v = false -> por a b = (tr ++ trace b, outcome b).
Proof.
  intros -> Hv. unfold por, bind. rewrite Hv. now destruct b.
Qed.

Lemma por_raise (a b : M (option bytes)) tr e :
  a = (tr, Raise e) -> por a b = (tr, Raise e).
Proof. now intros ->. Qed.

Lemma surjective (A : Type) (m : M A) : m = (trace m, outcome m).
Proof. now destruct m. Qed.

Lemma truthy_some b : b <> [] -> truthy (Some b) = true.
Proof. destruct b; [congruence | reflexivity]. Qed.

Lemma truthy_inv v : truthy v = true -> exists b bs, v = Some (b :: bs).
Proof. destruct v as [[|b bs]|]; try discriminate. eauto. Qed.

Lemma finish_found m tr b :
  m = (tr, Ret (Some b)) -> b <> [] ->
  finish m = (Timer "fetch_measurement_body" :: tr, Ret b).
Proof.
  intros -> Hb. destruct b; [congruence|].
  unfold finish, timed, bind. simpl. now rewrite app_nil_r.
Qed.

Lemma finish_absent m tr v :
  m = (tr, Ret v) -> truthy v = false ->
  finish m = (Timer "fetch_measurement_body" :: tr, Raise MsmtNotFound).
Proof.
  intros -> Hv. unfold finish, timed, bind.
  destruct v as [[|b bs]|]; try discriminate; simpl; now rewrite app_nil_r.
Qed.

Lemma finish_raise m tr e :
  m = (tr, Raise e) -> finish m = (Timer "fetch_measurement_body" :: tr, Raise e).
Proof. now intros ->. Qed.

Lemma por_outcome (a b : M (option bytes)) :
  outcome (por a b) =
  match outcome a with
  | Ret v => if truthy v then Ret v else outcome b
  | Raise e => Raise e
  end.
Proof.
  destruct a as [ta [v|e]]; [|reflexivity].
  unfold por, bind. cbn beta iota. cbn [outcome snd].
  destruct (truthy v); [reflexivity|now destruct b].
Qed.

Lemma finish_outcome (m : M (option bytes)) :
  outcome (finish m) =
  match outcome m with
  | Ret (Some (b :: bs)) => Ret (b :: bs)
  | Ret _ => Raise MsmtNotFound
  | Raise e => Raise e
  end.
Proof. destruct m as [tr [[[|b bs]|]|e]]; reflexivity. Qed.

Lemma finish_run (m : M (option bytes)) :
  finish m =
  (Timer "fetch_measurement_body" :: trace m,
   match outcome m with
   | Ret (Some (b :: bs)) => Ret (b :: bs)
   | Ret _ => Raise MsmtNotFound
   | Raise e => Raise e
   end).
Proof.
  destruct m as [tr [[[|b bs]|]|e]]; unfold finish, timed, bind; simpl;
    now rewrite ?app_nil_r.
Qed.

Lemma chain_raise_1 (a b c : M (option bytes)) e :
  outcome a = Raise e -> por (por a b) c = (trace a, Raise e).
Proof. destruct a as [ta ra]. cbn. now intros ->. Qed.

Lemma chain_raise_2 (a b c : M (option bytes)) v e :
  outcome a = Ret v -> truthy v = false -> outcome b = Raise e ->
  por (por a b) c = (trace a ++ trace b, Raise e).
Proof.
  intros Ha Hv Hb. rewrite (por_next a b (trace a) v); [|rewrite <- Ha; apply surjective|assumption].
  rewrite Hb. reflexivity.
Qed.

Section Chains.
Variable on_disk : string -> M (option bytes).
Variable from_hosts : string -> M (option bytes).
Variable clickhouse : string -> option string -> option string -> M (option bytes).
Variable now : datetime.

Local Abbreviation fetch := (fetch_measurement_body_with on_disk from_hosts clickhouse now).

(** The three branches of the function, by the class of the identifier. *)
Lemma fetch_fresh rid inp uid :
  classify now rid uid = Fresh ->
  fetch rid inp uid =
  finish (por (por (on_disk (the_uid uid)) (from_hosts (the_uid uid)))
              (clickhouse rid inp uid)).
Proof.
  unfold classify, fetch_measurement_body_with, finish.
  destruct (new_format rid uid && fresh now (the_uid uid)); [reflexivity|discriminate].
Qed.

Lemma fetch_archived rid inp uid :
  new_format rid uid = true -> fresh now (the_uid uid) = false ->
  fetch rid inp uid =
  finish (por (por (clickhouse rid inp uid) (on_disk (the_uid uid)))
              (from_hosts (the_uid uid))).
Proof.
  unfold fetch_measurement_body_with, finish. now intros -> ->.
Qed.

Lemma fetch_old_format rid inp uid :
  new_format rid uid = false ->
  fetch rid inp uid = finish (clickhouse rid inp uid).
Proof.
  unfold fetch_measurement_body_with, finish. now intros ->.
Qed.

(** A chain of three probes [a or b or c]: its trace is made of the
    traces of the probes, in order, and stops with the first one that
    returns a body or raises. *)
Lemma chain_prefix (a b c : M (option bytes)) :
  exists rest,
    trace a ++ trace b ++ trace c = trace (por (por a b) c) ++ rest.
Proof.
  destruct a as [ta [va|ea]]; [|exists (trace b ++ trace c); reflexivity].
  destruct (truthy va) eqn:Ha.
  { rewrite (por_first (por (ta, Ret va) b) c ta va);
      [|now apply por_first|assumption].
    exists (trace b ++ trace c). reflexivity. }
  rewrite (por_next (ta, Ret va) b ta va eq_refl Ha).
  destruct b as [tb [vb|eb]]; cbn [trace outcome fst snd].
  - destruct (truthy vb) eqn:Hb.
    + rewrite (por_first (ta ++ tb, Ret vb) c (ta ++ tb) vb eq_refl Hb).
      exists (fst c). cbn [fst]. now rewrite app_assoc.
    + rewrite (por_next (ta ++ tb, Ret vb) c (ta ++ tb) vb eq_refl Hb).
      exists []. cbn [fst]. now rewrite app_nil_r, app_assoc.
  - exists (fst c). rewrite (por_raise (ta ++ tb, Raise eb) c (ta ++ tb) eb eq_refl).
    cbn [fst]. now rewrite app_assoc.
Qed.

Lemma chain_1 (a b c : M (option bytes)) v :
  outcome a = Ret v -> truthy v = true ->
  por (por a b) c = (trace a, Ret v).
Proof.
  intros Ha Hv. apply por_first; [|assumption]. apply por_first; [|assumption].
  rewrite <- Ha. apply surjective.
Qed.

Lemma chain_2 (a b c : M (option bytes)) v w :
  outcome a = Ret v -> truthy v = false ->
  outcome b = Ret w -> truthy w = true ->
  por (por a b) c = (trace a ++ trace b, Ret w).
Proof.
  intros Ha Hv Hb Hw. apply por_first; [|assumption].
  rewrite (por_next a b (trace a) v); [now rewrite Hb| |assumption].
  rewrite <- Ha. apply surjective.
Qed.

Lemma chain_3 (a b c : M (option bytes)) v w :
  outcome a = Ret v -> truthy v = false ->
  outcome b = Ret w -> truthy w = false ->
  por (por a b) c = (trace a ++ trace b ++ trace c, outcome c).
Proof.
  intros Ha Hv Hb Hw.
  rewrite (por_next (por a b) c (trace a ++ trace b) w);
    [now rewrite app_assoc| |assumption].
  rewrite (por_next a b (trace a) v); [now rewrite Hb| |assumption].
  rewrite <- Ha. apply surjective.
Qed.

Lemma finish_trace m :
  trace (finish m) = Timer "fetch_measurement_body" :: trace m.
Proof.
  destruct m as [tr [[[|b bs]|]|e]]; unfold finish, timed, bind; simpl;
    now rewrite ?app_nil_r.
Qed.

(** C3. For an identifier classified [Fresh] the probes run in the order
    spool, peer hosts, archive: the trace of the call is made of their
    traces in that order and stops early; the first probe that returns a
    body, those before it having returned none, gives the result, and
    the probes after it leave no trace. *)
Theorem fresh_probe_order rid inp uid :
  classify now rid uid = Fresh ->
  let d := on_disk (the_uid uid) in
  let h := from_hosts (the_uid uid) in
  let a := clickhouse rid inp uid in
  let t := Timer "fetch_measurement_body" in
  (exists rest, t :: trace d ++ trace h ++ trace a = trace (fetch rid inp uid) ++ rest) /\
  (forall b, outcome d = Ret (Some b) -> b <> [] ->
             fetch rid inp uid = (t :: trace d, Ret b)) /\
  (forall v b, outcome d = Ret v -> truthy v = false ->
               outcome h = Ret (Some b) -> b <> [] ->
               fetch rid inp uid = (t :: trace d ++ trace h, Ret b)) /\
  (forall v w b, outcome d = Ret v -> truthy v = false ->
                 outcome h = Ret w -> truthy w = false ->
                 outcome a = Ret (Some b) -> b <> [] ->
                 fetch rid inp uid = (t :: trace d ++ trace h ++ trace a, Ret b)).
Proof.
  intros Hf d h a t. rewrite (fetch_fresh rid inp uid Hf). fold d h a.
  repeat split.
  - rewrite finish_trace. destruct (chain_prefix d h a) as [rest Hr].
    exists rest. subst t. simpl. now rewrite Hr.
  - intros b Hd Hb. apply finish_found; [|assumption].
    apply chain_1; [assumption|now apply truthy_some].
  - intros v b Hd Hv Hh Hb. apply finish_found; [|assumption].
    eapply chain_2; eauto using truthy_some.
  - intros v w b Hd Hv Hh Hw Ha Hb. apply finish_found; [|assumption].
    rewrite (chain_3 d h a v w Hd Hv Hh Hw). now rewrite Ha.
Qed.

Lemma new_format_archived rid uid :
  new_format rid uid = true -> classify now rid uid = Archived ->
  fresh now (the_uid uid) = false.
Proof.
  unfold classify. intros ->. simpl. now destruct (fresh now (the_uid uid)).
Qed.

(** C4, as the code has it.  An identifier that is not [Fresh] and has
    a usable uid (report id with five underscores, uid not empty) is
    looked for in the archive, then in the spool, then on the peer
    hosts, the first body found ending the search.  An identifier
    without a usable uid, the [(report_id, input)] form among them, is
    looked for in the archive only. *)
Theorem archived_probe_order rid inp uid :
  classify now rid uid = Archived ->
  let d := on_disk (the_uid uid) in
  let h := from_hosts (the_uid uid) in
  let a := clickhouse rid inp uid in
  let t := Timer "fetch_measurement_body" in
  (new_format rid uid = true ->
    (exists rest,
        t :: trace a ++ trace d ++ trace h = trace (fetch rid inp uid) ++ rest) /\
    (forall b, outcome a = Ret (Some b) -> b <> [] ->
               fetch rid inp uid = (t :: trace a, Ret b)) /\
    (forall v b, outcome a = Ret v -> truthy v = false ->
                 outcome d = Ret (Some b) -> b <> [] ->
                 fetch rid inp uid = (t :: trace a ++ trace d, Ret b)) /\
    (forall v w b, outcome a = Ret v -> truthy v = false ->
                   outcome d = Ret w -> truthy w = false ->
                   outcome h = Ret (Some b) -> b <> [] ->
                   fetch rid inp uid = (t :: trace a ++ trace d ++ trace h, Ret b))) /\
  (new_format rid uid = false ->
    trace (fetch rid inp uid) = t :: trace a /\
    (forall v, outcome a = Ret v -> truthy v = false ->
               outcome (fetch rid inp uid) = Raise MsmtNotFound)).
Proof.
  intros Hc d h a t. split.
  - intros Hn. rewrite (fetch_archived rid inp uid Hn (new_format_archived rid uid Hn Hc)).
    fold d h a. repeat split.
    + rewrite finish_trace. destruct (chain_prefix a d h) as [rest Hr].
      exists rest. subst t. simpl. now rewrite Hr.
    + intros b Ha Hb. apply finish_found; [|assumption].
      apply chain_1; [assumption|now apply truthy_some].
    + intros v b Ha Hv Hd Hb. apply finish_found; [|assumption].
      eapply chain_2; eauto using truthy_some.
    + intros v w b Ha Hv Hd Hw Hh Hb. apply finish_found; [|assumption].
      rewrite (chain_3 a d h v w Ha Hv Hd Hw). now rewrite Hh.
  - intros Hn. rewrite (fetch_old_format rid inp uid Hn). fold a. split.
    + apply finish_trace.
    + intros v Ha Hv. rewrite (finish_absent a (trace a) v); [reflexivity| |assumption].
      rewrite <- Ha. apply surjective.
Qed.

(** C10. A probe that returns an empty byte string counts as one that
    returned nothing: turning every empty body into [None] changes
    neither the trace nor the outcome of the call; the call never
    returns an empty body; and when every probe that applies (the
    archive, and for a usable uid the spool and the peers) returns an
    empty body or none, the call raises [MsmtNotFound].  After an empty
    body the chain goes on in its order, spool, peers, archive for a
    [Fresh] identifier and archive, spool, peers for an archived one with
    a usable uid: the next probe is run, its body is the result, and
    when it has none either the last probe is run and ends the call. *)
Theorem empty_body_is_absent rid inp uid :
  let d := on_disk (the_uid uid) in
  let h := from_hosts (the_uid uid) in
  let a := clickhouse rid inp uid in
  let t := Timer "fetch_measurement_body" in
  let last (m : M (option bytes)) :=
    match outcome m with
    | Ret (Some (b :: bs)) => Ret (b :: bs)
    | Ret _ => Raise MsmtNotFound
    | Raise e => Raise e
    end in
  fetch rid inp uid =
    fetch_measurement_body_with
      (fun u => absent_if_empty (on_disk u))
      (fun u => absent_if_empty (from_hosts u))
      (fun r i u => absent_if_empty (clickhouse r i u)) now rid inp uid
  /\ outcome (fetch rid inp uid) <> Ret []
  /\ (no_body a ->
      (new_format rid uid = true -> no_body d /\ no_body h) ->
      outcome (fetch rid inp uid) = Raise MsmtNotFound)
  /\ (classify now rid uid = Fresh -> outcome d = Ret (Some []) ->
      (forall b, outcome h = Ret (Some b) -> b <> [] ->
                 fetch rid inp uid = (t :: trace d ++ trace h, Ret b)) /\
      (no_body h ->
       fetch rid inp uid = (t :: trace d ++ trace h ++ trace a, last a)))
  /\ (classify now rid uid = Fresh -> no_body d -> outcome h = Ret (Some []) ->
      fetch rid inp uid = (t :: trace d ++ trace h ++ trace a, last a))
  /\ (classify now rid uid = Archived -> new_format rid uid = true ->
      outcome a = Ret (Some []) ->
      (forall b, outcome d = Ret (Some b) -> b <> [] ->
                 fetch rid inp uid = (t :: trace a ++ trace d, Ret b)) /\
      (no_body d ->
       fetch rid inp uid = (t :: trace a ++ trace d ++ trace h, last h)))
  /\ (classify now rid uid = Archived -> new_format rid uid = true ->
      no_body a -> outcome d = Ret (Some []) ->
      fetch rid inp uid = (t :: trace a ++ trace d ++ trace h, last h)).
Proof.
  intros d h a t last.
  assert (Hold :
    fetch rid inp uid =
      fetch_measurement_body_with
        (fun u => absent_if_empty (on_disk u))
        (fun u => absent_if_empty (from_hosts u))
        (fun r i u => absent_if_empty (clickhouse r i u)) now rid inp uid
    /\ outcome (fetch rid inp uid) <> Ret []
    /\ (no_body a ->
        (new_format rid uid = true -> no_body d /\ no_body h) ->
        outcome (fetch rid inp uid) = Raise MsmtNotFound)).
  { subst d h a. unfold fetch_measurement_body_with, absent_if_empty, no_body.
    destruct (new_format rid uid); destruct (fresh now (the_uid uid));
      destruct (on_disk (the_uid uid)) as [td [[[|bd bsd]|]|ed]];
      destruct (from_hosts (the_uid uid)) as [th [[[|bh bsh]|]|eh]];
      destruct (clickhouse rid inp uid) as [ta [[[|ba bsa]|]|ea]];
      (split; [reflexivity|split; [discriminate|]]);
      intros (va & Ha & Hva) Hdh;
      try (destruct (Hdh eq_refl) as [(vd & Hd & Hvd) (vh & Hh & Hvh)]);
      simpl in *;
      try reflexivity;
      try discriminate;
      repeat match goal with
             | H : Ret _ = Ret _ |- _ => injection H as <-
             end;
      simpl in *; discriminate. }
  destruct Hold as (H1 & H2 & H3).
  split; [exact H1|]. split; [exact H2|]. split; [exact H3|].
  split; [|split; [|split]].
  - intros Hf Hd. rewrite (fetch_fresh rid inp uid Hf). fold d h a. split.
    + intros b Hh Hb. apply finish_found; [|assumption].
      apply (chain_2 d h a (Some []) (Some b)); auto using truthy_some.
    + intros (w & Hh & Hw). rewrite finish_run.
      rewrite (chain_3 d h a (Some []) w Hd eq_refl Hh Hw). reflexivity.
  - intros Hf (v & Hd & Hv) Hh. rewrite (fetch_fresh rid inp uid Hf).
    fold d h a. rewrite finish_run.
    rewrite (chain_3 d h a v (Some []) Hd Hv Hh eq_refl). reflexivity.
  - intros Hc Hn Ha.
    rewrite (fetch_archived rid inp uid Hn
               (new_format_archived rid uid Hn Hc)). fold d h a. split.
    + intros b Hd Hb. apply finish_found; [|assumption].
      apply (chain_2 a d h (Some []) (Some b)); auto using truthy_some.
    + intros (w & Hd & Hw). rewrite finish_run.
      rewrite (chain_3 a d h (Some []) w Ha eq_refl Hd Hw). reflexivity.
  - intros Hc Hn (v & Ha & Hv) Hd.
    rewrite (fetch_archived rid inp uid Hn
               (new_format_archived rid uid Hn Hc)). fold d h a.
    rewrite finish_run.
    rewrite (chain_3 a d h v (Some []) Ha Hv Hd eq_refl). reflexivity.
Qed.

End Chains.
End OrchestratorFacts.

Module SourcesFacts.
Import Py Eff Clock Sources.

(** *** Deriving the spool path *)

Lemma spool_path_cases uid :
  spool_path uid = ([], Raise MalformedIdentifier) \/
  exists p, spool_path uid = ([], Ret p).
Proof.
  unfold spool_path, raise, ret.
  destruct (startswith "20" uid); cbn [negb]; [|now left].
  destruct (split "_" uid) as [|f1 [|f2 [|f3 [|f4 [|f5 r]]]]]; try now left.
  destruct (int_ok (take 10 f1)); cbn [negb]; [right; eexists; reflexivity|now left].
Qed.

Lemma spool_path_malformed uid :
  length (split "_" uid) <> 4 \/
  int_ok (take 10 (hd EmptyString (split "_" uid))) = false ->
  spool_path uid = ([], Raise MalformedIdentifier).
Proof.
  unfold spool_path, raise, ret. intros H.
  destruct (startswith "20" uid); cbn [negb]; [|reflexivity].
  destruct (split "_" uid) as [|f1 [|f2 [|f3 [|f4 [|f5 r]]]]]; try reflexivity.
  cbn [length hd] in H. destruct H as [H|H]; [congruence|]. now rewrite H.
Qed.

(** *** What [int()] refuses *)

Lemma lstrip_keeps c l : In c l -> is_space c = false -> In c (lstrip l).
Proof.
  induction l as [|a l IH]; intros Hin Hc; [contradiction|].
  simpl. destruct (is_space a) eqn:Ea; [|assumption].
  destruct Hin as [->|Hin]; [congruence|auto].
Qed.

Lemma strip_keeps c l : In c l -> is_space c = false -> In c (strip l).
Proof.
  intros Hin Hc. unfold strip. rewrite <- in_rev.
  apply lstrip_keeps; [|assumption]. rewrite <- in_rev. now apply lstrip_keeps.
Qed.

Lemma int_digits_refuses c l : forall after_digit,
  In c l -> is_digit c = false -> c <> "_"%char ->
  int_digits after_digit l = false.
Proof.
  induction l as [|a l IH]; intros after_digit Hin Hd Hu; [contradiction|].
  simpl. destruct Hin as [->|Hin].
  - rewrite Hd. destruct (Ascii.eqb_spec c "_"%char); [contradiction|reflexivity].
  - destruct (is_digit a); [now apply IH|].
    destruct (Ascii.eqb a "_"%char); [|reflexivity].
    rewrite (IH false) by assumption. apply andb_false_r.
Qed.

(** An hour that holds a character other than a digit, white space, a
    sign or an underscore is refused by [int()]. *)
Lemma int_ok_refuses c s :
  In c (list_ascii_of_string s) ->
  is_digit c = false -> is_space c = false ->
  c <> "_"%char -> c <> "+"%char -> c <> "-"%char ->
  int_ok s = false.
Proof.
  intros Hin Hd Hs Hu Hp Hm. unfold int_ok.
  pose proof (strip_keeps c _ Hin Hs) as Hin'.
  destruct (strip (list_ascii_of_string s)) as [|a l]; [reflexivity|].
  destruct (Ascii.eqb_spec a "+"%char) as [->|Ha]; cbn [orb].
  - destruct Hin' as [<-|Hin']; [contradiction|]. now apply (int_digits_refuses c).
  - destruct (Ascii.eqb_spec a "-"%char) as [->|Hb].
    + destruct Hin' as [<-|Hin']; [contradiction|]. now apply (int_digits_refuses c).
    + now apply (int_digits_refuses c).
Qed.

(** *** The hour prefixes [int()] accepts *)

Lemma digit_not_space c : is_digit c = true -> is_space c = false.
Proof.
  unfold is_digit, is_space. cbv zeta. intros H.
  apply andb_true_iff in H. destruct H as [H1 H2].
  apply Nat.leb_le in H1, H2.
  repeat match goal with
         | |- context [?a <=? ?b] => destruct (Nat.leb_spec a b)
         | |- context [?a =? ?b] => destruct (Nat.eqb_spec a b)
         end; cbn; try reflexivity; lia.
Qed.

Lemma digit_not_char c (x : ascii) :
  is_digit c = true -> is_digit x = false -> c <> x.
Proof. intros H1 H2 ->. congruence. Qed.

Lemma lstrip_spaces ws l : forallb is_space ws = true -> lstrip (ws ++ l) = lstrip l.
Proof.
  induction ws as [|w ws IH]; [reflexivity|]. cbn. intros H.
  apply andb_true_iff in H. destruct H as [-> H]. now apply IH.
Qed.

Lemma lstrip_split l : exists ws, l = ws ++ lstrip l /\ forallb is_space ws = true.
Proof.
  induction l as [|a l (ws & Hl & Hws)]; [now exists []|].
  cbn. destruct (is_space a) eqn:Ea.
  - exists (a :: ws). cbn. rewrite Ea, Hws. split; [now f_equal|reflexivity].
  - now exists [].
Qed.

Lemma forallb_rev (A : Type) (f : A -> bool) l : forallb f (rev l) = forallb f l.
Proof.
  induction l as [|a l IH]; [reflexivity|].
  cbn. rewrite forallb_app, IH. cbn. rewrite andb_true_r. apply andb_comm.
Qed.

(** [strip] takes the white space off the end of a list that begins
    with something else. *)
Lemma strip_split c l :
  is_space c = false ->
  exists ws, c :: l = strip (c :: l) ++ ws /\ forallb is_space ws = true /\
             exists l', strip (c :: l) = c :: l'.
Proof.
  intros Hc. unfold strip. cbn [lstrip]. rewrite Hc.
  destruct (lstrip_split (rev (c :: l))) as (ws & Hl & Hws).
  exists (rev ws).
  assert (H : c :: l = rev (lstrip (rev (c :: l))) ++ rev ws).
  { rewrite <- rev_app_distr, <- Hl. now rewrite rev_involutive. }
  split; [exact H|]. split; [now rewrite forallb_rev|].
  destruct (rev (lstrip (rev (c :: l)))) as [|x l'] eqn:E.
  - cbn in H. exfalso.
    assert (Hin : In c (rev ws)) by (rewrite <- H; now left).
    apply in_rev in Hin.
    rewrite forallb_forall in Hws. specialize (Hws c Hin). congruence.
  - cbn in H. injection H as <- _. now exists l'.
Qed.

Lemma int_digits_plain l : forall after_digit,
  ~ In "_"%char l ->
  int_digits after_digit l = true ->
  forallb is_digit l = true /\ (after_digit = true \/ l <> []).
Proof.
  induction l as [|a l IH]; intros after_digit Hno H.
  - cbn in H. subst. auto.
  - cbn in H |- *. destruct (is_digit a) eqn:Ea.
    + destruct (IH true) as [Hd _]; [intros Hin; apply Hno; now right|assumption|].
      split; [assumption|right; discriminate].
    + destruct (Ascii.eqb_spec a "_"%char) as [->|Hne]; [|discriminate].
      exfalso. apply Hno. now left.
Qed.

Lemma int_digits_all l : forall after_digit,
  forallb is_digit l = true -> (after_digit = true \/ l <> []) ->
  int_digits after_digit l = true.
Proof.
  induction l as [|a l IH]; intros after_digit Hd Hn.
  - destruct Hn as [->|Hn]; [reflexivity|congruence].
  - cbn in Hd |- *. apply andb_true_iff in Hd. destruct Hd as [-> Hd].
    apply IH; auto.
Qed.

Lemma digits_then_spaces_spec l : forall after_digit,
  digits_then_spaces after_digit l = true <->
  exists ds ws, l = ds ++ ws /\ forallb is_digit ds = true /\
                forallb is_space ws = true /\ (after_digit = true \/ ds <> []).
Proof.
  induction l as [|a l IH]; intros after_digit.
  - cbn. split.
    + intros ->. exists [], []. auto.
    + intros (ds & ws & Hl & _ & _ & [->|Hn]); [reflexivity|].
      destruct ds; [congruence|discriminate].
  - cbn [digits_then_spaces]. destruct (is_digit a) eqn:Ea.
    + rewrite IH. split.
      * intros (ds & ws & -> & Hd & Hw & _). exists (a :: ds), ws. cbn.
        rewrite Ea, Hd. repeat split; auto; right; discriminate.
      * intros (ds & ws & Hl & Hd & Hw & _). destruct ds as [|d ds].
        -- cbn in Hl. subst ws. cbn in Hw. apply andb_true_iff in Hw.
           destruct Hw as [Hw _]. rewrite (digit_not_space a Ea) in Hw. discriminate.
        -- cbn in Hl, Hd. injection Hl as <- ->. apply andb_true_iff in Hd.
           exists ds, ws. repeat split; try tauto.
    + split.
      * intros H. apply andb_true_iff in H. destruct H as [-> Hw].
        exists [], (a :: l). auto.
      * intros (ds & ws & Hl & Hd & Hw & Hn). destruct ds as [|d ds].
        -- cbn in Hl. subst ws. destruct Hn as [->|Hn]; [|congruence]. exact Hw.
        -- cbn in Hl, Hd. injection Hl as <- ->. rewrite Ea in Hd. discriminate.
Qed.

Lemma strip_digits ds ws :
  ds <> [] -> forallb is_digit ds = true -> forallb is_space ws = true ->
  strip (ds ++ ws) = ds.
Proof.
  intros Hn Hd Hw. destruct ds as [|d ds]; [congruence|].
  cbn in Hd. apply andb_true_iff in Hd. destruct Hd as [Hd0 Hd].
  unfold strip. cbn [app lstrip]. rewrite (digit_not_space d Hd0).
  change (d :: ds ++ ws) with ((d :: ds) ++ ws).
  rewrite rev_app_distr, lstrip_spaces by now rewrite forallb_rev.
  assert (Hl : lstrip (rev (d :: ds)) = rev (d :: ds)).
  { destruct (rev (d :: ds)) as [|x r] eqn:E; [reflexivity|].
    cbn. assert (Hx : is_digit x = true).
    { assert (Hin : In x (d :: ds)) by (apply in_rev; rewrite E; now left).
      destruct Hin as [<-|Hin]; [assumption|].
      rewrite forallb_forall in Hd. now apply Hd. }
    now rewrite (digit_not_space x Hx). }
  rewrite Hl. apply rev_involutive.
Qed.

(** For a text that begins with a digit and holds no underscore, [int()]
    succeeds exactly when the text is digits followed by white space. *)
Lemma int_ok_numeric c s :
  is_digit c = true -> count "_" (String c s) = 0 ->
  int_ok (String c s) = numeric_hour (String c s).
Proof.
  intros Hc Hu.
  assert (Hno : ~ In "_"%char (list_ascii_of_string (String c s))).
  { revert Hu. generalize (String c s). clear. intros s.
    induction s as [|a s IH]; cbn; [tauto|].
    destruct (Ascii.eqb_spec a "_"%char) as [->|Hne]; [discriminate|].
    intros H [E|Hin]; [congruence|]. now apply IH. }
  unfold int_ok, numeric_hour. cbn [list_ascii_of_string] in *.
  set (l := list_ascii_of_string s) in *.
  destruct (strip_split c l (digit_not_space c Hc)) as (ws & Hl & Hws & l' & Hs).
  rewrite Hs.
  assert (Hp : Ascii.eqb c "+" = false)
    by (apply Ascii.eqb_neq; now apply digit_not_char).
  assert (Hm : Ascii.eqb c "-" = false)
    by (apply Ascii.eqb_neq; now apply digit_not_char).
  rewrite Hp, Hm. cbn [orb].
  destruct (int_digits false (c :: l')) eqn:Ei.
  - symmetry. apply digits_then_spaces_spec.
    destruct (int_digits_plain (c :: l') false) as [Hd _]; [|assumption|].
    { intros Hin. apply Hno. rewrite Hl, Hs. apply in_or_app. now left. }
    exists (c :: l'), ws. rewrite <- Hs. repeat split; auto.
    + now rewrite Hs.
    + right. rewrite Hs. discriminate.
  - symmetry. apply not_true_is_false. intros Hn.
    apply digits_then_spaces_spec in Hn.
    destruct Hn as (ds & ws' & Hl' & Hd & Hw' & [Hf|Hn]); [discriminate|].
    rewrite Hl' in Hs. rewrite (strip_digits ds ws' Hn Hd Hw') in Hs.
    rewrite Hs in Hd. rewrite (int_digits_all (c :: l') false Hd) in Ei;
      [discriminate|right; discriminate].
Qed.

Lemma split_hd_plain c s : count c (hd EmptyString (split c s)) = 0.
Proof.
  induction s as [|a s IH]; [reflexivity|].
  cbn [split]. destruct (Ascii.eqb a c) eqn:E; [reflexivity|].
  destruct (split c s) as [|w ws]; cbn in *; now rewrite E.
Qed.

Lemma count_take c n : forall s, count c s = 0 -> count c (take n s) = 0.
Proof.
  induction n as [|n IH]; intros [|a s]; cbn; try reflexivity.
  destruct (Ascii.eqb a c); [discriminate|]. apply IH.
Qed.

(** The first field of a uid that starts with [20] starts with it too. *)
Lemma split_hd_20 uid :
  startswith "20" uid = true ->
  exists w, hd EmptyString (split "_" uid) = String "2" (String "0" w).
Proof.
  unfold startswith. destruct uid as [|a [|b s]]; cbn [prefix]; try discriminate.
  - destruct (ascii_dec "2" a); discriminate.
  - destruct (ascii_dec "2" a) as [<-|]; [|discriminate].
    destruct (ascii_dec "0" b) as [<-|]; [|discriminate].
    intros _. cbn. destruct (split "_" s) as [|w ws]; eexists; reflexivity.
Qed.

Lemma hour_int_ok uid :
  startswith "20" uid = true ->
  int_ok (take 10 (hd EmptyString (split "_" uid)))
  = numeric_hour (take 10 (hd EmptyString (split "_" uid))).
Proof.
  intros Hs. pose proof (split_hd_plain "_" uid) as Hc.
  destruct (split_hd_20 uid Hs) as [w Hw]. rewrite Hw in *.
  apply (count_take "_" 10) in Hc. cbn [take] in *.
  now apply int_ok_numeric.
Qed.

(** C6, as the code has it.  A uid that does not start with [20], whose
    number of underscore-separated fields is not four, or whose hour
    prefix (the first ten characters of the first field) is not made of
    decimal digits followed by nothing but white space, is rejected as
    [MalformedIdentifier] when the path is derived, so no path is built;
    the spool probe raises it without opening any file, and the
    peer-host probe gives up without any request: the only event of
    either probe is its own entry.  Every other uid gets a path, and the
    spool probe opens the file: white space after the digits of the hour
    does not make a uid malformed. *)
Theorem malformed_uid_rejected (env : Env) (uid : string) :
  let hour := take 10 (hd EmptyString (split "_" uid)) in
  (startswith "20" uid = false \/ length (split "_" uid) <> 4 \/
   numeric_hour hour = false ->
   spool_path uid = ([], Raise MalformedIdentifier) /\
   _fetch_measurement_body_on_disk_by_msmt_uid env uid
     = ([probe_disk], Raise MalformedIdentifier) /\
   _fetch_measurement_body_from_hosts env uid = ([probe_hosts], Ret None)) /\
  (startswith "20" uid = true -> length (split "_" uid) = 4 ->
   numeric_hour hour = true ->
   exists p, spool_path uid = ([], Ret p) /\
             trace (_fetch_measurement_body_on_disk_by_msmt_uid env uid)
             = [probe_disk; FsOpen p]).
Proof.
  intros hour. split.
  - intros H.
    assert (Hp : spool_path uid = ([], Raise MalformedIdentifier)).
    { destruct (startswith "20" uid) eqn:Hs.
      - apply spool_path_malformed.
        destruct H as [H|[H|H]]; [discriminate|now left|right].
        now rewrite hour_int_ok.
      - unfold spool_path. now rewrite Hs. }
    split; [assumption|].
    unfold _fetch_measurement_body_on_disk_by_msmt_uid,
      _fetch_measurement_body_from_hosts.
    rewrite Hp. split; reflexivity.
  - intros Hs Hl Hn. subst hour. rewrite <- hour_int_ok in Hn by assumption.
    unfold _fetch_measurement_body_on_disk_by_msmt_uid, spool_path.
    rewrite Hs. cbn [negb].
    destruct (split "_" uid) as [|f1 [|f2 [|f3 [|f4 [|f5 r]]]]]; try discriminate Hl.
    cbn [hd] in Hn. rewrite Hn. cbn [negb]. eexists. split; [reflexivity|].
    cbn [bind emit ret timed trace fst app].
    match goal with |- context [spool_file env ?p] =>
      destruct (spool_file env p) as [| |data] end; try reflexivity.
    unfold load_post. destruct (ujson_loads env data) as [post|]; [|reflexivity].
    destruct post as [|b|n|s|l|d]; try reflexivity.
    cbn [bind ret _unwrap_post].
    destruct (dict_lookup "format" d) as [[|b|n|f|l|d']|]; try reflexivity.
    destruct (String.eqb f "json"); reflexivity.
Qed.

(** *** The peer-host loop *)

(** Decoding and unwrapping a 200 body, errors caught. *)
Lemma attempt_answer env data :
  catch (bind (load_post env data) (fun post =>
         bind (_unwrap_post post) (fun body =>
         ret (Some (encode (ujson_dumps env body))))))
        (fun _ => ret None)
  = ([], Ret (peer_answer env (Response 200 data))).
Proof.
  unfold peer_answer, load_post. cbn [Nat.eqb].
  destruct (ujson_loads env data) as [post|]; [|reflexivity].
  destruct post as [|b|n|s|l|d]; try reflexivity.
  cbn [bind ret _unwrap_post].
  destruct (dict_lookup "format" d) as [[|b|n|f|l|d']|]; try reflexivity.
  destruct (String.eqb f "json"); reflexivity.
Qed.

Lemma peer_answer_not_200 env status data :
  status <> 200 -> peer_answer env (Response status data) = None.
Proof.
  intros H. unfold peer_answer. now destruct (Nat.eqb_spec status 200).
Qed.

Lemma hosts_loop_step env p host rest :
  hosts_loop env p (host :: rest) =
  match peer_answer env (http_get env host p) with
  | Some b => ([HttpGet host p], Ret (Some b))
  | None => (HttpGet host p :: trace (hosts_loop env p rest),
             outcome (hosts_loop env p rest))
  end.
Proof.
  cbn [hosts_loop].
  destruct (hosts_loop env p rest) as [tr r].
  destruct (http_get env host p) as [|status data]; [reflexivity|].
  destruct (Nat.eqb_spec status 404) as [->|Hn]; [reflexivity|].
  destruct (Nat.eqb_spec status 200) as [->|Hm].
  - cbn [negb]. rewrite attempt_answer.
    destruct (peer_answer env (Response 200 data)); reflexivity.
  - rewrite (peer_answer_not_200 env status data Hm). reflexivity.
Qed.

Lemma hosts_loop_none env p hosts :
  (forall h, In h hosts -> peer_answer env (http_get env h p) = None) ->
  hosts_loop env p hosts = (map (fun h => HttpGet h p) hosts, Ret None).
Proof.
  induction hosts as [|h hosts IH]; intros H; [reflexivity|].
  rewrite hosts_loop_step, (H h (or_introl eq_refl)), IH; [reflexivity|].
  intros h' Hh'. apply H. now right.
Qed.

Lemma hosts_loop_first env p before host after b :
  (forall h, In h before -> peer_answer env (http_get env h p) = None) ->
  peer_answer env (http_get env host p) = Some b ->
  hosts_loop env p (before ++ host :: after)
    = (map (fun h => HttpGet h p) (before ++ [host]), Ret (Some b)).
Proof.
  induction before as [|h before IH]; intros H Hb.
  - simpl app. now rewrite hosts_loop_step, Hb.
  - simpl app. rewrite hosts_loop_step, (H h (or_introl eq_refl)), IH; auto.
    intros h' Hh'. apply H. now right.
Qed.

Lemma hosts_loop_returns env p hosts :
  exists v, outcome (hosts_loop env p hosts) = Ret v.
Proof.
  induction hosts as [|h hosts [v IH]]; [now exists None|].
  rewrite hosts_loop_step.
  destruct (peer_answer env (http_get env h p)) as [b|]; simpl; eauto.
Qed.

(** C7. The peers are asked in the configured order, each one with the
    path derived from the uid.  A peer whose response is a 404, another
    status, a transport error or a payload that is not a wrapper in the
    format json gives no answer and the next peer is asked; the first
    peer that answers with a json wrapper ends the loop, its content is
    returned and the peers after it are not asked; when no peer answers,
    all of them have been asked and the probe returns [None]. *)
Theorem peers_in_order (env : Env) (uid p : string) :
  spool_path uid = ([], Ret p) ->
  (forall before host after b,
      other_collectors env = before ++ host :: after ->
      (forall h, In h before -> peer_answer env (http_get env h p) = None) ->
      peer_answer env (http_get env host p) = Some b ->
      _fetch_measurement_body_from_hosts env uid
        = (probe_hosts :: map (fun h => HttpGet h p) (before ++ [host]),
           Ret (Some b))) /\
  ((forall h, In h (other_collectors env) ->
              peer_answer env (http_get env h p) = None) ->
   _fetch_measurement_body_from_hosts env uid
     = (probe_hosts :: map (fun h => HttpGet h p) (other_collectors env),
        Ret None)).
Proof.
  intros Hp. unfold _fetch_measurement_body_from_hosts. rewrite Hp. split.
  - intros before host after b Hc Hnone Hb. rewrite Hc.
    cbn [catch bind ret]. cbn. rewrite (hosts_loop_first env p before host after b Hnone Hb).
    reflexivity.
  - intros Hnone. cbn. rewrite (hosts_loop_none env p _ Hnone). reflexivity.
Qed.

(** *** The index lookup *)

Lemma hd_filter_some (A : Type) (f : A -> bool) (l : list A) x :
  hd_error (filter f l) = Some x -> In x l /\ f x = true.
Proof.
  intros H. apply filter_In.
  destruct (filter f l) as [|y l']; [discriminate|].
  injection H as ->. now left.
Qed.

Lemma hd_filter_none (A : Type) (f : A -> bool) (l : list A) :
  hd_error (filter f l) = None <-> (forall x, In x l -> f x = false).
Proof.
  split.
  - intros H x Hx. destruct (f x) eqn:E; [|reflexivity].
    assert (Hin : In x (filter f l)) by (apply filter_In; auto).
    destruct (filter f l); [contradiction|discriminate].
  - intros H. destruct (filter f l) as [|y l'] eqn:E; [reflexivity|].
    assert (Hy : In y (filter f l)) by (rewrite E; now left).
    apply filter_In in Hy. destruct Hy as [Hy Hf]. rewrite (H y Hy) in Hf. discriminate.
Qed.

Lemma pair_in_spec db uid j :
  pair_in (j_report_id j, j_input j) (pairs_of_uid db uid) = true <->
  exists f, In f (fastpath db) /\ fp_measurement_uid f = uid /\
            j_report_id j = fp_report_id f /\ j_input j = fp_input f.
Proof.
  unfold pair_in, pairs_of_uid. rewrite existsb_exists. split.
  - intros ([r i] & Hin & Heq). apply in_map_iff in Hin.
    destruct Hin as (f & Hf & Hin). apply filter_In in Hin.
    destruct Hin as [Hin Hu]. injection Hf as <- <-.
    apply andb_true_iff in Heq. destruct Heq as [H1 H2].
    apply String.eqb_eq in H1, H2, Hu. simpl in H1, H2. eauto.
  - intros (f & Hin & Hu & Hr & Hi).
    exists (fp_report_id f, fp_input f). split.
    + apply in_map_iff. exists f. split; [reflexivity|].
      apply filter_In. split; [assumption|]. now apply String.eqb_eq.
    + simpl. rewrite Hr, Hi, !String.eqb_refl. reflexivity.
Qed.

(** C8. The lookup by uid is one query: it selects the [jsonl] rows whose
    [(report_id, input)] pair is one that [fastpath] holds for the uid,
    and returns the coordinates of one such row; it fails with
    [MsmtNotFound] exactly when no row is selected. *)
Theorem locate_by_uid (env : Env) (db : Database) (uid : string) :
  database env = Some db ->
  let run := measurement_uid_to_s3path_linenum env uid in
  trace run = [QueryByUid uid] /\
  (forall s3path linenum,
      outcome run = Ret (s3path, linenum) ->
      exists f j, joined db uid f j /\ j_s3path j = s3path /\ j_linenum j = linenum) /\
  (outcome run = Raise MsmtNotFound <-> ~ exists f j, joined db uid f j) /\
  ((exists s3path linenum, outcome run = Ret (s3path, linenum)) \/
   outcome run = Raise MsmtNotFound).
Proof.
  intros Hdb run. subst run.
  unfold measurement_uid_to_s3path_linenum, query_click_one_row. rewrite Hdb.
  cbn [emit bind ret raise app trace outcome fst snd].
  destruct (hd_error (select_by_uid db uid)) as [row|] eqn:E;
    cbn [emit bind ret raise app trace outcome fst snd].
  - apply hd_filter_some in E. destruct E as [Hin Hsel].
    apply pair_in_spec in Hsel. destruct Hsel as (f & Hf & Hu & Hr & Hi).
    assert (Hj : joined db uid f row) by (unfold joined; auto).
    split; [reflexivity|]. split; [|split].
    + intros s3path linenum [= <- <-]. eauto.
    + split; [discriminate|]. intros Hno. exfalso. apply Hno. eauto.
    + left. eauto.
  - split; [reflexivity|]. split; [discriminate|]. split; [|now right].
    split; [|reflexivity]. intros _.
    intros (f & j & Hin & Hj & Hu & Hr & Hi).
    pose proof (proj1 (hd_filter_none _ _ _) E j Hj) as Hsel.
    assert (Ht : pair_in (j_report_id j, j_input j) (pairs_of_uid db uid) = true)
      by (apply pair_in_spec; eauto).
    simpl in Hsel. congruence.
Qed.

End SourcesFacts.

Module ResolutionFacts.
Import Py Eff Clock Sources Orchestrator OrchestratorFacts SourcesFacts.

(** The peer-host probe never raises. *)
Lemma from_hosts_returns env uid :
  exists v, outcome (_fetch_measurement_body_from_hosts env uid) = Ret v.
Proof.
  unfold _fetch_measurement_body_from_hosts.
  destruct (spool_path_cases uid) as [H|[p H]]; rewrite H.
  - now exists None.
  - destruct (hosts_loop_returns env p (other_collectors env)) as [v Hv].
    exists v. cbn. destruct (hosts_loop env p (other_collectors env)) as [tr r].
    simpl in *. now rewrite Hv.
Qed.

(** The spool probe raises on a malformed uid, on a file that cannot be
    read and on a malformed post, never [MsmtNotFound]. *)
Lemma on_disk_raises env uid e :
  outcome (_fetch_measurement_body_on_disk_by_msmt_uid env uid) = Raise e ->
  e = MalformedIdentifier \/ e = SourceUnavailable \/ e = MalformedPayload.
Proof.
  unfold _fetch_measurement_body_on_disk_by_msmt_uid.
  destruct (spool_path_cases uid) as [H|[p H]]; rewrite H.
  - intros [= <-]. auto.
  - cbn [bind emit timed outcome snd fst ret app].
    destruct (spool_file env p) as [| |data]; cbn; try discriminate.
    + intros [= <-]. auto.
    + unfold load_post. destruct (ujson_loads env data) as [post|]; cbn.
      * destruct post as [|b|n|s|l|d]; cbn; try (intros [= <-]; auto).
        destruct (dict_lookup "format" d) as [[|b|n|f|l|d']|]; cbn;
          try (intros [= <-]; auto).
        destruct (String.eqb f "json"); cbn; [discriminate|intros [= <-]; auto].
      * intros [= <-]. auto.
Qed.

(** The archive probe absorbs every failure but one: a database that
    cannot be reached while the uid is looked up. *)
Lemma clickhouse_raises env rid inp uid e :
  outcome (_fetch_jsonl_measurement_body_clickhouse env rid inp uid) = Raise e ->
  e = SourceUnavailable /\ database env = None /\ uid <> None.
Proof.
  unfold _fetch_jsonl_measurement_body_clickhouse, measurement_uid_to_s3path_linenum,
    report_id_input_to_s3path_linenum, query_click_one_row,
    _fetch_jsonl_measurement_body_from_s3.
  destruct uid as [u|]; destruct (database env) as [db|]; cbn;
    try match goal with
        | |- context [hd_error ?l] => destruct (hd_error l) as [row|]; cbn
        end;
    try match goal with
        | |- context [s3_object ?e ?p] =>
          destruct (s3_object e p) as [|lines intact]; cbn
        end;
    try match goal with
        | |- context [nth_error ?l ?n] => destruct (nth_error l n); cbn
        end;
    try match goal with
        | |- context [if ?b then _ else _] => destruct b; cbn
        end;
    try discriminate.
  intros [= <-]. repeat split; discriminate.
Qed.

Lemma no_body_iff (m : M (option bytes)) :
  no_body m <->
  match outcome m with
  | Ret v => truthy v = false
  | Raise _ => False
  end.
Proof.
  unfold no_body. destruct (outcome m) as [v|e]; split.
  - now intros (w & [= <-] & Hw).
  - eauto.
  - now intros (w & Hw & _).
  - contradiction.
Qed.

Lemma on_disk_raise_cases env uid :
  (spool_path uid = ([], Raise MalformedIdentifier) ->
   outcome (_fetch_measurement_body_on_disk_by_msmt_uid env uid)
   = Raise MalformedIdentifier) /\
  (forall p, spool_path uid = ([], Ret p) -> spool_file env p = Unreadable ->
     outcome (_fetch_measurement_body_on_disk_by_msmt_uid env uid)
     = Raise SourceUnavailable) /\
  (forall p data, spool_path uid = ([], Ret p) -> spool_file env p = Content data ->
     ujson_loads env data = None ->
     outcome (_fetch_measurement_body_on_disk_by_msmt_uid env uid)
     = Raise MalformedPayload).
Proof.
  unfold _fetch_measurement_body_on_disk_by_msmt_uid. split; [|split].
  - now intros ->.
  - intros p -> Hf. cbn. now rewrite Hf.
  - intros p data -> Hf Hl. cbn. rewrite Hf. unfold load_post. now rewrite Hl.
Qed.

Lemma clickhouse_unreachable env rid inp u :
  database env = None ->
  outcome (_fetch_jsonl_measurement_body_clickhouse env rid inp (Some u))
  = Raise SourceUnavailable.
Proof.
  intros Hdb.
  unfold _fetch_jsonl_measurement_body_clickhouse, measurement_uid_to_s3path_linenum,
    query_click_one_row. now rewrite Hdb.
Qed.

(** C5, as the code has it.  Whatever goes wrong inside the peer-host
    probe is absorbed: it always returns.  The archive probe absorbs
    every failure except a database that cannot be reached during the
    lookup by uid.  An exception that leaves the orchestrator is
    [MsmtNotFound], or the one the spool probe raised (malformed uid,
    unreadable file, malformed post), or that database failure.
    [MsmtNotFound] is raised exactly when every source that applies has
    returned no body: the archive, and for a usable uid the spool and
    the peers too.  The two failures that are not absorbed do leave: an
    exception of the spool probe ends the call as soon as the spool is
    probed (first for a [Fresh] identifier, after an archive without a
    body otherwise), the database failure as soon as the archive is, and
    no later probe is run.  The spool probe raises for a uid that gives
    no path, for a file that cannot be read and for a post that does not
    decode; the archive probe raises whenever the database cannot be
    reached and a uid is given. *)
Theorem errors_absorbed_or_surfaced (env : Env) (rid : string)
        (inp uid : option string) :
  let d := _fetch_measurement_body_on_disk_by_msmt_uid env (the_uid uid) in
  let h := _fetch_measurement_body_from_hosts env (the_uid uid) in
  let a := _fetch_jsonl_measurement_body_clickhouse env rid inp uid in
  let run := _fetch_measurement_body env rid inp uid in
  let t := Timer "fetch_measurement_body" in
  (exists v, outcome h = Ret v) /\
  (forall e, outcome a = Raise e ->
             e = SourceUnavailable /\ database env = None /\ uid <> None) /\
  (forall e, outcome run = Raise e ->
             e = MsmtNotFound \/
             (new_format rid uid = true /\ outcome d = Raise e) \/
             outcome a = Raise e) /\
  (outcome run = Raise MsmtNotFound <->
   no_body a /\ (new_format rid uid = true -> no_body d /\ no_body h)) /\
  (forall e, outcome d = Raise e ->
     (classify (utcnow env) rid uid = Fresh -> run = (t :: trace d, Raise e)) /\
     (classify (utcnow env) rid uid = Archived -> new_format rid uid = true ->
      no_body a -> run = (t :: trace a ++ trace d, Raise e))) /\
  (forall e, outcome a = Raise e ->
     (classify (utcnow env) rid uid = Archived -> run = (t :: trace a, Raise e)) /\
     (classify (utcnow env) rid uid = Fresh -> no_body d -> no_body h ->
      run = (t :: trace d ++ trace h ++ trace a, Raise e))) /\
  (spool_path (the_uid uid) = ([], Raise MalformedIdentifier) ->
   outcome d = Raise MalformedIdentifier) /\
  (forall p, spool_path (the_uid uid) = ([], Ret p) -> spool_file env p = Unreadable ->
             outcome d = Raise SourceUnavailable) /\
  (forall p data, spool_path (the_uid uid) = ([], Ret p) ->
                  spool_file env p = Content data -> ujson_loads env data = None ->
                  outcome d = Raise MalformedPayload) /\
  (uid <> None -> database env = None -> outcome a = Raise SourceUnavailable).
Proof.
  intros d h a run t.
  pose proof (from_hosts_returns env (the_uid uid)) as [vh Hh]. fold h in Hh.
  pose proof (clickhouse_raises env rid inp uid) as Ha. fold a in Ha.
  pose proof (on_disk_raises env (the_uid uid)) as Hd. fold d in Hd.
  split; [eauto|]. split; [exact Ha|].
  assert (Hrun : outcome run =
    match (if new_format rid uid
           then if fresh (utcnow env) (the_uid uid)
                then outcome (por (por d h) a)
                else outcome (por (por a d) h)
           else outcome a) with
    | Ret (Some (b :: bs)) => Ret (b :: bs)
    | Ret _ => Raise MsmtNotFound
    | Raise e => Raise e
    end).
  { subst run. unfold _fetch_measurement_body.
    destruct (new_format rid uid) eqn:Hn.
    - destruct (fresh (utcnow env) (the_uid uid)) eqn:Hf.
      + rewrite fetch_fresh by (unfold classify; now rewrite Hn, Hf).
        apply finish_outcome.
      + rewrite fetch_archived by assumption. apply finish_outcome.
    - rewrite fetch_old_format by assumption. apply finish_outcome. }
  assert (Hold :
    (forall e, outcome run = Raise e ->
               e = MsmtNotFound \/
               (new_format rid uid = true /\ outcome d = Raise e) \/
               outcome a = Raise e) /\
    (outcome run = Raise MsmtNotFound <->
     no_body a /\ (new_format rid uid = true -> no_body d /\ no_body h))).
  { rewrite !no_body_iff, Hrun, !por_outcome, Hh. clear Hrun.
    destruct (new_format rid uid); [destruct (fresh (utcnow env) (the_uid uid))|];
      destruct (outcome d) as [[[|bd bsd]|]|ed] eqn:Ed;
      destruct (outcome a) as [[[|ba bsa]|]|ea] eqn:Ea;
      destruct vh as [[|bh bsh]|]; cbn [truthy];
      (split; [intros e He; try discriminate He; auto;
               try (injection He as <-; auto)
              | split; [intros He; try discriminate He; repeat split; auto;
                        try (exfalso; destruct (Hd _ eq_refl) as [X|[X|X]]; congruence);
                        try (exfalso; destruct (Ha _ eq_refl) as [X _]; congruence)
                       | intros [H1 H2]; try discriminate H1; try contradiction;
                         try (destruct (H2 eq_refl) as [H3 H4];
                              try discriminate H3; try discriminate H4;
                              try contradiction);
                         try reflexivity]]). }
  destruct Hold as [H3 H4]. split; [exact H3|]. split; [exact H4|].
  clear Hrun H3 H4.
  split; [|split; [|split; [|split; [|split]]]].
  - intros e He. split.
    + intros Hf. subst run. unfold _fetch_measurement_body.
      rewrite (fetch_fresh _ _ _ _ rid inp uid Hf). fold d h a.
      apply finish_raise. now apply chain_raise_1.
    + intros Hc Hn (v & Hav & Hv). subst run. unfold _fetch_measurement_body.
      rewrite (fetch_archived _ _ _ _ rid inp uid Hn
                 (new_format_archived _ rid uid Hn Hc)). fold d h a.
      apply finish_raise. now apply (chain_raise_2 a d h v).
  - intros e He. split.
    + intros Hc. subst run. unfold _fetch_measurement_body.
      destruct (new_format rid uid) eqn:Hn.
      * rewrite (fetch_archived _ _ _ _ rid inp uid Hn
                   (new_format_archived _ rid uid Hn Hc)). fold d h a.
        apply finish_raise. now apply chain_raise_1.
      * rewrite (fetch_old_format _ _ _ _ rid inp uid Hn). fold a.
        apply finish_raise. rewrite <- He. apply surjective.
    + intros Hf (v & Hdv & Hv) (w & Hhw & Hw). subst run.
      unfold _fetch_measurement_body.
      rewrite (fetch_fresh _ _ _ _ rid inp uid Hf). fold d h a.
      apply finish_raise. rewrite (chain_3 d h a v w Hdv Hv Hhw Hw). now rewrite He.
  - apply on_disk_raise_cases.
  - apply on_disk_raise_cases.
  - apply on_disk_raise_cases.
  - intros Hu Hdb. subst a. destruct uid as [u|]; [|congruence].
    now apply clickhouse_unreachable.
Qed.

End ResolutionFacts.

Module ClockFacts.
Import Py Clock Orchestrator.

(** *** Comparing formatted datetimes *)

Lemma digit_compare x y :
  Ascii.compare (digit x) (digit y) = Nat.compare (x mod 10) (y mod 10).
Proof.
  unfold digit.
  pose proof (Nat.mod_upper_bound x 10 ltac:(discriminate)) as Hx.
  pose proof (Nat.mod_upper_bound y 10 ltac:(discriminate)) as Hy.
  revert Hx Hy. generalize (x mod 10) (y mod 10). intros a b Ha Hb.
  do 10 (destruct a as [|a]; [do 10 (destruct b as [|b]; [reflexivity|]); lia|]).
  lia.
Qed.

Lemma two_digits a : a < 100 -> a = 10 * ((a / 10) mod 10) + a mod 10.
Proof.
  intros Ha. rewrite (Nat.mod_small (a / 10)).
  - apply Nat.div_mod_eq.
  - apply Nat.Div0.div_lt_upper_bound. lia.
Qed.

Lemma pad2_compare a b k k' :
  a < 100 -> b < 100 ->
  String.compare (pad2 a k) (pad2 b k') =
  match Nat.compare a b with
  | Eq => String.compare k k'
  | c => c
  end.
Proof.
  intros Ha Hb. unfold pad2. cbn [String.compare]. rewrite !digit_compare.
  pose proof (two_digits a Ha) as Ea. pose proof (two_digits b Hb) as Eb.
  pose proof (Nat.mod_upper_bound a 10 ltac:(discriminate)).
  pose proof (Nat.mod_upper_bound b 10 ltac:(discriminate)).
  destruct (Nat.compare_spec ((a / 10) mod 10) ((b / 10) mod 10));
    destruct (Nat.compare_spec (a mod 10) (b mod 10));
    destruct (Nat.compare_spec a b); try reflexivity; lia.
Qed.

Lemma pad4_compare a b k k' :
  a < 100 * 100 -> b < 100 * 100 ->
  String.compare (pad4 a k) (pad4 b k') =
  match Nat.compare a b with
  | Eq => String.compare k k'
  | c => c
  end.
Proof.
  intros Ha Hb. unfold pad4.
  pose proof (Nat.div_mod_eq a 100) as Ea. pose proof (Nat.div_mod_eq b 100) as Eb.
  pose proof (Nat.mod_upper_bound a 100 ltac:(discriminate)) as Ma.
  pose proof (Nat.mod_upper_bound b 100 ltac:(discriminate)) as Mb.
  rewrite pad2_compare by (apply Nat.Div0.div_lt_upper_bound; lia).
  rewrite pad2_compare by assumption.
  destruct (Nat.compare_spec (a / 100) (b / 100));
    destruct (Nat.compare_spec (a mod 100) (b mod 100));
    destruct (Nat.compare_spec a b); try reflexivity; lia.
Qed.

Lemma ltb_eqb_compare x y (r : bool) :
  (x <? y) || ((x =? y) && r) =
  match Nat.compare x y with Lt => true | Eq => r | Gt => false end.
Proof.
  destruct (Nat.compare_spec x y) as [->|H|H].
  - now rewrite Nat.ltb_irrefl, Nat.eqb_refl.
  - apply Nat.ltb_lt in H. now rewrite H.
  - destruct (Nat.ltb_spec x y); [lia|]. destruct (Nat.eqb_spec x y); [lia|reflexivity].
Qed.

(** A uid that opens with the timestamp of [t] is greater, as a string,
    than the formatted minute of [u] exactly when the minute of [t] is
    not before the minute of [u]. *)
Lemma str_gt_minute t u suffix :
  printable t -> printable u ->
  str_gt (strftime_YmdHMS t suffix) (strftime_YmdHM u "")
  = leb (minute_of u) (minute_of t).
Proof.
  intros (Ty & Tm & Td & Th & Tn) (Uy & Um & Ud & Uh & Un).
  unfold str_gt, strftime_YmdHMS, strftime_YmdHM, leb, minute_of, key.
  cbn [year month day hour minute second lex_leb].
  rewrite pad4_compare, !pad2_compare by assumption.
  rewrite !ltb_eqb_compare.
  rewrite (Nat.compare_antisym (year t) (year u)),
          (Nat.compare_antisym (month t) (month u)),
          (Nat.compare_antisym (day t) (day u)),
          (Nat.compare_antisym (hour t) (hour u)),
          (Nat.compare_antisym (minute t) (minute u)).
  destruct (Nat.compare (year t) (year u)); cbn [CompOpp]; try reflexivity.
  destruct (Nat.compare (month t) (month u)); cbn [CompOpp]; try reflexivity.
  destruct (Nat.compare (day t) (day u)); cbn [CompOpp]; try reflexivity.
  destruct (Nat.compare (hour t) (hour u)); cbn [CompOpp]; try reflexivity.
  destruct (Nat.compare (minute t) (minute u)); cbn [CompOpp]; reflexivity.
Qed.

Lemma days_in_month_le y m : days_in_month y m <= 31.
Proof.
  unfold days_in_month.
  do 12 (destruct m as [|m]; [try destruct (is_leap y); lia|]). lia.
Qed.

Lemma well_formed_printable t : well_formed t -> printable t.
Proof.
  intros (Hy & Hm & Hd & Hh & Hn & Hs). pose proof (days_in_month_le (year t) (month t)).
  unfold printable. lia.
Qed.

Lemma sub_hour_printable t : well_formed t -> printable (sub_hour t).
Proof.
  intros (Hy & Hm & Hd & Hh & Hn & Hs).
  pose proof (days_in_month_le (year t) (month t)).
  pose proof (days_in_month_le (year t) (month t - 1)).
  unfold sub_hour, printable.
  destruct (1 <=? hour t); [cbn; lia|].
  destruct (2 <=? day t); [cbn; lia|].
  destruct (2 <=? month t); cbn; lia.
Qed.

(** C9, as the code has it.  A uid that opens with the 14-digit timestamp
    of [t] is classified [Fresh] exactly when the report id has five
    underscores and the minute of [t] is not before the minute of one
    hour before the current time: the comparison is made on strings, at
    the resolution of a minute, and has no upper end.  The years have
    four digits, which is where [%Y] prints four digits everywhere. *)
Theorem fresh_by_minute (now t : datetime) (rid suffix : string) :
  well_formed now -> 1000 < year now ->
  well_formed t -> 1000 <= year t ->
  (classify now rid (Some (strftime_YmdHMS t suffix)) = Fresh <->
   count "_" rid = 5 /\
   leb (minute_of (sub_hour now)) (minute_of t) = true).
Proof.
  intros Hnow _ Ht _. unfold classify, new_format, fresh.
  cbn [the_uid]. 
  rewrite (str_gt_minute t (sub_hour now) suffix (well_formed_printable t Ht)
                         (sub_hour_printable now Hnow)).
  assert (Hs : str_truthy (Some (strftime_YmdHMS t suffix)) = true) by reflexivity.
  rewrite Hs, andb_true_r.
  destruct (Nat.eqb_spec (count "_" rid) 5) as [E|E];
    destruct (leb (minute_of (sub_hour now)) (minute_of t)); cbn [andb];
    split; try discriminate; try tauto; intros [? ?]; try discriminate; contradiction.
Qed.

End ClockFacts.

(** * The theorems at work on the example installations *)

Module Witness.
Import FrameDecompressor.
Import Py Eff Clock Sources Orchestrator Example.

Lemma stored_frame_consuming : consuming stored_frame.
Proof.
  intros [|n tl] f r; simpl; [discriminate|].
  destruct (Nat.leb_spec (Byte.to_nat n) (length tl)); [|discriminate].
  intros [= <- <-]. rewrite length_skipn. lia.
Qed.

(** The extractor on the positions a record can take: a whole frame from
    offset 0, inside one frame, up to the end of a frame with more frames
    behind, and across three frames. *)
Example extract_whole_first_frame :
  extract stored_frame storage0 (mkCoords "2016-07-07/a.tar.lz4" 0 6 0 5)
  = Some ([[x61; x62; x63; x64; x65]], Done).
Proof. reflexivity. Qed.

Example extract_inside_one_frame :
  extract stored_frame storage0 (mkCoords "2016-07-07/a.tar.lz4" 0 13 1 3)
  = Some ([[x62; x63; x64]], Done).
Proof. reflexivity. Qed.

Example extract_up_to_frame_end :
  extract stored_frame storage0 (mkCoords "2016-07-07/a.tar.lz4" 0 13 2 3)
  = Some ([[x63; x64; x65]], Done).
Proof. reflexivity. Qed.

Example extract_across_three_frames :
  extract stored_frame storage0 (mkCoords "2016-07-07/a.tar.lz4" 0 13 4 5)
  = Some ([[x65]; [x66; x67; x68]; [x69]], Done).
Proof. reflexivity. Qed.

(** What [int()] makes of an hour prefix: digits are accepted, also with
    white space behind them; a letter or white space inside is not. *)
Example int_ok_hours :
  int_ok "2021012421" = true /\ int_ok "2021 " = true /\
  int_ok "20210124T2" = false /\ int_ok "20 21" = false /\ int_ok "" = false.
Proof. repeat split. Qed.

(** The separators U+001C to U+001F are white space for [str.isspace()]
    and not for [int()]; U+00A0 is for both. *)
Example int_ok_separators :
  int_ok (String (ascii_of_nat 50) (String (ascii_of_nat 31) EmptyString)) = false /\
  int_ok (String (ascii_of_nat 50) (String (ascii_of_nat 28) EmptyString)) = false /\
  int_ok (String (ascii_of_nat 50) (String (ascii_of_nat 160) EmptyString)) = true.
Proof. repeat split. Qed.

Lemma extract_byte_exact_witness :
  exists cs,
    extract stored_frame storage0 coords_span = Some (cs, Done) /\
    concat cs = [x64; x65; x66; x67] /\
    length (concat cs) = 4 /\
    forall (D : Type) (digest : FrameDecompressor.bytes -> D),
      digest (concat cs) = digest [x64; x65; x66; x67].
Proof.
  apply (FrameDecompressorFacts.extract_byte_exact stored_frame storage0 coords_span
           [x64; x65; x66; x67] stored_frame_consuming).
  exists container0, [[x61; x62; x63; x64; x65]; [x66; x67; x68]],
         [x02; x69; x6a], [x61; x62; x63], [x68].
  split; [reflexivity|]. split.
  - apply decodes_cons with (r := [x03; x66; x67; x68; x02; x69; x6a]);
      [discriminate|reflexivity|].
    apply decodes_cons with (r := [x02; x69; x6a]); [discriminate|reflexivity|].
    apply decodes_nil.
  - repeat split; simpl; lia.
Defined.

Lemma extract_truncated_witness :
  (exists cs, extract stored_frame storage0 coords_short
              = Some (cs, Failed FrameDecompressor.CorruptArchive)) /\
  (forall cs st, extract stored_frame storage0 coords_short = Some (cs, st) ->
                 length (concat cs) < 4 -> st <> Done).
Proof.
  apply (FrameDecompressorFacts.extract_truncated stored_frame storage0 coords_short
           container0 [[x66; x67; x68]; [x69; x6a]] stored_frame_consuming).
  - reflexivity.
  - apply decodes_cons with (r := [x02; x69; x6a]); [discriminate|reflexivity|].
    apply decodes_cons with (r := []); [discriminate|reflexivity|].
    apply decodes_nil.
  - simpl. lia.
  - simpl. lia.
Defined.

Lemma fresh_probe_order_witness :
  classify clock rid (Some uid_fresh) = Fresh /\
  _fetch_measurement_body env0 rid None (Some uid_fresh)
  = ([Timer "fetch_measurement_body";
      probe_disk; FsOpen path_fresh;
      probe_hosts; HttpGet "peer1" path_fresh; HttpGet "peer2" path_fresh],
     Ret (b "'fresh'")).
Proof.
  split; [reflexivity|].
  apply (proj1 (proj2 (proj2
           (OrchestratorFacts.fresh_probe_order
              (_fetch_measurement_body_on_disk_by_msmt_uid env0)
              (_fetch_measurement_body_from_hosts env0)
              (_fetch_jsonl_measurement_body_clickhouse env0)
              clock rid None (Some uid_fresh) eq_refl))) None (b "'fresh'")).
  - reflexivity.
  - reflexivity.
  - reflexivity.
  - discriminate.
Defined.

(** Claim C4 fails on an identifier that is not [Fresh] and has no usable
    uid.  Without a uid, and with a report id in the older format, the
    archive holds nothing and neither the spool nor the peers are probed,
    although the spool holds the report. *)
Lemma archived_without_fallback :
  (classify clock rid None = Archived /\
   _fetch_measurement_body env0 rid None None
   = ([Timer "fetch_measurement_body"; probe_archive; QueryByReportInput rid ""],
      Raise MsmtNotFound)) /\
  (classify clock rid_legacy (Some uid_old) = Archived /\
   outcome (_fetch_measurement_body_on_disk_by_msmt_uid env1 uid_old)
   = Ret (Some (b "'delayed'")) /\
   _fetch_measurement_body env1 rid_legacy None (Some uid_old)
   = ([Timer "fetch_measurement_body"; probe_archive; QueryByUid uid_old],
      Raise MsmtNotFound)).
Proof. repeat split. Qed.

Lemma archived_probe_order_witness :
  classify clock rid (Some uid_old) = Archived /\
  _fetch_measurement_body env0 rid (Some "http://example.org/"%string) (Some uid_old)
  = ([Timer "fetch_measurement_body";
      probe_archive; QueryByUid uid_old;
      Timer "_fetch_jsonl_measurement_body_from_s3";
      S3Get "jsonl/2021012311_VE.jsonl.gz"],
     Ret (b "second")).
Proof.
  split; [reflexivity|].
  apply (proj1 (proj2 (proj1
           (OrchestratorFacts.archived_probe_order
              (_fetch_measurement_body_on_disk_by_msmt_uid env0)
              (_fetch_measurement_body_from_hosts env0)
              (_fetch_jsonl_measurement_body_clickhouse env0)
              clock rid (Some "http://example.org/"%string) (Some uid_old) eq_refl)
           eq_refl)) (b "second")).
  - reflexivity.
  - discriminate.
Defined.

(** Claim C5 fails on the spool probe: a malformed uid and a spool file
    that cannot be read both leave the orchestrator as they were raised. *)
Lemma spool_errors_propagate :
  _fetch_measurement_body env0 rid None (Some "20991231"%string)
  = ([Timer "fetch_measurement_body"; probe_disk], Raise MalformedIdentifier) /\
  _fetch_measurement_body env1 rid None (Some uid_fresh)
  = ([Timer "fetch_measurement_body"; probe_disk; FsOpen path_fresh],
     Raise SourceUnavailable).
Proof. split; reflexivity. Qed.

Lemma errors_absorbed_or_surfaced_witness :
  outcome (_fetch_measurement_body env0 rid None None) = Raise MsmtNotFound /\
  _fetch_measurement_body env1 rid None (Some uid_fresh)
  = ([Timer "fetch_measurement_body"; probe_disk; FsOpen path_fresh],
     Raise SourceUnavailable).
Proof.
  split.
  - apply (proj2 (proj1 (proj2 (proj2 (proj2
             (ResolutionFacts.errors_absorbed_or_surfaced env0 rid None None)))))).
    split.
    + exists None. split; reflexivity.
    + discriminate.
  - apply (proj1 (proj1 (proj2 (proj2 (proj2 (proj2
             (ResolutionFacts.errors_absorbed_or_surfaced env1 rid None
                (Some uid_fresh))))))
             SourceUnavailable eq_refl)).
    reflexivity.
Defined.

(** Claim C6 fails on an hour prefix that is not a number and that
    [int()] accepts: nine digits and a space.  The uid has four fields,
    a path is derived from it, the spool probe opens the file and the
    peer-host probe asks both peers. *)
Lemma nonnumeric_hour_accepted :
  all_digits (take 10 (hd EmptyString (split "_" Scenario.uid_spaced))) = false /\
  length (split "_" Scenario.uid_spaced) = 4 /\
  spool_path Scenario.uid_spaced = ([], Ret Scenario.path_spaced) /\
  _fetch_measurement_body_on_disk_by_msmt_uid env0 Scenario.uid_spaced
  = ([probe_disk; FsOpen Scenario.path_spaced], Ret None) /\
  _fetch_measurement_body_from_hosts env0 Scenario.uid_spaced
  = ([probe_hosts; HttpGet "peer1" Scenario.path_spaced;
      HttpGet "peer2" Scenario.path_spaced], Ret None).
Proof. repeat split. Qed.

Lemma malformed_uid_rejected_witness :
  (spool_path "20991231" = ([], Raise MalformedIdentifier) /\
   _fetch_measurement_body_on_disk_by_msmt_uid env0 "20991231"
     = ([probe_disk], Raise MalformedIdentifier) /\
   _fetch_measurement_body_from_hosts env0 "20991231" = ([probe_hosts], Ret None)) /\
  exists p, spool_path uid_fresh = ([], Ret p) /\
            trace (_fetch_measurement_body_on_disk_by_msmt_uid env0 uid_fresh)
            = [probe_disk; FsOpen p].
Proof.
  split.
  - apply (proj1 (SourcesFacts.malformed_uid_rejected env0 "20991231")).
    right. left. simpl. lia.
  - apply (proj2 (SourcesFacts.malformed_uid_rejected env0 uid_fresh)).
    + reflexivity.
    + reflexivity.
    + reflexivity.
Defined.

Lemma peers_in_order_witness :
  _fetch_measurement_body_from_hosts env0 uid_fresh
  = (probe_hosts :: map (fun h => HttpGet h path_fresh) ["peer1"%string; "peer2"%string],
     Ret (Some (b "'fresh'"))).
Proof.
  apply (proj1 (SourcesFacts.peers_in_order env0 uid_fresh path_fresh eq_refl)
               ["peer1"%string] "peer2"%string [] (b "'fresh'")).
  - reflexivity.
  - intros h [<-|[]]. reflexivity.
  - reflexivity.
Defined.

Lemma locate_by_uid_witness :
  exists f j,
    joined db0 uid_old f j /\
    j_s3path j = "jsonl/2021012311_VE.jsonl.gz"%string /\ j_linenum j = 1.
Proof.
  apply (proj1 (proj2 (SourcesFacts.locate_by_uid env0 db0 uid_old eq_refl))).
  reflexivity.
Defined.

(** Claim C9 fails in both directions.  A uid stamped 35 seconds before
    the horizon is [Fresh] and is not within the last hour; a uid stamped
    half an hour ago that comes with a report id in the older format is
    within the last hour and is not [Fresh]. *)
Lemma stale_uid_is_fresh :
  (classify clock rid (Some (strftime_YmdHMS t_stale "_VE_webconnectivity_ab12")) = Fresh /\
   within_last_hour clock t_stale = false) /\
  (uid_fresh = strftime_YmdHMS t_fresh "_VE_webconnectivity_ab12" /\
   within_last_hour clock t_fresh = true /\
   classify clock rid_legacy (Some uid_fresh) = Archived).
Proof. repeat split. Qed.

Lemma fresh_by_minute_witness :
  classify clock rid (Some (strftime_YmdHMS t_stale "_VE_webconnectivity_ab12")) = Fresh <->
  count "_" rid = 5 /\ leb (minute_of (sub_hour clock)) (minute_of t_stale) = true.
Proof.
  apply (ClockFacts.fresh_by_minute clock t_stale rid "_VE_webconnectivity_ab12").
  - unfold well_formed. simpl. lia.
  - simpl. lia.
  - unfold well_formed. simpl. lia.
  - simpl. lia.
Defined.

Lemma empty_body_is_absent_witness :
  outcome (fetch_measurement_body_with empty_spool silent_peers empty_archive
             clock rid None (Some uid_fresh))
  = Raise MsmtNotFound /\
  fetch_measurement_body_with empty_spool Scenario.answering_peers empty_archive
    clock rid None (Some uid_fresh)
  = ([Timer "fetch_measurement_body"; FsOpen uid_fresh; HttpGet "peer1" uid_fresh],
     Ret (b "body")).
Proof.
  split.
  - apply (proj1 (proj2 (proj2
             (OrchestratorFacts.empty_body_is_absent empty_spool silent_peers
                empty_archive clock rid None (Some uid_fresh))))).
    + exists (Some []). split; reflexivity.
    + intros _. split.
      * exists (Some []). split; reflexivity.
      * exists None. split; reflexivity.
  - apply (proj1 (proj1 (proj2 (proj2 (proj2
             (OrchestratorFacts.empty_body_is_absent empty_spool
                Scenario.answering_peers empty_archive clock rid None
                (Some uid_fresh)))))
             eq_refl eq_refl) (b "body")).
    + reflexivity.
    + discriminate.
Defined.

End Witness.

(** * Further properties of the body fetchers *)

Module FetchFacts.
Import Py Eff Clock Sources Orchestrator OrchestratorFacts SourcesFacts ResolutionFacts.
Import Str ByUid.

Section Provenance.
Variable on_disk : string -> M (option bytes).
Variable from_hosts : string -> M (option bytes).
Variable clickhouse : string -> option string -> option string -> M (option bytes).
Variable now : datetime.

Lemma fetch_outcome rid inp uid :
  outcome (fetch_measurement_body_with on_disk from_hosts clickhouse now rid inp uid) =
  match (if new_format rid uid
         then if fresh now (the_uid uid)
              then outcome (por (por (on_disk (the_uid uid)) (from_hosts (the_uid uid)))
                                (clickhouse rid inp uid))
              else outcome (por (por (clickhouse rid inp uid) (on_disk (the_uid uid)))
                                (from_hosts (the_uid uid)))
         else outcome (clickhouse rid inp uid)) with
  | Ret (Some (b :: bs)) => Ret (b :: bs)
  | Ret _ => Raise MsmtNotFound
  | Raise e => Raise e
  end.
Proof.
  destruct (new_format rid uid) eqn:Hn.
  - destruct (fresh now (the_uid uid)) eqn:Hf.
    + rewrite fetch_fresh by (unfold classify; now rewrite Hn, Hf).
      apply finish_outcome.
    + rewrite fetch_archived by assumption. apply finish_outcome.
  - rewrite fetch_old_format by assumption. apply finish_outcome.
Qed.

(** X1. A body that the call returns is not empty and is the body one of
    the probes returned: the archive probe, or, for a usable uid, the
    spool or the peer-host probe. *)
Theorem fetched_body_provenance rid inp uid body :
  outcome (fetch_measurement_body_with on_disk from_hosts clickhouse now rid inp uid)
  = Ret body ->
  body <> [] /\
  (outcome (clickhouse rid inp uid) = Ret (Some body) \/
   (new_format rid uid = true /\
    (outcome (on_disk (the_uid uid)) = Ret (Some body) \/
     outcome (from_hosts (the_uid uid)) = Ret (Some body)))).
Proof.
  rewrite fetch_outcome, !por_outcome.
  destruct (new_format rid uid); [destruct (fresh now (the_uid uid))|];
    destruct (outcome (on_disk (the_uid uid))) as [[[|bd bsd]|]|ed];
    destruct (outcome (from_hosts (the_uid uid))) as [[[|bh bsh]|]|eh];
    destruct (outcome (clickhouse rid inp uid)) as [[[|ba bsa]|]|ea];
    cbn [truthy]; intros H; try discriminate H; injection H as <-;
    (split; [discriminate|auto]).
Qed.

End Provenance.

(** *** What one call does to the outside *)

Lemma count_ev_app p a b : count_ev p (a ++ b) = count_ev p a + count_ev p b.
Proof. unfold count_ev. now rewrite filter_app, length_app. Qed.

Lemma count_ev_app_0 p a b : count_ev p a = 0 -> count_ev p (a ++ b) = count_ev p b.
Proof. intros H. now rewrite count_ev_app, H. Qed.

Lemma count_ev_prefix p tr rest whole :
  whole = tr ++ rest -> count_ev p tr <= count_ev p whole.
Proof. intros ->. rewrite count_ev_app. lia. Qed.

Lemma on_disk_trace env uid :
  trace (_fetch_measurement_body_on_disk_by_msmt_uid env uid) = [probe_disk] \/
  exists p, trace (_fetch_measurement_body_on_disk_by_msmt_uid env uid)
            = [probe_disk; FsOpen p].
Proof.
  unfold _fetch_measurement_body_on_disk_by_msmt_uid.
  destruct (spool_path_cases uid) as [H|[p H]]; rewrite H; [now left|].
  right. exists p. cbn [bind emit].
  destruct (spool_file env p) as [| |data]; try reflexivity.
  unfold load_post. destruct (ujson_loads env data) as [post|]; [|reflexivity].
  destruct post as [|b|n|s|l|d]; try reflexivity.
  cbn [bind ret _unwrap_post].
  destruct (dict_lookup "format" d) as [[|b|n|f|l|d']|]; try reflexivity.
  destruct (String.eqb f "json"); reflexivity.
Qed.

Lemma hosts_loop_trace env p hosts :
  exists k, trace (hosts_loop env p hosts)
            = map (fun h => HttpGet h p) (firstn k hosts).
Proof.
  induction hosts as [|h hosts [k IH]]; [now exists 0|].
  rewrite hosts_loop_step.
  destruct (peer_answer env (http_get env h p)).
  - now exists 1.
  - exists (S k). cbn [trace fst firstn map]. now rewrite <- IH.
Qed.

Lemma from_hosts_trace env uid :
  exists tr, trace (_fetch_measurement_body_from_hosts env uid) = probe_hosts :: tr /\
             count_ev is_http tr = length tr /\
             length tr <= length (other_collectors env).
Proof.
  unfold _fetch_measurement_body_from_hosts.
  destruct (spool_path_cases uid) as [H|[p H]]; rewrite H.
  - exists []. repeat split; simpl; lia.
  - destruct (hosts_loop_trace env p (other_collectors env)) as [k Hk].
    exists (map (fun h => HttpGet h p) (firstn k (other_collectors env))).
    split; [|split].
    + cbn. destruct (hosts_loop env p (other_collectors env)) as [tr r].
      cbn in *. now rewrite Hk.
    + unfold count_ev. clear Hk.
      induction (firstn k (other_collectors env)) as [|h l IH];
        [reflexivity|]. cbn [map filter is_http length]. f_equal. exact IH.
    + rewrite length_map, length_firstn. lia.
Qed.

Lemma clickhouse_trace env rid inp uid :
  exists q, is_query q = true /\
    (trace (_fetch_jsonl_measurement_body_clickhouse env rid inp uid)
       = [probe_archive; q] \/
     exists s3path,
       trace (_fetch_jsonl_measurement_body_clickhouse env rid inp uid)
       = [probe_archive; q; Timer "_fetch_jsonl_measurement_body_from_s3"; S3Get s3path]).
Proof.
  unfold _fetch_jsonl_measurement_body_clickhouse, measurement_uid_to_s3path_linenum,
    report_id_input_to_s3path_linenum, query_click_one_row,
    _fetch_jsonl_measurement_body_from_s3.
  destruct uid as [u|].
  - exists (QueryByUid u). split; [reflexivity|].
    destruct (database env) as [db|]; [|left; reflexivity].
    cbn. destruct (hd_error (select_by_uid db u)) as [row|]; [|left; reflexivity].
    right. exists (j_s3path row). cbn.
    destruct (s3_object env (j_s3path row)) as [|lines intact]; [reflexivity|].
    cbn. destruct (nth_error lines (j_linenum row)); [reflexivity|].
    destruct intact; reflexivity.
  - exists (QueryByReportInput rid
              match inp with Some (String a i) => String a i | _ => EmptyString end).
    split; [reflexivity|].
    destruct (database env) as [db|]; [|left; reflexivity].
    cbn. destruct (hd_error (select_by_report_input db rid _)) as [row|];
      [|left; reflexivity].
    right. exists (j_s3path row). cbn.
    destruct (s3_object env (j_s3path row)) as [|lines intact]; [reflexivity|].
    cbn. destruct (nth_error lines (j_linenum row)); [reflexivity|].
    destruct intact; reflexivity.
Qed.

Lemma filter_http_requests p l :
  filter is_http (map (fun h => HttpGet h p) l) = map (fun h => HttpGet h p) l.
Proof. induction l as [|h l IH]; [reflexivity|]. cbn. now rewrite IH. Qed.

Lemma from_hosts_requests env uid :
  exists k p, filter is_http (trace (_fetch_measurement_body_from_hosts env uid))
              = map (fun h => HttpGet h p) (firstn k (other_collectors env)).
Proof.
  unfold _fetch_measurement_body_from_hosts.
  destruct (spool_path_cases uid) as [H|[p H]]; rewrite H.
  - now exists 0, EmptyString.
  - destruct (hosts_loop_trace env p (other_collectors env)) as [k Hk].
    exists k, p. cbn. destruct (hosts_loop env p (other_collectors env)) as [tr r].
    cbn in *. rewrite Hk. apply filter_http_requests.
Qed.

Lemma requests_prefix (p : string) (l : list string) k (x y : list event) :
  map (fun h => HttpGet h p) (firstn k l) = x ++ y ->
  exists k', x = map (fun h => HttpGet h p) (firstn k' l).
Proof.
  intros H. exists (Nat.min (length x) k).
  rewrite <- firstn_firstn, <- firstn_map, H.
  now rewrite firstn_app, Nat.sub_diag, firstn_all, firstn_O, app_nil_r.
Qed.

(** X2. One call opens at most one spool file, runs at most one index
    query and fetches at most one object.  Its requests go to an
    initial part of the configured list of peers, in the order of the
    list, one request for each entry and all for the same path: a host
    is asked once for each time it is configured, at most. *)
Theorem fetch_io_bound (env : Env) (rid : string) (inp uid : option string) :
  let tr := trace (_fetch_measurement_body env rid inp uid) in
  count_ev is_fs tr <= 1 /\
  count_ev is_query tr <= 1 /\
  count_ev is_s3 tr <= 1 /\
  count_ev is_http tr <= length (other_collectors env) /\
  exists k p, filter is_http tr
              = map (fun h => HttpGet h p) (firstn k (other_collectors env)).
Proof.
  intros tr.
  set (d := _fetch_measurement_body_on_disk_by_msmt_uid env (the_uid uid)).
  set (h := _fetch_measurement_body_from_hosts env (the_uid uid)).
  set (a := _fetch_jsonl_measurement_body_clickhouse env rid inp uid).
  assert (Hall : exists rest,
             Timer "fetch_measurement_body" :: trace d ++ trace h ++ trace a
             = tr ++ rest \/
             Timer "fetch_measurement_body" :: trace a ++ trace d ++ trace h
             = tr ++ rest).
  { subst tr. unfold _fetch_measurement_body. fold d h a.
    destruct (new_format rid uid) eqn:Hn.
    - destruct (fresh (utcnow env) (the_uid uid)) eqn:Hf.
      + rewrite fetch_fresh by (unfold classify; now rewrite Hn, Hf). fold d h a.
        rewrite finish_trace. destruct (chain_prefix d h a) as [rest Hr].
        exists rest. left. rewrite Hr. reflexivity.
      + rewrite fetch_archived by assumption. fold d h a.
        rewrite finish_trace. destruct (chain_prefix a d h) as [rest Hr].
        exists rest. right. rewrite Hr. reflexivity.
    - rewrite fetch_old_format by assumption. fold a. rewrite finish_trace.
      exists (trace d ++ trace h). right. reflexivity. }
  assert (Hd0 : filter is_http (trace d) = [])
    by (destruct (on_disk_trace env (the_uid uid)) as [Hd|[p Hd]]; fold d in Hd;
        now rewrite Hd).
  assert (Ha0 : filter is_http (trace a) = []).
  { destruct (clickhouse_trace env rid inp uid) as (q & Hq & Ha). fold a in Ha.
    destruct Ha as [Ha|[s3path Ha]]; rewrite Ha; destruct q; try discriminate Hq;
      reflexivity. }
  assert (Hreq : exists k p, filter is_http tr
                   = map (fun h => HttpGet h p) (firstn k (other_collectors env))).
  { destruct (from_hosts_requests env (the_uid uid)) as (k & p & Hk). fold h in Hk.
    destruct Hall as [rest [H|H]];
      apply (f_equal (filter is_http)) in H;
      cbn [filter is_http] in H;
      rewrite !filter_app, Hd0, Ha0, Hk, ?app_nil_r in H; cbn [app] in H;
      destruct (requests_prefix p _ k _ _ H) as [k' Hk']; now exists k', p. }
  assert (Hle : forall p, count_ev p tr
                          <= count_ev p [Timer "fetch_measurement_body"]
                             + count_ev p (trace d) + count_ev p (trace h)
                             + count_ev p (trace a)).
  { intros p. destruct Hall as [rest [H|H]].
    - apply (count_ev_prefix p) in H.
      change (Timer "fetch_measurement_body" :: trace d ++ trace h ++ trace a)
        with ([Timer "fetch_measurement_body"] ++ trace d ++ trace h ++ trace a) in H.
      rewrite !count_ev_app in H. lia.
    - apply (count_ev_prefix p) in H.
      change (Timer "fetch_measurement_body" :: trace a ++ trace d ++ trace h)
        with ([Timer "fetch_measurement_body"] ++ trace a ++ trace d ++ trace h) in H.
      rewrite !count_ev_app in H. lia. }
  destruct (from_hosts_trace env (the_uid uid)) as (th & Hh & Hhc & Hhl). fold h in Hh.
  destruct (clickhouse_trace env rid inp uid) as (q & Hq & Ha). fold a in Ha.
  assert (Hhn : forall p, (forall x y, p (HttpGet x y) = false) -> p probe_hosts = false ->
                          count_ev p (trace h) = 0).
  { intros p Hp Hp'. rewrite Hh. unfold count_ev. cbn. rewrite Hp'.
    clear - Hhc Hp. induction th as [|e th IH]; [reflexivity|].
    unfold count_ev in Hhc. cbn in Hhc |- *.
    destruct e; cbn in Hhc; try (pose proof (filter_length_le is_http th); lia).
    rewrite Hp. apply IH. unfold count_ev. lia. }
  assert (Hhh : count_ev is_http (trace h) <= length (other_collectors env)).
  { rewrite Hh. unfold count_ev in *. cbn. lia. }
  pose proof (Hle is_fs) as Hfs. pose proof (Hle is_query) as Hqu.
  pose proof (Hle is_s3) as Hs3. pose proof (Hle is_http) as Hht.
  rewrite (Hhn is_fs), (Hhn is_query), (Hhn is_s3) in * by reflexivity.
  clear Hd0 Ha0.
  destruct (on_disk_trace env (the_uid uid)) as [Hd|[p Hd]]; fold d in Hd;
    rewrite Hd in *;
    destruct Ha as [Ha|[s3path Ha]]; rewrite Ha in *;
    destruct q; try discriminate Hq; cbn in *;
    (split; [lia|split; [lia|split; [lia|split; [lia|exact Hreq]]]]).
Qed.

End FetchFacts.

Module UidFacts.
Import Py Eff Sources SourcesFacts Str.

(** *** Splitting and joining *)

Lemma split_not_nil c s : split c s <> [].
Proof.
  destruct s as [|a s]; cbn; [discriminate|].
  destruct (Ascii.eqb a c); [discriminate|].
  destruct (split c s); discriminate.
Qed.

Lemma join_cons c w ws :
  ws <> [] -> join c (w :: ws) = (w ++ String c (join c ws))%string.
Proof. destruct ws; [congruence|reflexivity]. Qed.

Lemma join_split c s : join c (split c s) = s.
Proof.
  induction s as [|a s IH]; [reflexivity|].
  cbn [split]. destruct (Ascii.eqb_spec a c) as [->|Hne].
  - rewrite join_cons by apply split_not_nil. cbn. now rewrite IH.
  - pose proof (split_not_nil c s) as Hn.
    destruct (split c s) as [|w ws]; [congruence|].
    destruct ws as [|w' ws'].
    + cbn in IH |- *. now rewrite IH.
    + change (join c (String a w :: w' :: ws'))
        with (String a (join c (w :: w' :: ws'))).
      now rewrite IH.
Qed.

Lemma split_fields c s : Forall (fun f => count c f = 0) (split c s).
Proof.
  induction s as [|a s IH]; [repeat constructor|].
  cbn [split]. destruct (Ascii.eqb a c) eqn:E.
  - constructor; [reflexivity|assumption].
  - destruct (split c s) as [|w ws]; [repeat constructor; cbn; now rewrite E|].
    inversion IH as [|? ? Hw Hws]; subst.
    constructor; [cbn; now rewrite E|assumption].
Qed.

Lemma split_plain c s : count c s = 0 -> split c s = [s].
Proof.
  induction s as [|a s IH]; [reflexivity|].
  cbn. destruct (Ascii.eqb a c); [discriminate|].
  intros H. now rewrite IH.
Qed.

Lemma split_app c w s :
  count c w = 0 -> split c (w ++ String c s) = w :: split c s.
Proof.
  induction w as [|a w IH]; cbn.
  - now rewrite Ascii.eqb_refl.
  - destruct (Ascii.eqb a c); [discriminate|]. intros H. now rewrite IH.
Qed.

Lemma split_join c l :
  l <> [] -> Forall (fun f => count c f = 0) l -> split c (join c l) = l.
Proof.
  induction l as [|w ws IH]; [congruence|]. intros _ Hf.
  inversion Hf as [|? ? Hw Hws]; subst.
  destruct ws as [|w' ws'].
  - now apply split_plain.
  - rewrite join_cons by discriminate. rewrite split_app by assumption.
    now rewrite IH.
Qed.

Lemma count_split c s : length (split c s) = S (count c s).
Proof.
  induction s as [|a s IH]; [reflexivity|].
  cbn. destruct (Ascii.eqb a c); cbn; [now rewrite IH|].
  pose proof (split_not_nil c s). destruct (split c s); [congruence|].
  cbn in *. lia.
Qed.

(** X3. The uids for which a spool path is derived are exactly those made
    of four fields free of underscores and joined by underscores, that
    start with [20] and whose hour, the first ten characters of the first
    field, is accepted by [int()]; the path is then the directory
    [hour_cc_testname] and the file [uid.post]. *)
Theorem spool_path_exactly (uid p : string) :
  spool_path uid = ([], Ret p) <->
  exists tstamp cc testname hash_,
    uid = join "_" [tstamp; cc; testname; hash_] /\
    Forall (fun f => count "_" f = 0) [tstamp; cc; testname; hash_] /\
    startswith "20" uid = true /\
    int_ok (take 10 tstamp) = true /\
    p = (take 10 tstamp ++ "_" ++ cc ++ "_" ++ testname ++ "/" ++ uid ++ ".post")%string.
Proof.
  unfold spool_path, raise, ret. split.
  - destruct (startswith "20" uid) eqn:Hs; cbn [negb]; [|discriminate].
    pose proof (join_split "_" uid) as Hj.
    pose proof (split_fields "_" uid) as Hf.
    destruct (split "_" uid) as [|f1 [|f2 [|f3 [|f4 [|f5 r]]]]]; try discriminate.
    destruct (int_ok (take 10 f1)) eqn:Hi; cbn [negb]; [|discriminate].
    intros [= <-]. exists f1, f2, f3, f4. auto.
  - intros (f1 & f2 & f3 & f4 & Hu & Hf & Hs & Hi & ->).
    rewrite Hs. cbn [negb].
    assert (Hsp : split "_" uid = [f1; f2; f3; f4])
      by (rewrite Hu; apply split_join; [discriminate|assumption]).
    rewrite Hsp, Hi. reflexivity.
Qed.

(** X4. What the spool probe makes of a file is what the peer-host probe
    makes of the same bytes served with status 200: the same body when
    the bytes are a wrapper in the format json, and where a peer would be
    skipped over the spool probe raises. *)
Theorem spool_and_peer_agree (env : Env) (uid p : string) (data : bytes) :
  spool_path uid = ([], Ret p) ->
  spool_file env p = Content data ->
  outcome (_fetch_measurement_body_on_disk_by_msmt_uid env uid) =
  match peer_answer env (Response 200 data) with
  | Some body => Ret (Some body)
  | None => Raise MalformedPayload
  end.
Proof.
  intros Hp Hf. unfold _fetch_measurement_body_on_disk_by_msmt_uid.
  rewrite Hp. cbn [bind emit timed outcome snd fst]. rewrite Hf.
  unfold peer_answer, load_post. cbn [Nat.eqb].
  destruct (ujson_loads env data) as [post|]; [|reflexivity].
  destruct post as [|b|n|s|l|d]; try reflexivity.
  cbn [bind ret _unwrap_post].
  destruct (dict_lookup "format" d) as [[|b|n|f|l|d']|]; try reflexivity.
  destruct (String.eqb f "json"); reflexivity.
Qed.

End UidFacts.

Module ByUidFacts.
Import Py Eff Clock Sources Orchestrator SourcesFacts ResolutionFacts Str ByUid FetchFacts.

Lemma select_by_uid_joined db uid row :
  hd_error (select_by_uid db uid) = Some row -> exists f, joined db uid f row.
Proof.
  intros E. apply hd_filter_some in E. destruct E as [Hin Hsel].
  apply pair_in_spec in Hsel. destruct Hsel as (f & Hf & Hu & Hr & Hi).
  exists f. unfold joined. auto.
Qed.

Lemma select_by_uid_none db uid :
  (~ exists f j, joined db uid f j) -> hd_error (select_by_uid db uid) = None.
Proof.
  intros Hno. destruct (hd_error (select_by_uid db uid)) as [row|] eqn:E; [|reflexivity].
  apply select_by_uid_joined in E. destruct E as [f Hj]. exfalso. eauto.
Qed.

(** X5. A body the archive probe returns is a line of an indexed object:
    the database was reachable, a [jsonl] row was selected (through
    [fastpath] for a uid, by its report id and input otherwise), and the
    body is the line of the row's object at the row's line number. *)
Theorem archive_body_is_indexed_line (env : Env) (rid : string)
        (inp uid : option string) (body : bytes) :
  outcome (_fetch_jsonl_measurement_body_clickhouse env rid inp uid) = Ret (Some body) ->
  exists db row lines intact,
    database env = Some db /\ In row (jsonl db) /\
    match uid with
    | Some u => exists f, joined db u f row
    | None => j_report_id row = rid /\
              j_input row = match inp with Some i => i | None => EmptyString end
    end /\
    s3_object env (j_s3path row) = S3Stream lines intact /\
    nth_error lines (j_linenum row) = Some body.
Proof.
  unfold _fetch_jsonl_measurement_body_clickhouse, measurement_uid_to_s3path_linenum,
    report_id_input_to_s3path_linenum, query_click_one_row,
    _fetch_jsonl_measurement_body_from_s3.
  destruct uid as [u|].
  - destruct (database env) as [db|]; [|discriminate].
    cbn. destruct (hd_error (select_by_uid db u)) as [row|] eqn:E; [|discriminate].
    cbn. destruct (s3_object env (j_s3path row)) as [|lines intact] eqn:Es; [discriminate|].
    cbn. destruct (nth_error lines (j_linenum row)) as [line|] eqn:En;
      [|destruct intact; discriminate].
    cbn. intros [= <-]. exists db, row, lines, intact.
    pose proof (select_by_uid_joined db u row E) as [f Hj].
    repeat split; eauto. apply Hj.
  - destruct (database env) as [db|]; [|discriminate].
    cbn.
    set (i := match inp with Some (String a i) => String a i | _ => EmptyString end).
    assert (Hi : i = match inp with Some i => i | None => EmptyString end)
      by (subst i; destruct inp as [[|]|]; reflexivity).
    destruct (hd_error (select_by_report_input db rid i)) as [row|] eqn:E; [|discriminate].
    cbn. destruct (s3_object env (j_s3path row)) as [|lines intact] eqn:Es; [discriminate|].
    cbn. destruct (nth_error lines (j_linenum row)) as [line|] eqn:En;
      [|destruct intact; discriminate].
    cbn. intros [= <-]. exists db, row, lines, intact.
    apply hd_filter_some in E. destruct E as [Hin Hsel].
    apply andb_true_iff in Hsel. destruct Hsel as [H1 H2].
    apply String.eqb_eq in H1, H2. rewrite <- Hi. repeat split; auto.
Qed.

(** X6. With a uid the call does not look at the input, and looks at the
    report id only to count its underscores; without a uid, a missing
    input and an empty input are the same request. *)
Theorem input_matters_only_without_uid (env : Env) (rid rid' : string)
        (inp inp' : option string) (u : string) :
  (count "_" rid = count "_" rid' ->
   _fetch_measurement_body env rid inp (Some u)
   = _fetch_measurement_body env rid' inp' (Some u)) /\
  _fetch_measurement_body env rid None None
  = _fetch_measurement_body env rid (Some EmptyString) None.
Proof.
  split; [|reflexivity].
  intros Hc. unfold _fetch_measurement_body, fetch_measurement_body_with, new_format.
  rewrite Hc. reflexivity.
Qed.

(** X7. [_fetch_measurement_body_by_uid] serves the spool first: a body in
    the spool is returned, and an exception of the spool probe raised,
    without any query, fetch or request.  When the spool has no file for
    the uid, the result is the indexed line: the line, at the line
    number of the first row the index gives for the uid, of the object
    that row names.  A uid that is not indexed is [MsmtNotFound]; an
    object without that line, an object or a database that cannot be
    reached are raised, not absorbed.  Peers are never asked. *)
Theorem by_uid_spool_then_archive (env : Env) (uid : string) :
  let d := _fetch_measurement_body_on_disk_by_msmt_uid env uid in
  let run := _fetch_measurement_body_by_uid env uid in
  (forall body, outcome d = Ret (Some body) -> run = (trace d, Ret body)) /\
  (forall e, outcome d = Raise e -> run = (trace d, Raise e)) /\
  (forall db, outcome d = Ret None -> database env = Some db ->
     (forall body, outcome run = Ret body -> indexed_line env db uid body) /\
     ((~ exists f j, joined db uid f j) -> outcome run = Raise MsmtNotFound) /\
     (forall j, hd_error (select_by_uid db uid) = Some j ->
                s3_object env (j_s3path j) = S3Unreachable ->
                outcome run = Raise SourceUnavailable) /\
     (forall j lines intact,
         hd_error (select_by_uid db uid) = Some j ->
         s3_object env (j_s3path j) = S3Stream lines intact ->
         outcome run =
         match nth_error lines (j_linenum j) with
         | Some body => Ret body
         | None => Raise (if intact then MsmtNotFound else CorruptArchive)
         end)) /\
  (outcome d = Ret None -> database env = None ->
   outcome run = Raise SourceUnavailable) /\
  count_ev is_http (trace run) = 0.
Proof.
  intros d run. subst run. unfold _fetch_measurement_body_by_uid. fold d.
  pose proof (on_disk_trace env uid) as Htr. fold d in Htr.
  destruct d as [td [[b|]|e]] eqn:Ed; cbn [outcome snd trace fst] in *.
  - split; [|split; [|split; [|split]]].
    + intros body [= <-]. cbn. now rewrite app_nil_r.
    + discriminate.
    + discriminate.
    + discriminate.
    + cbn. rewrite app_nil_r. destruct Htr as [->|[p ->]]; reflexivity.
  - split; [discriminate|]. split; [discriminate|]. split; [|split].
    + intros db _ Hdb.
      unfold measurement_uid_to_s3path_linenum, query_click_one_row,
        _fetch_jsonl_measurement_body_from_s3. rewrite Hdb. cbn.
      destruct (hd_error (select_by_uid db uid)) as [row|] eqn:E; cbn.
      * pose proof (select_by_uid_joined db uid row E) as [f Hj].
        destruct (s3_object env (j_s3path row)) as [|lines intact] eqn:Es; cbn.
        -- split; [discriminate|]. split; [intros Hno; exfalso; eauto|].
           split; [intros j [= <-] _; reflexivity|].
           intros j lines intact [= <-] Hs. congruence.
        -- destruct (nth_error lines (j_linenum row)) as [line|] eqn:En; cbn.
           ++ split; [|split; [|split]].
              ** intros body [= <-]. exists f, row, lines, intact. auto.
              ** intros Hno. exfalso. eauto.
              ** intros j [= <-] Hs. congruence.
              ** intros j lines' intact' [= <-] Hs.
                 rewrite Es in Hs. injection Hs as <- <-. now rewrite En.
           ++ destruct intact; cbn;
                (split; [discriminate|]; split;
                 [intros Hno; exfalso; eauto|
                  split; [intros j [= <-] Hs; congruence|
                          intros j lines' intact' [= <-] Hs;
                          rewrite Es in Hs; injection Hs as <- <-;
                          now rewrite En]]).
      * split; [discriminate|]. split; [reflexivity|].
        split; discriminate.
    + intros _ Hdb.
      unfold measurement_uid_to_s3path_linenum, query_click_one_row.
      rewrite Hdb. reflexivity.
    + unfold measurement_uid_to_s3path_linenum, query_click_one_row,
        _fetch_jsonl_measurement_body_from_s3.
      assert (Hd0 : length (filter is_http td) = 0)
        by (destruct Htr as [->|[p ->]]; reflexivity).
      unfold count_ev.
      destruct (database env) as [db|]; cbn;
        [|now rewrite filter_app, length_app, Hd0].
      destruct (hd_error (select_by_uid db uid)) as [row|]; cbn;
        [|now rewrite filter_app, length_app, Hd0].
      destruct (s3_object env (j_s3path row)) as [|lines intact]; cbn;
        [now rewrite filter_app, length_app, Hd0|].
      destruct (nth_error lines (j_linenum row)); cbn;
        [now rewrite filter_app, length_app, Hd0|].
      destruct intact; cbn; now rewrite filter_app, length_app, Hd0.
  - split; [discriminate|]. split; [intros e' [= <-]; reflexivity|].
    split; [discriminate|]. split; [discriminate|].
    cbn. destruct Htr as [->|[p ->]]; reflexivity.
Qed.

(** X8. The route for one measurement, given a uid that is not empty and
    a database that can be reached, always answers.  When the uid is
    indexed and the object of its first row holds the line at the row's
    line number, it answers with that line, as [application/json] to be
    cached for an hour and made a download when the argument [download]
    is [true] in any case of letters.  In every other case, a uid that
    is not indexed, an object that cannot be fetched or a line that is
    missing, it answers with one and the same error document.  It never
    reads the spool and never asks a peer, and fetches nothing for a uid
    that is not indexed. *)
Theorem get_measurement_answers (env : Env) (db : Database)
        (download_arg : option string) (uid : string) :
  uid <> EmptyString -> database env = Some db ->
  let error := JError "Incorrect or inexistent measurement_uid" in
  let served body :=
    Made body "application/json" 3600
         (if String.eqb (lower (match download_arg with
                                | Some v => v
                                | None => EmptyString
                                end)) "true"
          then [dload_header ("ooni_measurement-" ++ uid ++ ".json")]
          else []) in
  exists tr r,
    get_measurement env download_arg uid = (tr, Ret r) /\
    count_ev is_fs tr = 0 /\ count_ev is_http tr = 0 /\
    (r = error \/ exists body, indexed_line env db uid body /\ r = served body) /\
    ((~ exists f j, joined db uid f j) -> r = error /\ count_ev is_s3 tr = 0) /\
    r = match hd_error (select_by_uid db uid) with
        | None => error
        | Some j =>
          match s3_object env (j_s3path j) with
          | S3Unreachable => error
          | S3Stream lines _ =>
            match nth_error lines (j_linenum j) with
            | Some body => served body
            | None => error
            end
          end
        end.
Proof.
  intros Hne Hdb error served. unfold get_measurement.
  destruct uid as [|c0 u0]; [congruence|].
  set (uid := String c0 u0) in *.
  unfold measurement_uid_to_s3path_linenum, query_click_one_row,
    _fetch_jsonl_measurement_body_from_s3. rewrite Hdb. cbn.
  destruct (hd_error (select_by_uid db uid)) as [row|] eqn:E; cbn.
  - pose proof (select_by_uid_joined db uid row E) as [f Hj].
    destruct (s3_object env (j_s3path row)) as [|lines intact] eqn:Es; cbn.
    + eexists _, _. split; [reflexivity|]. split; [reflexivity|].
      split; [reflexivity|]. split; [left; reflexivity|].
      split; [|reflexivity]. intros Hno. exfalso. eauto.
    + destruct (nth_error lines (j_linenum row)) as [line|] eqn:En; cbn.
      * eexists _, _. split; [reflexivity|]. split; [reflexivity|].
        split; [reflexivity|]. split; [|split; [|reflexivity]].
        -- right. exists line. split; [|reflexivity].
           exists f, row, lines, intact. auto.
        -- intros Hno. exfalso. eauto.
      * destruct intact; cbn; eexists _, _; (split; [reflexivity|]);
          (split; [reflexivity|]); (split; [reflexivity|]);
          (split; [left; reflexivity|]); (split; [|reflexivity]);
          intros Hno; exfalso; eauto.
  - eexists _, _. split; [reflexivity|]. split; [reflexivity|].
    split; [reflexivity|]. split; [left; reflexivity|].
    split; [|reflexivity]. intros _. split; reflexivity.
Qed.

End ByUidFacts.

Module MetaFacts.
Import Py Eff Clock Sources Orchestrator Str ByUid Meta FetchFacts.

(** X9. The metadata lookup of a route asks by uid first.  A uid that is
    accepted and queried decides alone, also when nothing is found: the
    report id and the input are then not looked at.  They are used only
    when the uid parameter is rejected or its query fails. *)
Theorem lookup_by_uid_first (menv : MetaEnv) (input_ : M (option string)) :
  (forall uid r,
      param_measurement_uid menv = Ret uid -> meta_by_uid menv uid = Row r ->
      lookup_meta menv input_
      = ([Timer "get_measurement_meta_by_uid"; QueryByUid uid],
         Ret (match r with Some row => shown row | None => None end))) /\
  (forall e rid tr inp,
      param_measurement_uid menv = Raise e ->
      param_report_id menv = Ret rid -> input_ = (tr, Ret inp) ->
      lookup_meta menv input_
      = (tr ++ trace (_get_measurement_meta_clickhouse menv rid inp),
         outcome (_get_measurement_meta_clickhouse menv rid inp))) /\
  (forall uid rid tr inp,
      param_measurement_uid menv = Ret uid -> meta_by_uid menv uid = QueryFailed ->
      param_report_id menv = Ret rid -> input_ = (tr, Ret inp) ->
      lookup_meta menv input_
      = ([Timer "get_measurement_meta_by_uid"; QueryByUid uid] ++ tr
           ++ trace (_get_measurement_meta_clickhouse menv rid inp),
         outcome (_get_measurement_meta_clickhouse menv rid inp))).
Proof.
  unfold lookup_meta, _get_measurement_meta_by_uid, of_result, shown.
  split; [|split].
  - intros uid r -> Hq. cbn. rewrite Hq.
    destruct r as [row|]; [|reflexivity].
    destruct (r_probe_asn row =? 0); reflexivity.
  - intros e rid tr inp -> -> ->. cbn.
    destruct (_get_measurement_meta_clickhouse menv rid inp) as [t r]. reflexivity.
  - intros uid rid tr inp -> Hq -> ->. cbn. rewrite Hq. cbn.
    destruct (_get_measurement_meta_clickhouse menv rid inp) as [t r]. reflexivity.
Qed.

Lemma by_uid_meta_cases menv uid :
  exists r, _get_measurement_meta_by_uid menv uid
            = ([Timer "get_measurement_meta_by_uid"; QueryByUid uid], r) /\
            (r = Raise SourceUnavailable \/ r = Ret None \/
             exists row, meta_by_uid menv uid = Row (Some row) /\
                         r_probe_asn row <> 0 /\ r = Ret (Some (format_msmt_meta row))).
Proof.
  unfold _get_measurement_meta_by_uid.
  destruct (meta_by_uid menv uid) as [|[row|]]; cbn.
  - eexists. split; [reflexivity|]. auto.
  - destruct (Nat.eqb_spec (r_probe_asn row) 0); cbn;
      (eexists; split; [reflexivity|]); eauto 6.
  - eexists. split; [reflexivity|]. auto.
Qed.

Lemma by_report_input_meta_cases menv rid inp :
  exists q r, _get_measurement_meta_clickhouse menv rid inp
              = ([Timer "get_measurement_meta_clickhouse"; q], r) /\
              is_source q = false /\
              (r = Raise SourceUnavailable \/ r = Ret None \/
               exists row m, meta_by_report_input menv rid inp = Row (Some row) /\
                             r_probe_asn row <> 0 /\ r = Ret (Some m) /\
                             report_id m = r_report_id row /\
                             input m = r_input row /\
                             measurement_uid m = r_measurement_uid row /\
                             probe_asn m = r_probe_asn row).
Proof.
  unfold _get_measurement_meta_clickhouse.
  destruct (meta_by_report_input menv rid inp) as [|[row|]] eqn:E; cbn.
  - eexists _, _. split; [reflexivity|]. split; [reflexivity|]. auto.
  - destruct (Nat.eqb_spec (r_probe_asn row) 0); cbn;
      (eexists _, _; split; [reflexivity|]; split; [reflexivity|]); auto.
    right. right. exists row. destruct inp; eexists; repeat split; auto.
  - eexists _, _. split; [reflexivity|]. split; [reflexivity|]. auto.
Qed.

(** What the lookup can give: nothing, a failure, or the formatted row
    of a measurement whose probe ASN is not 0; and it reaches no source of
    bodies. *)
Lemma lookup_meta_cases menv input_ :
  count_ev is_source (trace input_) = 0 ->
  count_ev is_source (trace (lookup_meta menv input_)) = 0 /\
  forall m, outcome (lookup_meta menv input_) = Ret (Some m) -> probe_asn m <> 0.
Proof.
  intros Hin. unfold lookup_meta, of_result.
  destruct (param_measurement_uid menv) as [uid|e].
  - cbn [bind]. destruct (by_uid_meta_cases menv uid) as (r & -> & Hr).
    destruct Hr as [->|[->|(row & Hq & Hasn & ->)]].
    + cbn [app catch].
      destruct (param_report_id menv) as [rid|e]; cbn [bind]; [|split; [reflexivity|discriminate]].
      destruct input_ as [tr [inp|e]]; cbn [bind trace fst] in *;
        [|split; [unfold count_ev in *; cbn; assumption|discriminate]].
      destruct (by_report_input_meta_cases menv rid inp) as (q & r & -> & Hq & Hr).
      split.
      * unfold count_ev in *. cbn. rewrite filter_app, length_app. cbn. rewrite Hq.
        cbn. lia.
      * cbn. intros m Hm.
        destruct Hr as [->|[->|(row & m' & _ & Hasn & -> & _ & _ & _ & Hp)]];
          try discriminate. injection Hm as <-. congruence.
    + split; [reflexivity|discriminate].
    + split; [reflexivity|]. cbn. intros m [= <-]. exact Hasn.
  - cbn [bind catch app].
    destruct (param_report_id menv) as [rid|e']; cbn [bind]; [|split; [reflexivity|discriminate]].
    destruct input_ as [tr [inp|e']]; cbn [bind trace fst] in *;
      [|split; [unfold count_ev in *; cbn; assumption|discriminate]].
    destruct (by_report_input_meta_cases menv rid inp) as (q & r & -> & Hq & Hr).
    split.
    + unfold count_ev in *. cbn. rewrite filter_app, length_app. cbn. rewrite Hq.
      cbn. lia.
    + cbn. intros m Hm.
      destruct Hr as [->|[->|(row & m' & _ & Hasn & -> & _ & _ & _ & Hp)]];
        try discriminate. injection Hm as <-. congruence.
Qed.

Lemma bind_returned (A B : Type) (m : M A) (k : A -> M B) a :
  outcome m = Ret a -> bind m k = (trace m ++ trace (k a), outcome (k a)).
Proof.
  destruct m as [tr r]. cbn. intros ->. cbn. now destruct (k a).
Qed.

(** X10. [get_raw_measurement] serves a body only for a measurement whose
    metadata was found with a probe ASN other than 0, and the body is the
    one the orchestrator returns for the row's report id, input and uid.
    When no metadata is found, which includes a probe ASN of 0, it
    answers with the empty document and approaches no source of bodies.
    A failure of the orchestrator is not absorbed: it leaves the route. *)
Theorem raw_measurement_route (menv : MetaEnv) :
  let look := lookup_meta menv (ret (arg_input menv)) in
  let run := get_raw_measurement menv in
  (outcome look = Ret None ->
   outcome run = Ret (EmptyDocument "application/json" (24 * 3600)) /\
   count_ev is_source (trace run) = 0) /\
  (forall m, outcome look = Ret (Some m) ->
     probe_asn m <> 0 /\
     outcome run =
     match outcome (_fetch_measurement_body (base menv) (report_id m)
                      (Some (input m)) (Some (measurement_uid m))) with
     | Ret body => Ret (RawBody body "application/json" (24 * 3600))
     | Raise e => Raise e
     end).
Proof.
  intros look run.
  destruct (lookup_meta_cases menv (ret (arg_input menv)) eq_refl) as [Hsrc Hasn].
  fold look in Hsrc, Hasn. subst run. unfold get_raw_measurement. fold look. split.
  - intros Hl. rewrite (bind_returned _ _ look _ None Hl). split; [reflexivity|].
    unfold count_ev in *. cbn. rewrite filter_app, length_app, Hsrc. reflexivity.
  - intros m Hl. split; [now apply Hasn|].
    rewrite (bind_returned _ _ look _ (Some m) Hl). cbn [timed outcome snd].
    destruct (_fetch_measurement_body (base menv) (report_id m) (Some (input m))
                (Some (measurement_uid m))) as [tr [b|e]]; reflexivity.
Qed.

(** X11. [get_measurement_meta] answers whenever the metadata lookup
    does.  Unless [full] is [true], [1] or [yes] in any case of letters it
    approaches no source of bodies.  With [full], a measurement that is
    not found gets an empty raw measurement without any probing; for one
    that is found the raw measurement is the decoded body that the
    orchestrator returns for the row's report id, input and uid, and the
    empty text when the orchestrator raises or the body does not
    decode. *)
Theorem measurement_meta_route (menv : MetaEnv) (mm : option msmt_meta) :
  let look := lookup_meta menv (of_result (param_input_or_none menv)) in
  let run := get_measurement_meta menv in
  outcome look = Ret mm ->
  exists raw,
    outcome run = Ret (CachedJson "1m" mm raw) /\
    (wants_full menv = false -> raw = None /\ count_ev is_source (trace run) = 0) /\
    (wants_full menv = true ->
     match mm with
     | None => raw = Some EmptyString /\ count_ev is_source (trace run) = 0
     | Some m =>
       raw = Some
         match outcome (_fetch_measurement_body (base menv) (report_id m)
                          (Some (input m)) (Some (measurement_uid m))) with
         | Ret body => match decode menv body with
                       | Some text => text
                       | None => EmptyString
                       end
         | Raise _ => EmptyString
         end
     end).
Proof.
  intros look run Hl.
  destruct (lookup_meta_cases menv (of_result (param_input_or_none menv)) eq_refl)
    as [Hsrc _].
  fold look in Hsrc. subst run. unfold get_measurement_meta. fold look.
  fold (wants_full menv).
  rewrite (bind_returned _ _ look _ mm Hl).
  destruct (wants_full menv); cbn [negb].
  - destruct mm as [m|].
    + destruct (_fetch_measurement_body (base menv) (report_id m) (Some (input m))
                  (Some (measurement_uid m))) as [tr [b|e]] eqn:Ef.
      * destruct (decode menv b) as [text|] eqn:Ed.
        -- exists (Some text). cbn. rewrite Ed. cbn.
           split; [reflexivity|]. split; [discriminate|]. reflexivity.
        -- exists (Some EmptyString). cbn. rewrite Ed. cbn.
           split; [reflexivity|]. split; [discriminate|]. reflexivity.
      * exists (Some EmptyString). cbn.
        split; [reflexivity|]. split; [discriminate|]. reflexivity.
    + exists (Some EmptyString). split; [reflexivity|]. split; [discriminate|].
      intros _. split; [reflexivity|].
      unfold count_ev in *. cbn. rewrite filter_app, length_app, Hsrc. reflexivity.
  - exists None. split; [reflexivity|]. split; [|discriminate].
    intros _. split; [reflexivity|].
    unfold count_ev in *. cbn. rewrite filter_app, length_app, Hsrc. reflexivity.
Qed.

End MetaFacts.

Module FeedbackFacts.
Import Feedback.

Lemma dict_get_set k v d k' :
  dict_get k' (dict_set k v d) = if String.eqb k' k then v else dict_get k' d.
Proof.
  induction d as [|[k0 v0] d IH]; cbn.
  - reflexivity.
  - destruct (String.eqb_spec k k0) as [->|Hne]; cbn.
    + destruct (String.eqb_spec k' k0); reflexivity.
    + destruct (String.eqb_spec k' k0) as [->|Hne'].
      * destruct (String.eqb_spec k0 k); [congruence|reflexivity].
      * exact IH.
Qed.

Lemma keys_dict_set k v d :
  map fst (dict_set k v d)
  = if existsb (String.eqb k) (map fst d) then map fst d else map fst d ++ [k].
Proof.
  induction d as [|[k0 v0] d IH]; cbn; [reflexivity|].
  destruct (String.eqb_spec k k0) as [->|Hne]; cbn; [reflexivity|].
  rewrite IH. now destruct (existsb (String.eqb k) (map fst d)).
Qed.

Lemma keys_dict_set_nodup k v d :
  NoDup (map fst d) -> NoDup (map fst (dict_set k v d)).
Proof.
  intros Hd. rewrite keys_dict_set.
  destruct (existsb (String.eqb k) (map fst d)) eqn:E; [assumption|].
  apply NoDup_app; [assumption|repeat constructor; intros []|].
  intros x Hx [<-|[]].
  assert (existsb (String.eqb k) (map fst d) = true)
    by (apply existsb_exists; exists k; split; [assumption|apply String.eqb_refl]).
  congruence.
Qed.

Lemma keys_dict_set_in k v d x :
  In x (map fst (dict_set k v d)) <-> x = k \/ In x (map fst d).
Proof.
  rewrite keys_dict_set.
  destruct (existsb (String.eqb k) (map fst d)) eqn:E.
  - apply existsb_exists in E. destruct E as (y & Hy & Heq).
    apply String.eqb_eq in Heq. subst y. split; [auto|].
    intros [->|H]; assumption.
  - rewrite in_app_iff. cbn. split; intros H.
    + destruct H as [H|[<-|[]]]; auto.
    + destruct H as [->|H]; auto.
Qed.

(** The state of the loop after some rows, started from any dictionary. *)
Lemma fold_feedback rows : forall out,
  NoDup (map fst (summary out)) ->
  let res := fold_left feedback_step rows out in
  (forall s, dict_get s (summary res) = dict_get s (summary out) + votes s rows) /\
  NoDup (map fst (summary res)) /\
  (forall s, In s (map fst (summary res)) <->
             In s (map fst (summary out)) \/ In s (map status rows)) /\
  user_feedback res =
    match rev (filter is_mine rows) with
    | r :: _ => Some (status r)
    | [] => user_feedback out
    end.
Proof.
  induction rows as [|row rows IH]; intros out Hnd; cbn [fold_left].
  - cbn. repeat split; auto; tauto.
  - specialize (IH (feedback_step out row)
                   (keys_dict_set_nodup _ _ _ Hnd)).
    cbn zeta in IH. destruct IH as (Hget & Hnd' & Hin & Huf).
    split; [|split; [|split]].
    + intros s. rewrite Hget. cbn [feedback_step summary]. rewrite dict_get_set.
      unfold votes, list_sum. cbn [filter].
      destruct (String.eqb_spec s (status row)) as [->|Hne].
      * rewrite String.eqb_refl. cbn [map fold_right]. lia.
      * destruct (String.eqb_spec (status row) s); [congruence|]. lia.
    + exact Hnd'.
    + intros s. rewrite Hin. cbn [feedback_step summary map].
      rewrite keys_dict_set_in. cbn. intuition congruence.
    + rewrite Huf. cbn [filter feedback_step user_feedback].
      destruct (is_mine row) eqn:Em.
      * cbn [rev]. destruct (rev (filter is_mine rows)); reflexivity.
      * reflexivity.
Qed.

(** X12. In the summary every status of the rows is a key, once, and
    nothing else is; the counter of a status is the sum of the counts of
    its rows, however many rows carry it. *)
Theorem summary_counts_votes (rows : list feedback_row) :
  let out := feedback_of rows in
  NoDup (map fst (summary out)) /\
  (forall s, In s (map fst (summary out)) <-> In s (map status rows)) /\
  (forall s, dict_get s (summary out) = votes s rows).
Proof.
  destruct (fold_feedback rows (mkFeedbackOut None []) (NoDup_nil _))
    as (Hget & Hnd & Hin & _).
  cbn zeta. unfold feedback_of. split; [exact Hnd|]. split.
  - intros s. rewrite Hin. cbn. tauto.
  - intros s. now rewrite Hget.
Qed.

(** X13. The key [user_feedback] is the status of the last row that is
    the caller's own, and is not set when there is none. *)
Theorem user_feedback_is_last_own (rows : list feedback_row) :
  user_feedback (feedback_of rows)
  = match rev (filter is_mine rows) with
    | r :: _ => Some (status r)
    | [] => None
    end.
Proof.
  destruct (fold_feedback rows (mkFeedbackOut None []) (NoDup_nil _))
    as (_ & _ & _ & Huf).
  exact Huf.
Qed.

End FeedbackFacts.

Module ListingFacts.
Import Py Clock Listing.

(** *** Gathering the parts *)

Lemma gather_in ps w b :
  gather ps = Some (w, b) ->
  (forall c, In c w <-> exists w' b', In (Some (w', b')) ps /\ In c w') /\
  (forall kv, In kv b <-> exists w' b', In (Some (w', b')) ps /\ In kv b').
Proof.
  revert w b. induction ps as [|[[w0 b0]|] ps IH]; intros w b; cbn.
  - intros [= <- <-]. split; intros x; split; try contradiction;
      intros (w' & b' & [] & _).
  - destruct (gather ps) as [[w1 b1]|]; [|discriminate].
    intros [= <- <-]. destruct (IH w1 b1 eq_refl) as [Hw Hb]. split.
    + intros c. rewrite in_app_iff, Hw. split.
      * intros [H|(w' & b' & Hin & H)]; [exists w0, b0; auto|exists w', b'; auto].
      * intros (w' & b' & [Heq|Hin] & Hc); [injection Heq as <- <-; auto|right; eauto].
    + intros kv. rewrite in_app_iff, Hb. split.
      * intros [H|(w' & b' & Hin & H)]; [exists w0, b0; auto|exists w', b'; auto].
      * intros (w' & b' & [Heq|Hin] & Hc); [injection Heq as <- <-; auto|right; eauto].
  - discriminate.
Qed.

Lemma consistent_gather ps w b :
  gather ps = Some (w, b) ->
  (forall p, In (Some p) ps -> consistent p) ->
  consistent (w, b).
Proof.
  intros Hg Hall c n Hcn. destruct (gather_in ps w b Hg) as [Hw Hb].
  cbn [fst snd]. rewrite Hw. split.
  - intros (w' & b' & Hin & Hc).
    destruct (proj1 (Hall (w', b') Hin c n Hcn) Hc) as [v Hv].
    exists v. apply Hb. eauto.
  - intros (v & Hv). apply Hb in Hv. destruct Hv as (w' & b' & Hin & Hv).
    exists w', b'. split; [assumption|].
    apply (Hall (w', b') Hin c n Hcn). eauto.
Qed.

Ltac named_cases H :=
  cbn [named_clauses In] in H;
  repeat (destruct H as [H|H]; [injection H as <- <-|]); [..|contradiction].

Lemma consistent_no_part : consistent no_part.
Proof.
  intros c n _. cbn. split; [contradiction|intros [v []]].
Qed.

Lemma consistent_unnamed c0 :
  (forall n, ~ In (c0, n) named_clauses) -> consistent ([c0], []).
Proof.
  intros Hc c n Hcn. cbn. split.
  - intros [<-|[]]. exfalso. eapply Hc; eauto.
  - intros [v []].
Qed.

Ltac solve_bound :=
  let c := fresh "c" in let n := fresh "n" in let H := fresh "H" in
  intros c n H; named_cases H; cbn;
  (split;
   [intros [E|[]]; try discriminate E; eexists; left; reflexivity
   |intros [v [E|[]]]; try discriminate E; left; reflexivity]).

Lemma consistent_parts now a p :
  In (Some p) (parts now a) -> consistent p.
Proof.
  unfold parts, list_part, flag_part. cbn [In String.append]. intros H.
  repeat (destruct H as [H|H];
          [|try contradiction]);
    try (injection H as <-).
  all: repeat match goal with
       | |- context [match ?x with _ => _ end] => destruct x eqn:?
       | H : context [match ?x with _ => _ end] |- _ => destruct x eqn:?
       | H : Some _ = Some _ |- _ => injection H as <-
       | H : None = Some _ |- _ => discriminate H
       end.
  all: try apply consistent_no_part.
  all: try (unfold bound; solve_bound).
  all: try (apply consistent_unnamed; intros n Hn; cbn in Hn;
            repeat (destruct Hn as [Hn|Hn]; [discriminate Hn|]); contradiction).
Qed.

Lemma gather_none ps : In None ps -> gather ps = None.
Proof.
  induction ps as [|[[w0 b0]|] ps IH]; cbn; [contradiction| |reflexivity].
  intros [H|H]; [discriminate|]. now rewrite IH.
Qed.

Lemma gather_has ps w b w' b' :
  gather ps = Some (w, b) -> In (Some (w', b')) ps ->
  (forall c, In c w' -> In c w) /\ (forall kv, In kv b' -> In kv b).
Proof.
  intros Hg Hin. destruct (gather_in ps w b Hg) as [Hw Hb]. split.
  - intros c Hc. apply Hw. eauto.
  - intros kv Hkv. apply Hb. eauto.
Qed.

(** *** No name is bound twice *)

Lemma subseq_app (A : Type) (a a' b b' : list A) :
  subseq a a' -> subseq b b' -> subseq (a ++ b) (a' ++ b').
Proof.
  intros Ha Hb. induction Ha as [l|x l1 l2 _ IH|x l1 l2 _ IH]; cbn.
  - induction l as [|x l IH]; cbn; [assumption|now constructor].
  - now constructor.
  - now constructor.
Qed.

Lemma subseq_in (A : Type) (l1 l2 : list A) x : subseq l1 l2 -> In x l1 -> In x l2.
Proof.
  induction 1 as [l|y l1 l2 _ IH|y l1 l2 _ IH]; cbn; [contradiction|auto|].
  intros [->|H]; auto.
Qed.

Lemma subseq_nodup (A : Type) (l1 l2 : list A) : subseq l1 l2 -> NoDup l2 -> NoDup l1.
Proof.
  induction 1 as [l|y l1 l2 Hs IH|y l1 l2 Hs IH]; intros Hn.
  - constructor.
  - inversion Hn; subst. auto.
  - inversion Hn as [|? ? Hy Hn']; subst. constructor; [|auto].
    intros Hin. apply Hy. eapply subseq_in; eauto.
Qed.

Lemma gather_keys ps : forall ns w b,
  Forall2 (fun p n => forall w' b', p = Some (w', b') -> subseq (map fst b') n) ps ns ->
  gather ps = Some (w, b) ->
  subseq (map fst b) (concat ns).
Proof.
  induction ps as [|[[w0 b0]|] ps IH]; intros ns w b HF; inversion HF as [|? n ? ns' Hp HF']; subst; cbn.
  - intros [= <- <-]. constructor.
  - destruct (gather ps) as [[w1 b1]|] eqn:Eg; [|discriminate].
    intros [= <- <-]. rewrite map_app. apply subseq_app; [exact (Hp w0 b0 eq_refl)|].
    now apply (IH ns' w1 b1).
  - discriminate.
Qed.

Lemma parts_keys now a w b :
  gather (parts now a) = Some (w, b) ->
  subseq (map fst b) (map snd named_clauses).
Proof.
  intros Hg.
  apply (gather_keys (parts now a)
           [["since"]; ["until"]; ["report_id"]; ["probe_cc"]; ["probe_asn"];
            ["test_name"]; ["software_versions"]; ["test_versions"];
            ["engine_versions"]; []; []; []; ["input"]; ["domain"];
            ["category_code"]]%string w b); [|assumption].
  unfold parts, list_part, flag_part, bound, no_part.
  repeat (constructor; [intros w' b' Hp;
    repeat match goal with
           | H : context [match ?x with _ => _ end] |- _ => destruct x eqn:?
           | H : Some _ = Some _ |- _ => injection H as <- <-
           | H : None = Some _ |- _ => discriminate H
           end; cbn;
    repeat first [apply subseq_nil | apply subseq_take | apply subseq_skip]|]).
  constructor.
Qed.

Lemma all_names_nodup : NoDup all_names.
Proof.
  unfold all_names. cbn.
  repeat (constructor; [cbn; intuition discriminate|]). constructor.
Qed.

Lemma plan_query now a w ps j o :
  plan_listing now a = Query w ps j o ->
  exists b, gather (parts now a) = Some (w, b) /\
            ps = b ++ [("param_1"%string, PInt (limit a));
                       ("param_2"%string, PInt (offset a))] /\
            j = (negb (truthy_str (input_ a)) && truthy_str (category_code a)).
Proof.
  unfold plan_listing.
  destruct (startswith "okhttp" (user_agent a)); [discriminate|].
  destruct (negb _); [discriminate|].
  destruct (gather (parts now a)) as [[w0 b0]|]; [|discriminate].
  intros [= <- <- <- <-]. eauto.
Qed.

(** X14. In the query that [list_measurements] builds, a clause that
    names a parameter is there exactly when the parameter is bound, no
    name is bound twice, and the limit and the offset are always bound. *)
Theorem listing_binds_what_it_names (now : datetime) (a : listing_args)
        w ps j o :
  plan_listing now a = Query w ps j o ->
  (forall c n, In (c, n) named_clauses -> (In c w <-> exists v, In (n, v) ps)) /\
  NoDup (map fst ps) /\
  In ("param_1"%string, PInt (limit a)) ps /\
  In ("param_2"%string, PInt (offset a)) ps.
Proof.
  intros Hp. destruct (plan_query now a w ps j o Hp) as (b & Hg & -> & _).
  split; [|split; [|split]].
  - intros c n Hcn.
    pose proof (consistent_gather _ w b Hg (consistent_parts now a) c n Hcn) as Hc.
    cbn [fst snd] in Hc. rewrite Hc. split.
    + intros [v Hv]. exists v. apply in_or_app. now left.
    + intros [v Hv]. apply in_app_or in Hv. destruct Hv as [Hv|Hv]; [eauto|].
      exfalso. cbn in Hv. named_cases Hcn;
        (destruct Hv as [Hv|[Hv|[]]]; discriminate Hv).
  - rewrite map_app. apply (subseq_nodup _ _ all_names); [|apply all_names_nodup].
    unfold all_names. apply subseq_app; [now apply (parts_keys now a w)|].
    cbn. repeat first [apply subseq_nil | apply subseq_take | apply subseq_skip].
  - apply in_or_app. right. now left.
  - apply in_or_app. right. right. now left.
Qed.

(** Where a clause of the query comes from: the part that holds it. *)
Ltac origin Hc Hg :=
  let w' := fresh "w'" in let b' := fresh "b'" in let Hin := fresh "Hin" in
  apply (proj1 (proj1 (gather_in _ _ _ Hg) _)) in Hc;
  destruct Hc as (w' & b' & Hin & Hc);
  unfold parts, list_part, flag_part, bound, no_part in Hin;
  cbn [In String.append] in Hin;
  repeat (destruct Hin as [Hin|Hin]; [|try contradiction]);
  repeat match goal with
         | H : context [match ?x with _ => _ end] |- _ => destruct x eqn:?
         | H : Some _ = Some _ |- _ => injection H as <- <-
         | H : None = Some _ |- _ => discriminate H
         end;
  cbn in Hc;
  repeat match goal with
         | H : _ \/ _ |- _ => destruct H as [H|H]
         | H : False |- _ => contradiction
         end;
  try discriminate Hc.

(** The part at a position is one of the parts. *)
Lemma part_at now a k p : nth_error (parts now a) k = Some p -> In p (parts now a).
Proof. apply nth_error_In. Qed.

(** X15. A query that [list_measurements] runs never covers the country
    code ZZ or the ASN 0: it either filters on a country code that is not
    ZZ or excludes ZZ, and either filters on an ASN that is not 0 or
    excludes 0. *)
Theorem listing_never_unwanted (now : datetime) (a : listing_args) w ps j o :
  plan_listing now a = Query w ps j o ->
  (In "probe_cc != 'ZZ'"%string w \/
   exists cc, probe_cc a = Some cc /\ cc <> "ZZ"%string /\
              In "probe_cc = :probe_cc"%string w /\
              In ("probe_cc"%string, PStr cc) ps) /\
  (In "probe_asn != 0"%string w \/
   exists n, probe_asn a = Some n /\ n <> 0 /\
             In "probe_asn = :probe_asn"%string w /\
             In ("probe_asn"%string, PNat n) ps).
Proof.
  intros Hp. destruct (plan_query now a w ps j o Hp) as (b & Hg & -> & _).
  split.
  - pose proof (part_at now a 3 _ eq_refl) as Hin. cbn zeta in Hin.
    destruct (truthy_str (probe_cc a)) eqn:Et.
    + destruct (probe_cc a) as [cc|] eqn:Ec; [|discriminate].
      destruct (String.eqb_spec cc "ZZ") as [->|Hne].
      * exfalso. rewrite (gather_none _ Hin) in Hg. discriminate.
      * right. exists cc. destruct (gather_has _ _ _ _ _ Hg Hin) as [Hw Hb].
        repeat split; auto.
        -- apply Hw. now left.
        -- apply in_or_app. left. apply Hb. now left.
    + left. destruct (gather_has _ _ _ _ _ Hg Hin) as [Hw _]. apply Hw. now left.
  - pose proof (part_at now a 4 _ eq_refl) as Hin.
    destruct (probe_asn a) as [n|] eqn:Ea.
    + destruct (Nat.eqb_spec n 0) as [->|Hne].
      * exfalso. rewrite (gather_none _ Hin) in Hg. discriminate.
      * right. exists n. destruct (gather_has _ _ _ _ _ Hg Hin) as [Hw Hb].
        repeat split; auto.
        -- apply Hw. now left.
        -- apply in_or_app. left. apply Hb. now left.
    + left. destruct (gather_has _ _ _ _ _ Hg Hin) as [Hw _]. apply Hw. now left.
Qed.

(** X16. A given input overrides the domain and the category code: the
    query then filters on the input and on neither of the two.  The table
    [citizenlab] is joined exactly when the query filters on the category
    code. *)
Theorem listing_input_overrides (now : datetime) (a : listing_args) w ps j o :
  plan_listing now a = Query w ps j o ->
  (j = true <-> In "citizenlab.category_code = :category_code"%string w) /\
  (truthy_str (input_ a) = true ->
   In "input = :input"%string w /\
   ~ In "domain = :domain"%string w /\
   ~ In "citizenlab.category_code = :category_code"%string w).
Proof.
  intros Hp. destruct (plan_query now a w ps j o Hp) as (b & Hg & _ & ->).
  assert (Hcat : In "citizenlab.category_code = :category_code"%string w ->
                 negb (truthy_str (input_ a)) && truthy_str (category_code a) = true).
  { intros Hc. origin Hc Hg; first [assumption|reflexivity]. }
  assert (Hdom : In "domain = :domain"%string w ->
                 negb (truthy_str (input_ a)) && truthy_str (domain a) = true).
  { intros Hc. origin Hc Hg; first [assumption|reflexivity]. }
  split; [split; [|exact Hcat]|].
  - intros Hj. pose proof (part_at now a 14 _ eq_refl) as Hin. rewrite Hj in Hin.
    destruct (gather_has _ _ _ _ _ Hg Hin) as [Hw _]. apply Hw. now left.
  - intros Hi. split; [|split].
    + pose proof (part_at now a 12 _ eq_refl) as Hin. rewrite Hi in Hin.
      destruct (gather_has _ _ _ _ _ Hg Hin) as [Hw _]. apply Hw. now left.
    + intros Hc. apply Hdom in Hc. rewrite Hi in Hc. discriminate.
    + intros Hc. apply Hcat in Hc. rewrite Hi in Hc. discriminate.
Qed.

(** X17. Without dates in the request the time range depends on the
    report id.  Without a report id the query covers the thirty days that
    end at the midnight after the current time; with a report id,
    even an empty one, it has no time clause at all. *)
Theorem listing_time_window (now : datetime) (a : listing_args) w ps j o :
  plan_listing now a = Query w ps j o ->
  since a = None -> until a = None ->
  match report_id a with
  | None =>
    In "measurement_start_time > :since"%string w /\
    In "measurement_start_time <= :until"%string w /\
    In ("until"%string, PDate (midnight (add_day now))) ps /\
    In ("since"%string, PDate (Nat.iter 30 sub_day (midnight (add_day now)))) ps
  | Some _ =>
    ~ In "measurement_start_time > :since"%string w /\
    ~ In "measurement_start_time <= :until"%string w
  end.
Proof.
  intros Hp Hs Hu. destruct (plan_query now a w ps j o Hp) as (b & Hg & -> & _).
  destruct (report_id a) as [r|] eqn:Er.
  - assert (Hsince : since_of now a = None) by (unfold since_of; now rewrite Hs, Er).
    assert (Huntil : until_of now a = None) by (unfold until_of; now rewrite Hu, Er).
    split; intros Hc; origin Hc Hg; congruence.
  - assert (Huntil : until_of now a = Some (midnight (add_day now)))
      by (unfold until_of; now rewrite Hu, Er).
    assert (Hsince : since_of now a
                     = Some (Nat.iter 30 sub_day (midnight (add_day now))))
      by (unfold since_of; now rewrite Hs, Er, Huntil).
    pose proof (part_at now a 0 _ eq_refl) as H0. rewrite Hsince in H0.
    pose proof (part_at now a 1 _ eq_refl) as H1. rewrite Huntil in H1.
    destruct (gather_has _ _ _ _ _ Hg H0) as [Hw0 Hb0].
    destruct (gather_has _ _ _ _ _ Hg H1) as [Hw1 Hb1].
    repeat split.
    + apply Hw0. now left.
    + apply Hw1. now left.
    + apply in_or_app. left. apply Hb1. now left.
    + apply in_or_app. left. apply Hb0. now left.
Qed.

(** *** Page metadata *)

Local Open Scope Z_scope.

Lemma ceil_div_bracket a b :
  0 < b -> Z.abs a < two53 -> b < two53 ->
  exists c, ceil_div a b = Ceil c /\ (c - 1) * b < a <= c * b.
Proof.
  intros Hb Ha Hb'. unfold ceil_div.
  destruct (Z.eqb_spec b 0); [lia|].
  destruct (Z.ltb_spec (Z.abs a) two53); [|lia].
  destruct (Z.ltb_spec (Z.abs b) two53); [|lia].
  cbn [andb]. eexists. split; [reflexivity|].
  pose proof (Z.div_mod (- a) b ltac:(lia)) as Hd.
  pose proof (Z.mod_pos_bound (- a) b Hb) as Hm.
  nia.
Qed.

Lemma ceil_unique b c c' a :
  0 < b -> (c - 1) * b < a <= c * b -> (c' - 1) * b < a <= c' * b -> c = c'.
Proof. intros. nia. Qed.

(** X18. For an offset that is not negative, a positive limit and values
    below [2^53]: a page that is not full gives the exact count, the
    number of pages that just covers it, and no next page; a full page
    gives -1 for the count and for the pages and points to the next
    offset, also when it is the last page.  The current page is the one
    that just covers the offset, plus one. *)
Theorem page_metadata (offset limit : Z) (n : nat) :
  0 <= offset -> 0 < limit -> limit < two53 -> offset + Z.of_nat n < two53 ->
  exists count pages current next,
    paginate offset limit n = Paged count pages current next /\
    (current - 2) * limit < offset <= (current - 1) * limit /\
    (Z.of_nat n < limit ->
     count = offset + Z.of_nat n /\ next = None /\
     (pages - 1) * limit < count <= pages * limit) /\
    (limit <= Z.of_nat n ->
     count = -1 /\ pages = -1 /\ next = Some (offset + limit)).
Proof.
  intros Ho Hl Hl' Hn. unfold paginate.
  destruct (ceil_div_bracket offset limit Hl ltac:(lia) Hl') as (c & -> & Hc).
  destruct (Z.ltb_spec (Z.of_nat n) limit) as [Hlt|Hge].
  - destruct (ceil_div_bracket (offset + Z.of_nat n) limit Hl ltac:(lia) Hl')
      as (p & -> & Hp).
    exists (offset + Z.of_nat n), p, (c + 1), None.
    split; [reflexivity|]. split; [lia|]. split; [auto|lia].
  - exists (-1), (-1), (c + 1), (Some (offset + limit)).
    split; [reflexivity|]. split; [lia|]. split; [lia|auto].
Qed.

(** X19. At an offset that is a whole number [k] of pages, the current
    page is [k + 1].  When that page holds some results without being
    full, it is the last one: the number of pages is the current page.
    When it holds none, the number of pages is [k], one less than the
    current page. *)
Theorem page_on_aligned_offset (k limit : Z) (n : nat) :
  0 <= k -> 0 < limit -> limit < two53 -> k * limit + Z.of_nat n < two53 ->
  Z.of_nat n < limit ->
  paginate (k * limit) limit n
  = Paged (k * limit + Z.of_nat n) (if Nat.eqb n 0 then k else k + 1) (k + 1) None.
Proof.
  intros Hk Hl Hl' Hn Hlt. unfold paginate.
  destruct (ceil_div_bracket (k * limit) limit Hl ltac:(nia) Hl') as (c & -> & Hc).
  destruct (Z.ltb_spec (Z.of_nat n) limit) as [_|Hge]; [|lia].
  destruct (ceil_div_bracket (k * limit + Z.of_nat n) limit Hl ltac:(nia) Hl')
    as (p & -> & Hp).
  assert (c = k) by nia. subst c.
  f_equal. destruct (Nat.eqb_spec n 0) as [->|Hne].
  - cbn in Hp. nia.
  - assert (0 < Z.of_nat n) by lia. nia.
Qed.

End ListingFacts.

(** * The statistics route *)

Module StatsFacts.
Import Py Clock Listing Stats.

Lemma selected_row_fails (r : row_in) :
  selected r -> with_rate r = inl "'measurement_count'"%string.
Proof.
  unfold selected, col_names. intros H.
  destruct r as [|[k1 v1] [|[k2 v2] [|[k3 v3] [|[k4 v4] [|[k5 v5] [|x r]]]]]];
    try discriminate H.
  cbn in H. injection H as -> -> -> -> ->. reflexivity.
Qed.

Lemma rated_fails (r : row_in) (q : list row_in) (e : string) :
  with_rate r = inl e -> rated (r :: q) = inl e.
Proof. intros H. cbn [rated]. now rewrite H. Qed.

(** X20. The query of [get_torsf_stats] selects no column
    [measurement_count], which the loop reads from every row: as soon as
    the query returns a row that carries the selected columns, the route
    answers with the error document for the missing key, whatever the
    counters are. *)
Theorem torsf_stats_fail_on_rows (parse_date : string -> option datetime)
        (now : datetime) (query_click : list string -> list (string * pvalue) -> answer)
        (probe_cc since until : option string) w p c (r : row_in) (q : list row_in) :
  prepare parse_date now probe_cc since until = Some (w, p, c) ->
  query_click w p = QRows (r :: q) ->
  selected r ->
  get_torsf_stats parse_date now query_click probe_cc since until
  = Responds (JError "'measurement_count'").
Proof.
  intros Hp Hq Hs. unfold get_torsf_stats. rewrite Hp, Hq.
  unfold respond. now rewrite (rated_fails r q _ (selected_row_fails r Hs)).
Qed.

End StatsFacts.

(** * The further properties on the examples *)

Module RouteWitness.
Import Py Eff Clock Sources Orchestrator Example Scenario.

Lemma fetched_body_provenance_witness :
  b "'fresh'" <> [] /\
  (outcome (_fetch_jsonl_measurement_body_clickhouse env0 rid None (Some uid_fresh))
   = Ret (Some (b "'fresh'")) \/
   (new_format rid (Some uid_fresh) = true /\
    (outcome (_fetch_measurement_body_on_disk_by_msmt_uid env0 (the_uid (Some uid_fresh)))
     = Ret (Some (b "'fresh'")) \/
     outcome (_fetch_measurement_body_from_hosts env0 (the_uid (Some uid_fresh)))
     = Ret (Some (b "'fresh'"))))).
Proof.
  apply (FetchFacts.fetched_body_provenance
           (_fetch_measurement_body_on_disk_by_msmt_uid env0)
           (_fetch_measurement_body_from_hosts env0)
           (_fetch_jsonl_measurement_body_clickhouse env0)
           clock rid None (Some uid_fresh) (b "'fresh'")).
  reflexivity.
Defined.

Lemma spool_and_peer_agree_witness :
  outcome (_fetch_measurement_body_on_disk_by_msmt_uid env1 uid_old) =
  match peer_answer env1 (Response 200 (b "{delayed")) with
  | Some body => Ret (Some body)
  | None => Raise MalformedPayload
  end.
Proof.
  apply (UidFacts.spool_and_peer_agree env1 uid_old path_old (b "{delayed")).
  - reflexivity.
  - reflexivity.
Defined.

Lemma archive_body_is_indexed_line_witness :
  exists db row lines intact,
    database env0 = Some db /\ In row (jsonl db) /\
    (exists f, joined db uid_old f row) /\
    s3_object env0 (j_s3path row) = S3Stream lines intact /\
    nth_error lines (j_linenum row) = Some (b "second").
Proof.
  apply (ByUidFacts.archive_body_is_indexed_line env0 rid None (Some uid_old) (b "second")).
  reflexivity.
Defined.

Lemma input_matters_only_without_uid_witness :
  _fetch_measurement_body env0 rid None (Some uid_old)
  = _fetch_measurement_body env0 "a_b_c_d_e_f" (Some "x"%string) (Some uid_old).
Proof.
  apply (proj1 (ByUidFacts.input_matters_only_without_uid env0 rid "a_b_c_d_e_f" None
                  (Some "x"%string) uid_old)).
  reflexivity.
Defined.

Lemma by_uid_spool_then_archive_witness :
  ByUid._fetch_measurement_body_by_uid env1 uid_old
  = ([probe_disk; FsOpen path_old], Ret (b "'delayed'")) /\
  ByUid.indexed_line env0 db0 uid_old (b "second") /\
  outcome (ByUid._fetch_measurement_body_by_uid env0 uid_old) = Ret (b "second").
Proof.
  split; [|split].
  - apply (proj1 (ByUidFacts.by_uid_spool_then_archive env1 uid_old) (b "'delayed'")).
    reflexivity.
  - apply (proj1 (proj1 (proj2 (proj2 (ByUidFacts.by_uid_spool_then_archive env0 uid_old)))
                        db0 eq_refl eq_refl) (b "second")).
    reflexivity.
  - apply (proj2 (proj2 (proj2
             (proj1 (proj2 (proj2 (ByUidFacts.by_uid_spool_then_archive env0 uid_old)))
                    db0 eq_refl eq_refl)))
             (mkJsonl rid "http://example.org/" "jsonl/2021012311_VE.jsonl.gz" 1)
             [b "first"; b "second"] true).
    + reflexivity.
    + reflexivity.
Defined.

Lemma get_measurement_answers_witness :
  exists tr r,
    ByUid.get_measurement env0 None uid_old = (tr, Ret r) /\
    ByUid.count_ev ByUid.is_fs tr = 0 /\ ByUid.count_ev ByUid.is_http tr = 0 /\
    (r = ByUid.JError "Incorrect or inexistent measurement_uid" \/
     exists body,
       ByUid.indexed_line env0 db0 uid_old body /\
       r = ByUid.Made body "application/json" 3600 []) /\
    ((~ exists f j, joined db0 uid_old f j) ->
     r = ByUid.JError "Incorrect or inexistent measurement_uid" /\
     ByUid.count_ev ByUid.is_s3 tr = 0) /\
    r = ByUid.Made (b "second") "application/json" 3600 [].
Proof.
  apply (ByUidFacts.get_measurement_answers env0 db0 None uid_old).
  - discriminate.
  - reflexivity.
Defined.

Lemma lookup_by_uid_first_witness :
  Meta.lookup_meta (request index_by_uid (Ret uid_old) (Raise MalformedIdentifier) None)
                   (ret None)
  = ([Timer "get_measurement_meta_by_uid"; QueryByUid uid_old], Ret (Meta.shown row_old)) /\
  Meta.lookup_meta (request index_by_uid (Raise MalformedIdentifier) (Ret rid) None)
                   (ret None)
  = ([Timer "get_measurement_meta_clickhouse"; QueryByReportInput rid ""],
     Ret (Some (Meta.format_msmt_meta row_old))) /\
  Meta.lookup_meta (request (fun _ => Meta.QueryFailed) (Ret uid_old) (Ret rid) None)
                   (ret None)
  = ([Timer "get_measurement_meta_by_uid"; QueryByUid uid_old;
      Timer "get_measurement_meta_clickhouse"; QueryByReportInput rid ""],
     Ret (Some (Meta.format_msmt_meta row_old))).
Proof.
  split; [|split].
  - apply (proj1 (MetaFacts.lookup_by_uid_first
                    (request index_by_uid (Ret uid_old) (Raise MalformedIdentifier) None)
                    (ret None)) uid_old (Some row_old)); reflexivity.
  - apply (proj1 (proj2 (MetaFacts.lookup_by_uid_first
                    (request index_by_uid (Raise MalformedIdentifier) (Ret rid) None)
                    (ret None))) MalformedIdentifier rid [] None); reflexivity.
  - apply (proj2 (proj2 (MetaFacts.lookup_by_uid_first
                    (request (fun _ => Meta.QueryFailed) (Ret uid_old) (Ret rid) None)
                    (ret None))) uid_old rid [] None); reflexivity.
Defined.

Lemma raw_measurement_route_witness :
  (outcome (Meta.get_raw_measurement
              (request index_by_uid (Ret uid_fresh) (Raise MalformedIdentifier) None))
   = Ret (Meta.EmptyDocument "application/json" (24 * 3600)) /\
   ByUid.count_ev Meta.is_source
     (trace (Meta.get_raw_measurement
               (request index_by_uid (Ret uid_fresh) (Raise MalformedIdentifier) None))) = 0) /\
  (Meta.probe_asn (Meta.format_msmt_meta row_old) <> 0 /\
   outcome (Meta.get_raw_measurement
              (request index_by_uid (Ret uid_old) (Raise MalformedIdentifier) None))
   = Ret (Meta.RawBody (b "second") "application/json" (24 * 3600))).
Proof.
  split.
  - apply (proj1 (MetaFacts.raw_measurement_route
                    (request index_by_uid (Ret uid_fresh) (Raise MalformedIdentifier) None))).
    reflexivity.
  - apply (proj2 (MetaFacts.raw_measurement_route
                    (request index_by_uid (Ret uid_old) (Raise MalformedIdentifier) None))
                 (Meta.format_msmt_meta row_old)).
    reflexivity.
Defined.

Lemma measurement_meta_route_witness :
  exists raw,
    outcome (Meta.get_measurement_meta
               (request index_by_uid (Ret uid_old) (Raise MalformedIdentifier)
                        (Some "True"%string)))
    = Ret (Meta.CachedJson "1m" (Some (Meta.format_msmt_meta row_old)) raw) /\
    (true = false ->
     raw = None /\
     ByUid.count_ev Meta.is_source
       (trace (Meta.get_measurement_meta
                 (request index_by_uid (Ret uid_old) (Raise MalformedIdentifier)
                          (Some "True"%string)))) = 0) /\
    (true = true -> raw = Some "second"%string).
Proof.
  apply (MetaFacts.measurement_meta_route
           (request index_by_uid (Ret uid_old) (Raise MalformedIdentifier)
                    (Some "True"%string))
           (Some (Meta.format_msmt_meta row_old))).
  reflexivity.
Defined.

Lemma listing_binds_what_it_names_witness :
  exists w ps,
    Listing.plan_listing clock args_report
    = Listing.Query w ps false "measurement_start_time desc" /\
    (forall c n, In (c, n) Listing.named_clauses ->
                 (In c w <-> exists v, In (n, v) ps)) /\
    NoDup (map fst ps) /\
    In ("param_1"%string, Listing.PInt 100) ps /\
    In ("param_2"%string, Listing.PInt 0) ps.
Proof.
  eexists _, _. split; [reflexivity|].
  apply (ListingFacts.listing_binds_what_it_names clock args_report _ _ _ _ eq_refl).
Defined.

Lemma listing_never_unwanted_witness :
  exists w ps,
    Listing.plan_listing clock args_report
    = Listing.Query w ps false "measurement_start_time desc" /\
    (In "probe_cc != 'ZZ'"%string w \/
     exists cc, Some "VE"%string = Some cc /\ cc <> "ZZ"%string /\
                In "probe_cc = :probe_cc"%string w /\
                In ("probe_cc"%string, Listing.PStr cc) ps) /\
    (In "probe_asn != 0"%string w \/
     exists n, Some 2607 = Some n /\ n <> 0 /\
               In "probe_asn = :probe_asn"%string w /\
               In ("probe_asn"%string, Listing.PNat n) ps).
Proof.
  eexists _, _. split; [reflexivity|].
  apply (ListingFacts.listing_never_unwanted clock args_report _ _ _ _ eq_refl).
Defined.

Lemma listing_input_overrides_witness :
  exists w ps,
    Listing.plan_listing clock args_report
    = Listing.Query w ps false "measurement_start_time desc" /\
    In "input = :input"%string w /\
    ~ In "domain = :domain"%string w /\
    ~ In "citizenlab.category_code = :category_code"%string w.
Proof.
  eexists _, _. split; [reflexivity|].
  apply (proj2 (ListingFacts.listing_input_overrides clock args_report _ _ _ _ eq_refl)).
  reflexivity.
Defined.

Lemma listing_time_window_witness :
  exists w ps,
    Listing.plan_listing clock args_plain
    = Listing.Query w ps false "measurement_start_time desc" /\
    In "measurement_start_time > :since"%string w /\
    In "measurement_start_time <= :until"%string w /\
    In ("until"%string, Listing.PDate (mkDatetime 2021 1 25 0 0 0)) ps /\
    In ("since"%string, Listing.PDate (mkDatetime 2020 12 26 0 0 0)) ps.
Proof.
  eexists _, _. split; [reflexivity|].
  apply (ListingFacts.listing_time_window clock args_plain _ _ _ _ eq_refl eq_refl eq_refl).
Defined.

Lemma page_metadata_witness :
  exists count pages current next,
    Listing.paginate 200 100 25 = Listing.Paged count pages current next /\
    ((current - 2) * 100 < 200 <= (current - 1) * 100)%Z /\
    ((25 < 100)%Z ->
     count = 225%Z /\ next = None /\ ((pages - 1) * 100 < count <= pages * 100)%Z) /\
    ((100 <= 25)%Z -> count = (-1)%Z /\ pages = (-1)%Z /\ next = Some 300%Z).
Proof.
  apply (ListingFacts.page_metadata 200 100 25).
  - lia.
  - lia.
  - reflexivity.
  - reflexivity.
Defined.

Lemma page_on_aligned_offset_witness :
  Listing.paginate (2 * 100) 100 25 = Listing.Paged (2 * 100 + 25) (2 + 1) (2 + 1) None.
Proof.
  apply (ListingFacts.page_on_aligned_offset 2 100 25).
  - lia.
  - lia.
  - reflexivity.
  - reflexivity.
  - reflexivity.
Defined.

Lemma torsf_stats_fail_on_rows_witness :
  Stats.get_torsf_stats toy_parse_date clock torsf_db (Some "VE"%string) None
                        (Some "2021-01-23"%string)
  = Stats.Responds (Stats.JError "'measurement_count'").
Proof.
  apply (StatsFacts.torsf_stats_fail_on_rows toy_parse_date clock torsf_db
           (Some "VE"%string) None (Some "2021-01-23"%string) _ _ _ torsf_row []
           eq_refl eq_refl).
  reflexivity.
Defined.

End RouteWitness.
